(** * OptiSpend financial calculation engine: a shallow embedding

    The definitions below embed the static methods of [FinancialCalculator]
    (src/main.py) that the specification speaks about.

    Numbers.  Python's [int] and [float] values are embedded as exact
    rationals ([Q]); equalities between computed numbers are stated with
    [==] ([Qeq]).  Rounding of binary floating point is not part of that
    model; [float('inf')] is the constructor [Infinity] of [bound].  Where
    the last digit matters, [calculate_income_tax] and [calculate_gst] are
    embedded a second time over IEEE 754 binary64 ([PrimFloat]), in the
    module [Binary64].

    Errors.  The embedded methods raise [ZeroDivisionError] when [/] meets a
    zero divisor; [optimize_budget] also raises [TypeError] when, for an
    empty spending map, a spending constraint is the plain boolean [False].
    Exceptions are threaded through the small error monad [outcome]. *)

From Stdlib Require Import Floats.
From Stdlib Require Import QArith Qpower Lqa Lia List Bool.
From stdpp Require Import gmap strings fin_maps.
Import ListNotations.

#[local] Set Warnings "-inexact-float".
#[local] Open Scope Q_scope.

(** ** Outcomes of a Python call *)

Inductive exn : Set := ZeroDivisionError | TypeError.

Inductive outcome (A : Type) : Type :=
| Returned (a : A)
| Raised (e : exn).

Arguments Returned {A} a.
Arguments Raised {A} e.

#[global] Instance outcome_ret : MRet outcome := fun A a => Returned a.

#[global] Instance outcome_bind : MBind outcome := fun A B k m =>
  match m with
  | Returned a => k a
  | Raised e => Raised e
  end.

(** ** Python arithmetic on numbers *)

Module Py.

Definition gt (a b : Q) : bool := negb (Qle_bool a b).
Definition lt (a b : Q) : bool := negb (Qle_bool b a).

(** [max(a, b)] keeps [a] unless [b > a]; [min(a, b)] keeps [a] unless
    [b < a]. *)
Definition max (a b : Q) : Q := if gt b a then b else a.
Definition min (a b : Q) : Q := if lt b a then b else a.

(** True division [a / b]. *)
Definition div (a b : Q) : outcome Q :=
  if Qeq_bool b 0 then Raised ZeroDivisionError else Returned (a / b).

(** [a ** n] for an [int] exponent [n >= 0]. *)
Definition pow (a : Q) (n : nat) : Q := a ^ Z.of_nat n.

End Py.

(** ** [calculate_income_tax] *)

Inductive bound : Type :=
| Finite (q : Q)
| Infinity.

Record SlabDetail : Type := mkSlabDetail {
  sd_from : Q;
  sd_to : bound;
  sd_rate : Q;
  sd_amount : Q;
  sd_tax : Q
}.

Record TaxResult : Type := mkTaxResult {
  total_tax : Q;
  base_tax : Q;
  cess : Q;
  effective_rate : Q;
  slabs : list SlabDetail;
  taxable_income : Q
}.

Definition new_regime_slabs : list (bound * Q) :=
  [ (Finite 250000, 0);
    (Finite 500000, 5 # 100);
    (Finite 750000, 10 # 100);
    (Finite 1000000, 15 # 100);
    (Finite 1250000, 20 # 100);
    (Finite 1500000, 25 # 100);
    (Infinity, 30 # 100) ].

Definition old_regime_slabs : list (bound * Q) :=
  [ (Finite 250000, 0);
    (Finite 500000, 5 # 100);
    (Finite 1000000, 20 # 100);
    (Infinity, 30 # 100) ].

Definition slabs_of (regime : string) : list (bound * Q) :=
  if String.eqb regime "new" then new_regime_slabs else old_regime_slabs.

(** [min(taxable_income, limit)] where the limit may be [float('inf')]. *)
Definition min_bound (x : Q) (b : bound) : Q :=
  match b with
  | Finite l => Py.min x l
  | Infinity => x
  end.

(** State of the slab loop: [tax], [prev_limit], [slab_details]. *)
Record SlabState : Type := mkSlabState {
  st_tax : Q;
  st_prev : bound;
  st_details : list SlabDetail
}.

Definition slab_step (ti : Q) (st : SlabState) (s : bound * Q) : SlabState :=
  let '(limit, rate) := s in
  match st_prev st with
  | Finite prev =>
      if Py.gt ti prev then
        let taxable := min_bound ti limit - prev in
        let slab_tax := taxable * rate in
        {| st_tax := st_tax st + slab_tax;
           st_prev := limit;
           st_details := st_details st ++
             [ {| sd_from := prev; sd_to := limit; sd_rate := rate * 100;
                  sd_amount := taxable; sd_tax := slab_tax |} ] |}
      else st
  | Infinity => st
  end.

Definition slab_loop (ti : Q) (table : list (bound * Q)) (st : SlabState) : SlabState :=
  fold_left (slab_step ti) table st.

Definition slab_init : SlabState :=
  {| st_tax := 0; st_prev := Finite 0; st_details := [] |}.

Definition calculate_income_tax (income : Q) (regime : string) (deductions : Q)
  : outcome TaxResult :=
  let ti := Py.max (income - deductions) 0 in
  let st := slab_loop ti (slabs_of regime) slab_init in
  let tax := st_tax st in
  let cess := tax * (4 # 100) in
  let total := tax + cess in
  rate ← (if Py.gt income 0
           then (r ← Py.div total income; Returned (r * 100))
           else Returned 0);
  Returned {| total_tax := total;
              base_tax := tax;
              cess := cess;
              effective_rate := rate;
              slabs := st_details st;
              taxable_income := ti |}.

(** ** [calculate_gst] *)

Record GstResult : Type := mkGstResult {
  gst_base_price : Q;
  gst_rate : Q;
  gst_amount : Q;
  gst_total : Q;
  gst_category : string
}.

Definition gst_rates : gmap string Q :=
  <["Essential" := 5 # 100]>
    (<["Standard" := 12 # 100]>
       (<["Luxury" := 18 # 100]>
          (<["Special" := 28 # 100]> ∅))).

(** [rates.get(category, 0.12)] *)
Definition gst_rate_of (category : string) : Q :=
  default (12 # 100) (gst_rates !! category).

Definition calculate_gst (amount : Q) (category : string) : GstResult :=
  let rate := gst_rate_of category in
  let gst := amount * rate in
  {| gst_base_price := amount;
     gst_rate := rate * 100;
     gst_amount := gst;
     gst_total := amount + gst;
     gst_category := category |}.

(** ** [calculate_investment_growth] *)

Record YearEntry : Type := mkYearEntry {
  ye_year : nat;
  ye_nominal : Q;
  ye_real : Q;
  ye_growth : Q
}.

Record GrowthResult : Type := mkGrowthResult {
  gr_nominal : Q;
  gr_real : Q;
  gr_yearly : list YearEntry;
  gr_cagr : Q
}.

(** [range(1, years + 1)] *)
Definition year_range (years : nat) : list nat := seq 1 years.

Section Growth.

(** [x ** y] at an exponent that is not an integer ([1 / 12], [1 / years]):
    the value is whatever the power returns; nothing is assumed of it.  (On
    a negative base Python returns a complex number; what is proved below
    uses no property of the returned value, only where it is used.) *)
Variable fpow : Q -> Q -> Q.

Fixpoint lumpsum_years (principal rate inflation : Q) (ys : list nat)
    (nominal : Q) (yearly : list YearEntry) : outcome (list YearEntry) :=
  match ys with
  | [] => Returned yearly
  | year :: rest =>
      let nominal := nominal * (1 + rate) in
      real ← Py.div nominal (Py.pow (1 + inflation) year);
      g ← Py.div (nominal - principal) principal;
      lumpsum_years principal rate inflation rest nominal
        (yearly ++ [ {| ye_year := year; ye_nominal := nominal;
                        ye_real := real; ye_growth := g * 100 |} ])
  end.

(** One month of the SIP loop: [nominal += monthly_investment] then
    [nominal *= (1 + rate) ** (1 / 12)]. *)
Definition sip_month (principal rate : Q) (nominal : Q) : Q :=
  (nominal + principal) * fpow (1 + rate) (1 # 12).

(** [for month in range(1, 13)] *)
Definition sip_months (principal rate : Q) (nominal : Q) : Q :=
  fold_left (fun n _ => sip_month principal rate n) (seq 1 12) nominal.

Fixpoint sip_years (principal rate inflation : Q) (ys : list nat)
    (nominal : Q) (yearly : list YearEntry) : outcome (list YearEntry) :=
  match ys with
  | [] => Returned yearly
  | year :: rest =>
      let nominal := sip_months principal rate nominal in
      real ← Py.div nominal (Py.pow (1 + inflation) year);
      g ← Py.div nominal (principal * 12 * inject_Z (Z.of_nat year));
      sip_years principal rate inflation rest nominal
        (yearly ++ [ {| ye_year := year; ye_nominal := nominal;
                        ye_real := real; ye_growth := (g - 1) * 100 |} ])
  end.

Definition calculate_investment_growth (principal : Q) (years : nat)
    (rate : Q) (mode : string) (inflation : Q) : outcome GrowthResult :=
  yearly ← (if String.eqb mode "lumpsum"
            then lumpsum_years principal rate inflation (year_range years)
                   principal []
            else sip_years principal rate inflation (year_range years) 0 []);
  let final_nominal :=
    match last (yearly : list YearEntry) with
    | Some e => ye_nominal e
    | None => principal
    end in
  let final_real :=
    match last yearly with
    | Some e => ye_real e
    | None => principal
    end in
  cagr ← (if (0 <? years)%nat
          then (q ← Py.div final_nominal principal;
                e ← Py.div 1 (inject_Z (Z.of_nat years));
                Returned ((fpow q e - 1) * 100))
          else Returned 0);
  Returned {| gr_nominal := final_nominal;
              gr_real := final_real;
              gr_yearly := yearly;
              gr_cagr := cagr |}.

End Growth.

(** ** [calculate_opportunity_cost] *)

Record OpportunityCost : Type := mkOpportunityCost {
  oc_total : Q;
  oc_yearly : list (nat * Q)
}.

(** State of the loop: [total], [yearly_data]. *)
Definition opportunity_step (amount alternative_return : Q)
    (st : Q * list (nat * Q)) (year : nat) : Q * list (nat * Q) :=
  let total := amount * (Py.pow (1 + alternative_return) year - 1) in
  (total, snd st ++ [(year, total)]).

Definition calculate_opportunity_cost (amount : Q) (years : nat)
    (alternative_return : Q) : OpportunityCost :=
  let st := fold_left (opportunity_step amount alternative_return)
              (year_range years) (0, []) in
  {| oc_total := fst st; oc_yearly := snd st |}.

(** ** [calculate_financial_health] *)

Record HealthComponent : Type := mkHealthComponent {
  hc_ratio : Q;
  hc_score : Q;
  hc_ideal : Q
}.

Record HealthScore : Type := mkHealthScore {
  total_score : Q;
  h_savings : HealthComponent;
  h_investments : HealthComponent;
  h_debt : HealthComponent;
  h_insurance : HealthComponent;
  h_expenses : HealthComponent
}.

(** [x / y if income > 0 else 0] *)
Definition guarded_ratio (income x y : Q) : outcome Q :=
  if Py.gt income 0 then Py.div x y else Returned 0.

Definition calculate_financial_health
    (income expenses savings investments liabilities insurance_cover age : Q)
  : outcome HealthScore :=
  savings_ratio ← guarded_ratio income savings income;
  q1 ← Py.div savings_ratio (2 # 10);
  let savings_score := Py.min q1 1 * 25 in
  investment_ratio ←
    guarded_ratio income investments (income * Py.max (age - 25) 5);
  q2 ← Py.div investment_ratio 2;
  let investment_score := Py.min q2 1 * 25 in
  debt_ratio ← guarded_ratio income liabilities (income * (5 # 10));
  let debt_score := (1 - Py.min debt_ratio 1) * 20 in
  insurance_adequacy ← guarded_ratio income insurance_cover (income * 10);
  let insurance_score := Py.min insurance_adequacy 1 * 15 in
  expense_ratio ← guarded_ratio income expenses income;
  let excess_expense := Py.max (expense_ratio - (6 # 10)) 0 in
  q5 ← Py.div excess_expense (4 # 10);
  let expense_score := (1 - Py.min q5 1) * 15 in
  let total :=
    savings_score + investment_score + debt_score + insurance_score
    + expense_score in
  Returned
    {| total_score := Py.min (Py.max total 0) 100;
       h_savings := {| hc_ratio := savings_ratio; hc_score := savings_score;
                       hc_ideal := 2 # 10 |};
       h_investments := {| hc_ratio := investment_ratio;
                           hc_score := investment_score; hc_ideal := 2 |};
       h_debt := {| hc_ratio := debt_ratio; hc_score := debt_score;
                    hc_ideal := 1 |};
       h_insurance := {| hc_ratio := insurance_adequacy;
                         hc_score := insurance_score; hc_ideal := 1 |};
       h_expenses := {| hc_ratio := expense_ratio; hc_score := expense_score;
                        hc_ideal := 6 # 10 |} |}.

(** ** [optimize_budget]

    The linear program is built with PuLP and handed to its solver.  The
    program is the data below.  The solver is a parameter of the embedding:
    a function from the program to the status [prob.solve()] reports and the
    values it leaves on the variables. *)

Record SpendingEntry : Type := mkSpendingEntry {
  amount : Q;
  happiness : Q;
  essential : bool
}.

Record LpVariable : Type := mkLpVariable {
  name : string;
  lowBound : Q;
  upBound : Q
}.

(** A linear expression: a list of [coefficient * variable] and a constant. *)
Record LpAffineExpression : Type := mkLpAffineExpression {
  terms : list (Q * string);
  constant : Q
}.

Inductive LpSense : Set := LpConstraintLE | LpConstraintGE.

Record LpConstraint : Type := mkLpConstraint {
  c_lhs : LpAffineExpression;
  c_sense : LpSense;
  c_rhs : Q
}.

Record LpProblem : Type := mkLpProblem {
  lp_variables : list LpVariable;
  lp_objective : LpAffineExpression;
  lp_constraints : list LpConstraint
}.

Inductive LpStatus : Set :=
| LpStatusNotSolved
| LpStatusOptimal
| LpStatusInfeasible
| LpStatusUnbounded
| LpStatusUndefined.

(** Value of an expression under an assignment of the variables. *)
Definition qsum (l : list Q) : Q := fold_right Qplus 0 l.

Definition lp_eval (e : LpAffineExpression) (v : gmap string Q) : Q :=
  qsum (map (fun t : Q * string => fst t * default 0 (v !! snd t)) (terms e))
  + constant e.

Definition within_bounds (v : gmap string Q) (x : LpVariable) : bool :=
  match v !! name x with
  | Some q => Qle_bool (lowBound x) q && Qle_bool q (upBound x)
  | None => false
  end.

Definition holds (v : gmap string Q) (c : LpConstraint) : bool :=
  match c_sense c with
  | LpConstraintLE => Qle_bool (lp_eval (c_lhs c) v) (c_rhs c)
  | LpConstraintGE => Qle_bool (c_rhs c) (lp_eval (c_lhs c) v)
  end.

(** [v] gives every variable a value within its bounds and meets every
    constraint. *)
Definition lp_satisfies (p : LpProblem) (v : gmap string Q) : bool :=
  forallb (within_bounds v) (lp_variables p)
  && forallb (holds v) (lp_constraints p).

Definition lp_feasible (p : LpProblem) : Prop :=
  exists v, lp_satisfies p v = true.

(** [cat.lower()] *)
Definition lower_ascii (c : Ascii.ascii) : Ascii.ascii :=
  let n := Ascii.N_of_ascii c in
  if ((65 <=? n) && (n <=? 90))%N then Ascii.ascii_of_N (n + 32) else c.

Fixpoint lower (s : string) : string :=
  match s with
  | EmptyString => EmptyString
  | String c rest => String (lower_ascii c) (lower rest)
  end.

(** [cat.lower() in ['rent', 'utilities']] *)
Definition is_essential (cat : string) : bool :=
  existsb (String.eqb (lower cat)) ["rent"; "utilities"].

(** The variable of one category, [LpVariable(cat, lowBound, upBound)], with
    its risk-dependent bounds.  The variable is named by the category, as the
    caller's lookup [optimized_budget[cat]] expects; category names are taken
    to be names that PuLP keeps as they are. *)
Definition budget_variable (risk_appetite : Q) (cat : string)
    (data : SpendingEntry) : LpVariable :=
  {| name := cat;
     lowBound := amount data *
       (if Py.gt risk_appetite (5 # 10) then 7 # 10 else 9 # 10);
     upBound := amount data *
       (if Py.gt risk_appetite (5 # 10) then 13 # 10 else 11 # 10) |}.

(** [sum(vars.values())] *)
Definition sum_of_variables (vars : list LpVariable) : LpAffineExpression :=
  {| terms := map (fun x => (1, name x)) vars; constant := 0 |}.

(** One summand of the objective:
    [(happiness / amount) * vars[cat] * risk_appetite
     + (min_savings / income) * (1 - risk_appetite)]. *)
Definition objective_term (income min_savings risk_appetite : Q)
    (item : string * SpendingEntry) : outcome ((Q * string) * Q) :=
  h ← Py.div (happiness (snd item)) (amount (snd item));
  s ← Py.div min_savings income;
  Returned ((h * risk_appetite, fst item), s * (1 - risk_appetite)).

Fixpoint objective_terms (income min_savings risk_appetite : Q)
    (items : list (string * SpendingEntry))
  : outcome (list ((Q * string) * Q)) :=
  match items with
  | [] => Returned []
  | item :: rest =>
      t ← objective_term income min_savings risk_appetite item;
      ts ← objective_terms income min_savings risk_appetite rest;
      Returned (t :: ts)
  end.

Definition essential_constraints (items : list (string * SpendingEntry))
  : list LpConstraint :=
  flat_map (fun item : string * SpendingEntry =>
              if is_essential (fst item)
              then [ {| c_lhs := {| terms := [(1, fst item)]; constant := 0 |};
                        c_sense := LpConstraintGE;
                        c_rhs := amount (snd item) * (9 # 10) |} ]
              else []) items.

(** [prob += sum(vars.values()) <= rhs] (or [>=]).  With at least one
    variable the comparison is a constraint and is added.  With none,
    [sum] is the integer 0 and the comparison a plain boolean, which the
    problem ignores when [True] and rejects with a [TypeError] when [False]. *)
Definition add_total_constraint (vars : list LpVariable) (sense : LpSense)
    (rhs : Q) (cs : list LpConstraint) : outcome (list LpConstraint) :=
  match vars with
  | [] =>
      if match sense with
         | LpConstraintLE => Qle_bool 0 rhs
         | LpConstraintGE => Qle_bool rhs 0
         end
      then Returned cs else Raised TypeError
  | _ :: _ =>
      Returned (cs ++ [ {| c_lhs := sum_of_variables vars; c_sense := sense;
                           c_rhs := rhs |} ])
  end.

(** The problem [prob] as it stands when [prob.solve()] is called. *)
Definition budget_problem (income : Q)
    (spending_data : gmap string SpendingEntry)
    (min_savings risk_appetite : Q) : outcome LpProblem :=
  let items := map_to_list spending_data in
  let vars := map (fun item => budget_variable risk_appetite (fst item) (snd item))
                  items in
  ts ← objective_terms income min_savings risk_appetite items;
  cs1 ← add_total_constraint vars LpConstraintLE (income - min_savings) [];
  cs2 ← add_total_constraint vars LpConstraintGE (income * (4 # 10)) cs1;
  Returned
    {| lp_variables := vars;
       lp_objective := {| terms := map fst ts; constant := qsum (map snd ts) |};
       lp_constraints := cs2 ++ essential_constraints items |}.

(** [{var.name: var.varValue for var in vars.values()}]; a variable the
    solver left without a value has [varValue] [None]. *)
Definition var_values (assignment : gmap string Q) (vars : list LpVariable)
  : gmap string (option Q) :=
  fold_left (fun m x => <[name x := assignment !! name x]> m) vars ∅.

Section Optimizer.

(** [prob.solve()]: the status it reports and the values it leaves on the
    variables. *)
Variable solve : LpProblem -> LpStatus * gmap string Q.

Definition optimize_budget (income : Q)
    (spending_data : gmap string SpendingEntry)
    (min_savings risk_appetite : Q) : outcome (gmap string (option Q)) :=
  prob ← budget_problem income spending_data min_savings risk_appetite;
  let solved := solve prob in
  Returned (var_values (snd solved) (lp_variables prob)).

End Optimizer.

(** Total of an allocation mapping. *)
Definition allocation_total (alloc : gmap string Q) : Q :=
  qsum (map snd (map_to_list alloc)).

(** ** [calculate_insurance_needs] *)

Record InsuranceNeeds : Type := mkInsuranceNeeds {
  in_total_needs : Q;
  in_existing_cover : Q;
  in_additional_needed : Q;
  in_income_replacement : Q;
  in_liabilities_cover : Q;
  in_education_cover : Q
}.

Definition calculate_insurance_needs
    (age income dependents liabilities existing_cover : Q) : InsuranceNeeds :=
  let income_replacement := income * 10 in
  let liabilities_cover := liabilities * (12 # 10) in
  let education_cover := 500000 * dependents in
  let total_needs := income_replacement + liabilities_cover + education_cover in
  let additional_needed := Py.max (total_needs - existing_cover) 0 in
  {| in_total_needs := total_needs;
     in_existing_cover := existing_cover;
     in_additional_needed := additional_needed;
     in_income_replacement := income_replacement;
     in_liabilities_cover := liabilities_cover;
     in_education_cover := education_cover |}.

(** ** [get_tax_saving_options] *)

(** The second component of an option: a number, or a text such as
    ["Full amount"]. *)
Inductive Limit : Type :=
| Rupees (q : Q)
| Words (text : string).

Definition section_80c : string * Limit * string :=
  ("Section 80C (ELSS, PPF, etc.)", Rupees 150000,
   "Invest in tax-saving instruments").

Definition get_tax_saving_options (income : Q) (regime : string)
  : list (string * Limit * string) :=
  let options :=
    if String.eqb regime "old" || Py.gt income 750000
    then [section_80c] else [] in
  if String.eqb regime "old" then
    options ++
    [ ("Section 80D (Health Insurance)", Rupees 25000,
       "Health insurance premium");
      ("NPS (Additional ‚Çπ50k)", Rupees 50000,
       "National Pension Scheme contribution");
      ("Home Loan Interest", Rupees (Py.min 200000 (income * (3 # 10))),
       "Interest on home loan");
      ("Education Loan Interest", Words "Full amount",
       "Interest on education loan");
      ("Donations (80G)", Words "Varies", "Eligible charitable donations") ]
  else
    options ++
    [ ("NPS (Employer Contribution)", Rupees 50000,
       "Employer's NPS contribution") ].

(** ** [future_value], for a whole number of years *)


(** ** [bulk_purchase_analysis] *)



(** ** Exceptions of the remaining methods

    [calculate_value_efficiency] and [generate_spending_forecast] can also
    raise [ValueError]. *)

Inductive pyexn : Set :=
| ValueError
| OfExn (e : exn).

Inductive result (A : Type) : Type :=
| Done (a : A)
| Failed (e : pyexn).

Arguments Done {A} a.
Arguments Failed {A} e.

#[global] Instance result_ret : MRet result := fun A a => Done a.

#[global] Instance result_bind : MBind result := fun A B k m =>
  match m with
  | Done a => k a
  | Failed e => Failed e
  end.

Definition lift {A : Type} (m : outcome A) : result A :=
  match m with
  | Returned a => Done a
  | Raised e => Failed (OfExn e)
  end.

(** ** [calculate_value_efficiency] *)

(** [max(xs)] of a sequence: the first largest element; [ValueError] when
    the sequence is empty. *)
Definition py_max_of (xs : list Q) : result Q :=
  match xs with
  | [] => Failed ValueError
  | x :: rest => Done (fold_left (fun m a => if Py.gt a m then a else m) rest x)
  end.

(** One entry of the comprehension:
    [cat: happiness / (amount / max_amount)]. *)
Definition efficiency_of (max_amount : Q) (data : SpendingEntry) : outcome Q :=
  share ← Py.div (amount data) max_amount;
  Py.div (happiness data) share.

Fixpoint efficiency_items (max_amount : Q)
    (items : list (string * SpendingEntry)) : outcome (list (string * Q)) :=
  match items with
  | [] => Returned []
  | (cat, data) :: rest =>
      e ← efficiency_of max_amount data;
      es ← efficiency_items max_amount rest;
      Returned ((cat, e) :: es)
  end.

Definition calculate_value_efficiency
    (spending_data : gmap string SpendingEntry) : result (gmap string Q) :=
  let items := map_to_list spending_data in
  max_amount ← py_max_of (map (fun item => amount (snd item)) items);
  es ← lift (efficiency_items max_amount items);
  Done (list_to_map es : gmap string Q).

(** ** [generate_spending_forecast]

    The draws of [np.random.uniform(0.95, 1.15, n)] are a parameter: the
    function [uniform month n] gives the [n] numbers drawn in the iteration
    of [month].  The data frame is the list of its rows. *)

(** A cell of a row: the month label or a number. *)
Inductive Cell : Type :=
| Label (text : string)
| Number (q : Q).

(** [datetime(2023, month, 1).strftime('%b %Y')]; [ValueError] when the
    month is not in 1..12. *)
Definition month_label (month : nat) : result string :=
  match month with
  | 1 => Done "Jan 2023" | 2 => Done "Feb 2023" | 3 => Done "Mar 2023"
  | 4 => Done "Apr 2023" | 5 => Done "May 2023" | 6 => Done "Jun 2023"
  | 7 => Done "Jul 2023" | 8 => Done "Aug 2023" | 9 => Done "Sep 2023"
  | 10 => Done "Oct 2023" | 11 => Done "Nov 2023" | 12 => Done "Dec 2023"
  | _ => Failed ValueError
  end%nat.

(** [[base * var for base, var in zip(base_values, variation)]]; a base
    that is [None] makes the product a [TypeError]. *)
Fixpoint monthly_products (base_values : list (option Q)) (variation : list Q)
  : result (list Q) :=
  match base_values, variation with
  | base :: bases, var :: vars =>
      match base with
      | Some b =>
          rest ← monthly_products bases vars;
          Done (b * var :: rest)
      | None => Failed (OfExn TypeError)
      end
  | _, _ => Done []
  end.

(** [categories.index('Shopping') if 'Shopping' in categories else -1] *)
Fixpoint index_of (x : string) (l : list string) : option nat :=
  match l with
  | [] => None
  | y :: rest =>
      if String.eqb y x then Some 0%nat
      else option_map S (index_of x rest)
  end.

(** [monthly_values[i] *= 1.5] *)
Fixpoint scale_at (i : nat) (l : list Q) : list Q :=
  match l, i with
  | [], _ => []
  | x :: rest, O => x * (15 # 10) :: rest
  | x :: rest, S j => x :: scale_at j rest
  end.

(** [{'Month': label, **dict(zip(categories, monthly_values))}] *)
Definition forecast_row (label : string) (categories : list string)
    (monthly_values : list Q) : gmap string Cell :=
  fold_left (fun row kv => <[fst kv := Number (snd kv)]> row)
    (combine categories monthly_values)
    (<["Month" := Label label]> (∅ : gmap string Cell)).

Section Forecast.

Variable uniform : nat -> nat -> list Q.

Definition forecast_month (categories : list string)
    (base_values : list (option Q)) (month : nat)
  : result (gmap string Cell) :=
  let variation := uniform month (length categories) in
  monthly_values ← monthly_products base_values variation;
  let monthly_values :=
    if (month =? 12)%nat then
      match index_of "Shopping" categories with
      | Some i => scale_at i monthly_values
      | None => monthly_values
      end
    else monthly_values in
  label ← month_label month;
  Done (forecast_row label categories monthly_values).

Fixpoint forecast_loop (categories : list string)
    (base_values : list (option Q)) (months : list nat)
    (forecast : list (gmap string Cell)) : result (list (gmap string Cell)) :=
  match months with
  | [] => Done forecast
  | month :: rest =>
      row ← forecast_month categories base_values month;
      forecast_loop categories base_values rest (forecast ++ [row])
  end.

Definition generate_spending_forecast
    (optimized_budget : gmap string (option Q)) (months : nat)
  : result (list (gmap string Cell)) :=
  let base_values := map snd (map_to_list optimized_budget) in
  let categories := map fst (map_to_list optimized_budget) in
  forecast_loop categories base_values (year_range months) [].

End Forecast.

(** * The tax and GST arithmetic in binary64

    CPython's [float] is IEEE 754 binary64, and the rates of both methods
    are [float] literals.  The two methods are embedded here a second time
    over [PrimFloat], operation by operation, to state what they return to
    the last digit.  An [int] argument is read as the [float] of the same
    value, which loses nothing while the integers involved stay below
    2^53. *)

Module Binary64.

#[local] Open Scope float_scope.

Definition gt (a b : float) : bool := PrimFloat.ltb b a.
Definition lt (a b : float) : bool := PrimFloat.ltb a b.

(** [max(a, b)] keeps [a] unless [b > a]; [min(a, b)] keeps [a] unless
    [b < a]. *)
Definition max (a b : float) : float := if gt b a then b else a.
Definition min (a b : float) : float := if lt b a then b else a.

(** True division [a / b]: a zero divisor of either sign raises. *)
Definition div (a b : float) : outcome float :=
  if PrimFloat.eqb b 0 then Raised ZeroDivisionError else Returned (a / b).

(** ** [calculate_income_tax] *)

Record SlabDetail : Type := mkSlabDetail {
  sd_from : float;
  sd_to : float;
  sd_rate : float;
  sd_amount : float;
  sd_tax : float
}.

Record TaxResult : Type := mkTaxResult {
  total_tax : float;
  base_tax : float;
  cess : float;
  effective_rate : float;
  slabs : list SlabDetail;
  taxable_income : float
}.

Definition new_regime_slabs : list (float * float) :=
  [ (250000, 0);
    (500000, 0.05);
    (750000, 0.10);
    (1000000, 0.15);
    (1250000, 0.20);
    (1500000, 0.25);
    (infinity, 0.30) ].

Definition old_regime_slabs : list (float * float) :=
  [ (250000, 0);
    (500000, 0.05);
    (1000000, 0.20);
    (infinity, 0.30) ].

Definition slabs_of (regime : string) : list (float * float) :=
  if String.eqb regime "new" then new_regime_slabs else old_regime_slabs.

(** State of the slab loop: [tax], [prev_limit], [slab_details]. *)
Record SlabState : Type := mkSlabState {
  st_tax : float;
  st_prev : float;
  st_details : list SlabDetail
}.

Definition slab_step (ti : float) (st : SlabState) (s : float * float)
  : SlabState :=
  let '(limit, rate) := s in
  if gt ti (st_prev st) then
    let taxable := min ti limit - st_prev st in
    let slab_tax := taxable * rate in
    {| st_tax := st_tax st + slab_tax;
       st_prev := limit;
       st_details := st_details st ++
         [ {| sd_from := st_prev st; sd_to := limit; sd_rate := rate * 100;
              sd_amount := taxable; sd_tax := slab_tax |} ] |}
  else st.

Definition slab_loop (ti : float) (table : list (float * float))
    (st : SlabState) : SlabState :=
  fold_left (slab_step ti) table st.

Definition slab_init : SlabState :=
  {| st_tax := 0; st_prev := 0; st_details := [] |}.

Definition calculate_income_tax (income : float) (regime : string)
    (deductions : float) : outcome TaxResult :=
  let ti := max (income - deductions) 0 in
  let st := slab_loop ti (slabs_of regime) slab_init in
  let tax := st_tax st in
  let cess := tax * 0.04 in
  let total := tax + cess in
  rate ← (if gt income 0
           then (r ← div total income; Returned (r * 100))
           else Returned 0);
  Returned {| total_tax := total;
              base_tax := tax;
              cess := cess;
              effective_rate := rate;
              slabs := st_details st;
              taxable_income := ti |}.

(** ** [calculate_gst] *)

Record GstResult : Type := mkGstResult {
  gst_base_price : float;
  gst_rate : float;
  gst_amount : float;
  gst_total : float;
  gst_category : string
}.

Definition gst_rates : gmap string float :=
  <["Essential" := 0.05]>
    (<["Standard" := 0.12]>
       (<["Luxury" := 0.18]>
          (<["Special" := 0.28]> (∅ : gmap string float)))).

(** [rates.get(category, 0.12)] *)
Definition gst_rate_of (category : string) : float :=
  default 0.12 (gst_rates !! category).

Definition calculate_gst (amount : float) (category : string) : GstResult :=
  let rate := gst_rate_of category in
  let gst := amount * rate in
  {| gst_base_price := amount;
     gst_rate := rate * 100;
     gst_amount := gst;
     gst_total := amount + gst;
     gst_category := category |}.

End Binary64.

(** * Specification predicates *)

(** [x <= b] for a bound that may be infinite. *)
Definition bound_le (x : Q) (b : bound) : Prop :=
  match b with
  | Finite l => x <= l
  | Infinity => True
  end.

(** The slabs of a breakdown are ordered and contiguous from [start]: each
    begins where the one before it ends, and only the last may be unbounded. *)
Fixpoint contiguous (start : Q) (l : list SlabDetail) : Prop :=
  match l with
  | [] => True
  | s :: rest =>
      sd_from s = start /\
      match sd_to s with
      | Finite t => start < t /\ contiguous t rest
      | Infinity => rest = []
      end
  end.

(** A slab table with ascending limits above [prev] whose last slab is
    unbounded, and with no negative rate. *)
Fixpoint ascending (prev : Q) (table : list (bound * Q)) : Prop :=
  match table with
  | [] => False
  | (Finite l, rate) :: rest => prev < l /\ 0 <= rate /\ ascending l rest
  | (Infinity, rate) :: rest => 0 <= rate /\ rest = []
  end.

(** The breakdown entries the slab loop appends when it starts at
    [prev_limit = prev]. *)
Fixpoint slab_entries (ti prev : Q) (table : list (bound * Q)) : list SlabDetail :=
  match table with
  | [] => []
  | (limit, rate) :: rest =>
      if Py.gt ti prev then
        {| sd_from := prev; sd_to := limit; sd_rate := rate * 100;
           sd_amount := min_bound ti limit - prev;
           sd_tax := (min_bound ti limit - prev) * rate |}
        :: match limit with
           | Finite l => slab_entries ti l rest
           | Infinity => []
           end
      else []
  end.

(** The direct recurrence: [months] sequential steps of (add principal,
    multiply by (1 + rate) ** (1 / 12)) starting from 0. *)
Definition sip_recurrence (fpow : Q -> Q -> Q) (principal rate : Q)
    (months : nat) : Q :=
  Nat.iter months (fun n => (n + principal) * fpow (1 + rate) (1 # 12)) 0.

(** The yearly entry built from the recurrence for year [year]. *)
Definition sip_entry (fpow : Q -> Q -> Q) (principal rate inflation : Q)
    (year : nat) : YearEntry :=
  {| ye_year := year;
     ye_nominal := sip_recurrence fpow principal rate (12 * year);
     ye_real := sip_recurrence fpow principal rate (12 * year)
                / Py.pow (1 + inflation) year;
     ye_growth :=
       (sip_recurrence fpow principal rate (12 * year)
        / (principal * 12 * inject_Z (Z.of_nat year)) - 1) * 100 |}.

(** The value recorded for [year]: [amount * ((1 + rate) ** year - 1)]. *)
Definition opportunity_value (amount rate : Q) (year : nat) : Q :=
  amount * (Py.pow (1 + rate) year - 1).

(** The value of [x / y if income > 0 else 0] when it does not raise. *)
Definition ratio_or_zero (income x y : Q) : Q :=
  if Py.gt income 0 then x / y else 0.

(** The record the call returns, written without the error monad. *)
Definition health_record
    (income expenses savings investments liabilities insurance_cover age : Q)
  : HealthScore :=
  let savings_ratio := ratio_or_zero income savings income in
  let savings_score := Py.min (savings_ratio / (2 # 10)) 1 * 25 in
  let investment_ratio :=
    ratio_or_zero income investments (income * Py.max (age - 25) 5) in
  let investment_score := Py.min (investment_ratio / 2) 1 * 25 in
  let debt_ratio := ratio_or_zero income liabilities (income * (5 # 10)) in
  let debt_score := (1 - Py.min debt_ratio 1) * 20 in
  let insurance_adequacy :=
    ratio_or_zero income insurance_cover (income * 10) in
  let insurance_score := Py.min insurance_adequacy 1 * 15 in
  let expense_ratio := ratio_or_zero income expenses income in
  let excess_expense := Py.max (expense_ratio - (6 # 10)) 0 in
  let expense_score := (1 - Py.min (excess_expense / (4 # 10)) 1) * 15 in
  let total :=
    savings_score + investment_score + debt_score + insurance_score
    + expense_score in
  {| total_score := Py.min (Py.max total 0) 100;
     h_savings := {| hc_ratio := savings_ratio; hc_score := savings_score;
                     hc_ideal := 2 # 10 |};
     h_investments := {| hc_ratio := investment_ratio;
                         hc_score := investment_score; hc_ideal := 2 |};
     h_debt := {| hc_ratio := debt_ratio; hc_score := debt_score;
                  hc_ideal := 1 |};
     h_insurance := {| hc_ratio := insurance_adequacy;
                       hc_score := insurance_score; hc_ideal := 1 |};
     h_expenses := {| hc_ratio := expense_ratio; hc_score := expense_score;
                      hc_ideal := 6 # 10 |} |}.

(** Sum of the five component scores. *)
Definition component_sum (r : HealthScore) : Q :=
  hc_score (h_savings r) + hc_score (h_investments r) + hc_score (h_debt r)
  + hc_score (h_insurance r) + hc_score (h_expenses r).

(** A component whose ratio equals the ideal declared next to it. *)
Definition at_declared_ideal (c : HealthComponent) : Prop :=
  hc_ratio c == hc_ideal c.

(** The allocation read off an assignment: one value per category. *)
Definition allocation_of (v : gmap string Q)
    (data : gmap string SpendingEntry) : gmap string Q :=
  list_to_map
    ((fun item : string * SpendingEntry =>
        (fst item, default 0 (v !! fst item))) <$> map_to_list data).

(** Concrete instances used to run the theorems. *)
Definition sample_spending : gmap string SpendingEntry :=
  <["Rent" := {| amount := 15000; happiness := 6; essential := true |}]>
    (<["Food" := {| amount := 8000; happiness := 8; essential := true |}]> ∅).

Definition sample_solver (p : LpProblem) : LpStatus * gmap string Q :=
  (LpStatusOptimal, <["Rent" := 13500]> (<["Food" := 8800]> ∅)).

Definition infeasible_spending : gmap string SpendingEntry :=
  <["Rent" := {| amount := 50; happiness := 5; essential := true |}]> ∅.

(** A solver run that reports Infeasible and leaves 150 on the variable. *)
Definition infeasible_solver (p : LpProblem) : LpStatus * gmap string Q :=
  (LpStatusInfeasible, <["Rent" := 150]> ∅).

(** The base tax the slab loop accumulates when it starts at
    [prev_limit = prev]. *)
Definition slab_tax (ti prev : Q) (table : list (bound * Q)) : Q :=
  qsum (map sd_tax (slab_entries ti prev table)).

(** No rate of the table exceeds [rmax]. *)
Definition rates_at_most (rmax : Q) (table : list (bound * Q)) : Prop :=
  forall s, In s table -> snd s <= rmax.

(** The nominal value of the lumpsum loop after [k] years: [k] sequential
    multiplications by (1 + rate), starting from the principal. *)
Definition lumpsum_nominal (principal rate : Q) (k : nat) : Q :=
  Nat.iter k (fun n => n * (1 + rate)) principal.

(** The yearly entry of the lumpsum loop for year [year]. *)
Definition lumpsum_entry (principal rate inflation : Q) (year : nat)
  : YearEntry :=
  {| ye_year := year;
     ye_nominal := lumpsum_nominal principal rate year;
     ye_real := lumpsum_nominal principal rate year
                / Py.pow (1 + inflation) year;
     ye_growth :=
       (lumpsum_nominal principal rate year - principal) / principal * 100 |}.

(** The yearly entry of [calculate_investment_growth] for [year], by mode. *)
Definition growth_entry (fpow : Q -> Q -> Q) (principal rate : Q)
    (mode : string) (inflation : Q) (year : nat) : YearEntry :=
  if String.eqb mode "lumpsum"
  then lumpsum_entry principal rate inflation year
  else sip_entry fpow principal rate inflation year.


(** A source of draws that always returns 1, and a budget of one number. *)
Definition flat_draws (month n : nat) : list Q := repeat 1 n.

Definition rent_only_budget : gmap string (option Q) :=
  <["Rent" := Some 15000]> ∅.

(** The smallest and the largest share of its current amount that the
    variable bounds allow a category. *)
Definition risk_floor (risk_appetite : Q) : Q :=
  if Py.gt risk_appetite (5 # 10) then 7 # 10 else 9 # 10.

Definition risk_ceiling (risk_appetite : Q) : Q :=
  if Py.gt risk_appetite (5 # 10) then 13 # 10 else 11 # 10.

(** Total of the current amounts. *)
Definition current_total (data : gmap string SpendingEntry) : Q :=
  qsum (map (fun item : string * SpendingEntry => amount (snd item))
            (map_to_list data)).

(** A spending map with a category of amount zero. *)
Definition zero_amount_spending : gmap string SpendingEntry :=
  <["Gifts" := {| amount := 0; happiness := 7; essential := false |}]>
    (∅ : gmap string SpendingEntry).

(** * Python arithmetic *)

Module PyFacts.

Lemma gt_true a b : Py.gt a b = true <-> b < a.
Proof.
  unfold Py.gt. rewrite negb_true_iff, <- not_true_iff_false, Qle_bool_iff.
  split; [apply Qnot_le_lt | apply Qlt_not_le].
Qed.

Lemma gt_false a b : Py.gt a b = false <-> a <= b.
Proof. unfold Py.gt. rewrite negb_false_iff. apply Qle_bool_iff. Qed.

Lemma lt_true a b : Py.lt a b = true <-> a < b.
Proof. apply gt_true. Qed.

Lemma lt_false a b : Py.lt a b = false <-> b <= a.
Proof. apply gt_false. Qed.

Lemma max_cases a b : (a < b /\ Py.max a b = b) \/ (b <= a /\ Py.max a b = a).
Proof.
  unfold Py.max. destruct (Py.gt b a) eqn:E.
  - left. split; [now apply gt_true | reflexivity].
  - right. split; [now apply gt_false | reflexivity].
Qed.

Lemma min_cases a b : (b < a /\ Py.min a b = b) \/ (a <= b /\ Py.min a b = a).
Proof.
  unfold Py.min. destruct (Py.lt b a) eqn:E.
  - left. split; [now apply lt_true | reflexivity].
  - right. split; [now apply lt_false | reflexivity].
Qed.

Lemma div_nonzero a b : ~ b == 0 -> Py.div a b = Returned (a / b).
Proof.
  intros H. unfold Py.div. destruct (Qeq_bool b 0) eqn:E; [|reflexivity].
  apply Qeq_bool_iff in E. contradiction.
Qed.

Lemma div_zero a b : b == 0 -> Py.div a b = Raised ZeroDivisionError.
Proof. intros H. unfold Py.div. now rewrite (Qeq_eq_bool _ _ H). Qed.

End PyFacts.

(** * Income tax *)

Lemma slab_loop_skip ti table st :
  match st_prev st with
  | Finite prev => Py.gt ti prev = false
  | Infinity => True
  end ->
  slab_loop ti table st = st.
Proof.
  unfold slab_loop. induction table as [|[limit rate] rest IH]; intros H.
  - reflexivity.
  - cbn [fold_left]. assert (slab_step ti st (limit, rate) = st) as ->.
    { unfold slab_step. destruct (st_prev st); [now rewrite H | reflexivity]. }
    now apply IH.
Qed.

(** The loop appends [slab_entries] to the breakdown and their taxes to the
    running tax. *)
Lemma slab_loop_entries ti table : forall st prev,
  st_prev st = Finite prev ->
  st_details (slab_loop ti table st) = st_details st ++ slab_entries ti prev table /\
  st_tax (slab_loop ti table st)
    == st_tax st + qsum (map sd_tax (slab_entries ti prev table)).
Proof.
  induction table as [|[limit rate] rest IH]; intros st prev Hprev.
  - cbn. rewrite app_nil_r. split; [reflexivity | lra].
  - cbn [slab_entries]. destruct (Py.gt ti prev) eqn:E.
    + change (slab_loop ti ((limit, rate) :: rest) st)
        with (slab_loop ti rest (slab_step ti st (limit, rate))).
      unfold slab_step. rewrite Hprev, E.
      destruct limit as [l|].
      * match goal with |- context [slab_loop ti rest ?s] =>
          destruct (IH s l eq_refl) as [Hd Ht] end.
        rewrite Hd. cbn [st_details st_tax] in *. rewrite <- app_assoc.
        split; [reflexivity|]. rewrite Ht.
        unfold qsum. cbn [map fold_right sd_tax min_bound]. lra.
      * rewrite slab_loop_skip by exact I. cbn. split; [reflexivity | lra].
    + rewrite slab_loop_skip by (now rewrite Hprev).
      cbn. rewrite app_nil_r. split; [reflexivity | lra].
Qed.

Lemma slab_entries_not_reached ti prev table :
  ti <= prev -> slab_entries ti prev table = [].
Proof.
  intros H. destruct table as [|[limit rate] rest]; [reflexivity|].
  cbn. now rewrite (proj2 (PyFacts.gt_false ti prev) H).
Qed.

Lemma min_bound_cases ti limit :
  (bound_le ti limit /\ min_bound ti limit = ti) \/
  (exists l, limit = Finite l /\ l < ti /\ min_bound ti limit = l).
Proof.
  destruct limit as [l|]; cbn.
  - destruct (PyFacts.min_cases ti l) as [[H ->]|[H ->]]; [right; eauto | left; auto].
  - left. auto.
Qed.

Lemma slab_entries_amounts ti : forall table prev,
  ascending prev table -> prev < ti ->
  qsum (map sd_amount (slab_entries ti prev table)) == ti - prev.
Proof.
  induction table as [|[limit rate] rest IH]; intros prev Hasc Hlt; [destruct Hasc|].
  cbn [slab_entries]. rewrite (proj2 (PyFacts.gt_true ti prev) Hlt).
  destruct limit as [l|]; cbn [ascending] in Hasc.
  - destruct Hasc as (Hpl & _ & Hasc). cbn [map qsum fold_right sd_amount min_bound].
    destruct (PyFacts.min_cases ti l) as [[H ->]|[H ->]].
    + change (fold_right Qplus 0 ?x) with (qsum x). rewrite (IH l Hasc H). lra.
    + rewrite slab_entries_not_reached by exact H. cbn. lra.
  - cbn. lra.
Qed.

Lemma slab_entries_contiguous ti : forall table prev,
  ascending prev table -> contiguous prev (slab_entries ti prev table).
Proof.
  induction table as [|[limit rate] rest IH]; intros prev Hasc; [destruct Hasc|].
  cbn [slab_entries]. destruct (Py.gt ti prev); [|exact I].
  destruct limit as [l|]; cbn in *.
  - destruct Hasc as (Hpl & _ & Hasc). auto.
  - auto.
Qed.

Lemma slab_entries_cover ti : forall table prev x,
  ascending prev table -> prev < x -> x <= ti ->
  exists s, In s (slab_entries ti prev table) /\
            sd_from s < x /\ bound_le x (sd_to s).
Proof.
  induction table as [|[limit rate] rest IH]; intros prev x Hasc Hpx Hxt;
    [destruct Hasc|].
  cbn [slab_entries].
  rewrite (proj2 (PyFacts.gt_true ti prev)) by lra.
  destruct limit as [l|]; cbn [ascending] in Hasc.
  - destruct Hasc as (Hpl & _ & Hasc).
    destruct (Qlt_le_dec l x) as [Hlx|Hxl].
    + destruct (IH l x Hasc Hlx Hxt) as (s & Hin & Hs). exists s.
      split; [now right | exact Hs].
    + eexists. split; [left; reflexivity|]. cbn. split; assumption.
  - eexists. split; [left; reflexivity|]. cbn. split; [assumption | exact I].
Qed.

Lemma slab_entries_reached ti : forall table prev s,
  ascending prev table -> In s (slab_entries ti prev table) ->
  prev <= sd_from s /\ sd_from s < ti /\
  sd_amount s = min_bound ti (sd_to s) - sd_from s /\
  exists rate, In (sd_to s, rate) table /\ sd_rate s = rate * 100
               /\ sd_tax s = sd_amount s * rate.
Proof.
  induction table as [|[limit rate] rest IH]; intros prev s Hasc Hin;
    [destruct Hasc|].
  cbn [slab_entries] in Hin. destruct (Py.gt ti prev) eqn:E; [|destruct Hin].
  apply PyFacts.gt_true in E. destruct Hin as [<-|Hin].
  - cbn. repeat split; try lra. exists rate. auto.
  - destruct limit as [l|]; [|destruct Hin]. cbn [ascending] in Hasc.
    destruct Hasc as (Hpl & _ & Hasc).
    destruct (IH l s Hasc Hin) as (H1 & H2 & H3 & rate' & H5 & H6).
    repeat split; try assumption; try lra.
    exists rate'. split; [now right | assumption].
Qed.

Lemma contiguous_from_ge : forall l start s,
  contiguous start l -> In s l -> start <= sd_from s.
Proof.
  induction l as [|a rest IH]; intros start s Hc Hin; [destruct Hin|].
  destruct Hc as [Hfrom Hto]. destruct Hin as [<-|Hin].
  - rewrite Hfrom. lra.
  - destruct (sd_to a) as [t|]; [|subst rest; destruct Hin].
    destruct Hto as [Hlt Hc]. specialize (IH t s Hc Hin). lra.
Qed.

(** Slabs of a contiguous breakdown do not overlap: an earlier slab ends at
    or before the start of every later one. *)
Lemma contiguous_no_overlap : forall l start i j s1 s2,
  contiguous start l -> (i < j)%nat ->
  nth_error l i = Some s1 -> nth_error l j = Some s2 ->
  exists t, sd_to s1 = Finite t /\ sd_from s1 < t /\ t <= sd_from s2.
Proof.
  induction l as [|a rest IH]; intros start i j s1 s2 Hc Hij H1 H2.
  - destruct i; discriminate.
  - destruct Hc as [Hfrom Hto]. destruct j as [|j]; [lia|]. cbn in H2.
    destruct (sd_to a) as [t|] eqn:Eto;
      [|subst rest; destruct j; discriminate].
    destruct Hto as [Hlt Hc]. destruct i as [|i].
    + injection H1 as <-. exists t. rewrite Hfrom.
      split; [exact Eto|]. split; [exact Hlt|].
      apply (contiguous_from_ge rest); [assumption|].
      eapply nth_error_In; eassumption.
    + cbn in H1. eapply (IH t i j); eauto. lia.
Qed.

Lemma slab_entries_tax_nonneg t : forall table prev,
  ascending prev table -> 0 <= qsum (map sd_tax (slab_entries t prev table)).
Proof.
  induction table as [|[limit rate] rest IH]; intros prev Hasc; [destruct Hasc|].
  cbn [slab_entries]. destruct (Py.gt t prev) eqn:E; [|cbn; lra].
  apply PyFacts.gt_true in E.
  destruct limit as [l|]; cbn [ascending] in Hasc.
  - destruct Hasc as (Hpl & Hr & Hasc). specialize (IH l Hasc).
    unfold qsum in *. cbn [map fold_right sd_tax min_bound].
    destruct (PyFacts.min_cases t l) as [[H ->]|[H ->]]; nra.
  - destruct Hasc as [Hr _]. cbn. nra.
Qed.

Lemma slab_entries_tax_mono t1 t2 : forall table prev,
  ascending prev table -> t1 <= t2 ->
  qsum (map sd_tax (slab_entries t1 prev table))
  <= qsum (map sd_tax (slab_entries t2 prev table)).
Proof.
  induction table as [|[limit rate] rest IH]; intros prev Hasc Hle;
    [destruct Hasc|].
  destruct (Qlt_le_dec prev t1) as [Hlt|Hge].
  - cbn [slab_entries].
    rewrite (proj2 (PyFacts.gt_true t1 prev) Hlt).
    rewrite (proj2 (PyFacts.gt_true t2 prev)) by lra.
    destruct limit as [l|]; cbn [ascending] in Hasc.
    + destruct Hasc as (Hpl & Hr & Hasc). specialize (IH l Hasc Hle).
      unfold qsum in *. cbn [map fold_right sd_tax min_bound].
      destruct (PyFacts.min_cases t1 l) as [[H1 ->]|[H1 ->]];
        destruct (PyFacts.min_cases t2 l) as [[H2 ->]|[H2 ->]]; nra.
    + destruct Hasc as [Hr _]. cbn. nra.
  - rewrite (slab_entries_not_reached t1) by exact Hge. cbn [map qsum fold_right].
    now apply slab_entries_tax_nonneg.
Qed.

Lemma slabs_of_ascending regime : ascending 0 (slabs_of regime).
Proof.
  unfold slabs_of.
  destruct (String.eqb regime "new"); cbn; repeat split; discriminate.
Qed.

(** The call always returns, and its fields are those of the slab walk. *)
Lemma calculate_income_tax_returns income regime deductions :
  let ti := Py.max (income - deductions) 0 in
  exists r,
    calculate_income_tax income regime deductions = Returned r /\
    taxable_income r = ti /\
    slabs r = slab_entries ti 0 (slabs_of regime) /\
    base_tax r == qsum (map sd_tax (slab_entries ti 0 (slabs_of regime))) /\
    cess r = base_tax r * (4 # 100) /\
    total_tax r = base_tax r + cess r /\
    (income <= 0 -> effective_rate r = 0) /\
    (0 < income -> effective_rate r = total_tax r / income * 100).
Proof.
  intros ti. unfold calculate_income_tax. fold ti.
  destruct (slab_loop_entries ti (slabs_of regime) slab_init 0 eq_refl)
    as [Hd Ht].
  cbn [slab_init st_details st_tax app] in Hd, Ht.
  destruct (Py.gt income 0) eqn:E.
  - apply PyFacts.gt_true in E.
    rewrite PyFacts.div_nonzero by lra. cbn.
    eexists. split; [reflexivity|]. cbn.
    repeat split; try assumption; try reflexivity; try lra.
  - apply PyFacts.gt_false in E. cbn.
    eexists. split; [reflexivity|]. cbn.
    repeat split; try assumption; try reflexivity; try lra.
Qed.

Lemma slab_entries_prefix ti : forall table prev,
  exists rest, map fst table = map sd_to (slab_entries ti prev table) ++ rest.
Proof.
  induction table as [|[limit rate] rest IH]; intros prev.
  - exists []. reflexivity.
  - cbn [slab_entries]. destruct (Py.gt ti prev).
    + destruct limit as [l|].
      * destruct (IH l) as [tl Htl]. exists tl. cbn. now rewrite Htl.
      * exists (map fst rest). reflexivity.
    + eexists. reflexivity.
Qed.

Lemma py_max_zero_nonneg x : 0 <= Py.max x 0.
Proof. destruct (PyFacts.max_cases x 0) as [[H ->]|[H ->]]; lra. Qed.

(** C5.  For every gross income, deduction and regime, the slab breakdown
    returned by [calculate_income_tax] is an ordered, contiguous,
    non-overlapping chain of slabs that starts at 0 and covers every amount
    in (0, taxable_income], where taxable_income is
    max(income - deductions, 0); the taxed amounts of the slabs add up to
    taxable_income; every listed slab starts strictly below taxable_income
    (it is reached) and is taxed on the part of taxable income inside it; and
    the listed slabs are an initial segment of the regime's table (the list
    stops once taxable income is exhausted). *)
Theorem income_tax_slab_partition income regime deductions :
  exists r,
    calculate_income_tax income regime deductions = Returned r /\
    taxable_income r = Py.max (income - deductions) 0 /\
    contiguous 0 (slabs r) /\
    (forall i j s1 s2, (i < j)%nat ->
       nth_error (slabs r) i = Some s1 -> nth_error (slabs r) j = Some s2 ->
       exists t, sd_to s1 = Finite t /\ sd_from s1 < t /\ t <= sd_from s2) /\
    (forall x, 0 < x -> x <= taxable_income r ->
       exists s, In s (slabs r) /\ sd_from s < x /\ bound_le x (sd_to s)) /\
    qsum (map sd_amount (slabs r)) == taxable_income r /\
    (forall s, In s (slabs r) ->
       sd_from s < taxable_income r /\
       sd_amount s = min_bound (taxable_income r) (sd_to s) - sd_from s) /\
    (exists rest, map fst (slabs_of regime) = map sd_to (slabs r) ++ rest).
Proof.
  destruct (calculate_income_tax_returns income regime deductions)
    as (r & Hr & Hti & Hsl & _).
  pose proof (slabs_of_ascending regime) as Hasc.
  pose proof (py_max_zero_nonneg (income - deductions)) as Hnn.
  exists r. rewrite Hsl, Hti.
  set (ti := Py.max (income - deductions) 0) in *.
  split; [exact Hr|]. split; [reflexivity|].
  split; [now apply slab_entries_contiguous|].
  split.
  { intros i j s1 s2 Hij H1 H2.
    apply (contiguous_no_overlap (slab_entries ti 0 (slabs_of regime)) 0 i j);
      try assumption.
    now apply slab_entries_contiguous. }
  split; [intros x Hx Hxt; now apply slab_entries_cover|].
  split.
  { destruct (Qlt_le_dec 0 ti) as [Hpos|Hzero].
    - rewrite slab_entries_amounts by assumption. lra.
    - rewrite slab_entries_not_reached by exact Hzero. cbn. lra. }
  split.
  { intros s Hin.
    destruct (slab_entries_reached ti _ 0 s Hasc Hin) as (_ & H2 & H3 & _).
    split; assumption. }
  apply slab_entries_prefix.
Qed.

(** Read in exact arithmetic, for deductions >= 0 (and any gross income
    and regime), [calculate_income_tax] returns with cess = 4% of base tax
    and total_tax = base_tax * 1.04; and at gross income 0 it returns (no
    division by zero) total_tax = 0 and effective_rate = 0. *)
Theorem income_tax_cess_and_zero_income income regime deductions :
  0 <= deductions ->
  (exists r,
     calculate_income_tax income regime deductions = Returned r /\
     cess r == base_tax r * (4 # 100) /\
     total_tax r == base_tax r * (104 # 100)) /\
  (exists r0,
     calculate_income_tax 0 regime deductions = Returned r0 /\
     total_tax r0 == 0 /\ effective_rate r0 == 0).
Proof.
  intros Hd. split.
  - destruct (calculate_income_tax_returns income regime deductions)
      as (r & Hr & _ & _ & _ & Hc & Ht & _).
    exists r. split; [exact Hr|]. rewrite Ht, Hc. split; lra.
  - destruct (calculate_income_tax_returns 0 regime deductions)
      as (r & Hr & _ & _ & Hb & Hc & Ht & He & _).
    exists r. split; [exact Hr|].
    rewrite slab_entries_not_reached in Hb.
    + cbn in Hb. rewrite Ht, Hc, He by lra. split; lra.
    + destruct (PyFacts.max_cases (0 - deductions) 0) as [[H ->]|[H ->]]; lra.
Qed.

Lemma income_tax_cess_and_zero_income_witness :
  0 <= 50000 /\
  exists r,
    calculate_income_tax 600000 "new" 50000 = Returned r /\
    total_tax r == base_tax r * (104 # 100).
Proof.
  split; [discriminate|].
  destruct (income_tax_cess_and_zero_income 600000 "new" 50000)
    as [(r & Hr & _ & Ht) _]; [discriminate|].
  exists r. split; assumption.
Defined.

(** ** Income tax in binary64 *)

(** A positive divisor is not zero. *)
Lemma binary64_positive_nonzero (x : float) :
  Binary64.gt x 0 = true -> PrimFloat.eqb x 0 = false.
Proof.
  unfold Binary64.gt. rewrite FloatAxioms.ltb_spec, FloatAxioms.eqb_spec.
  change (Prim2SF 0) with (S754_zero false).
  destruct (Prim2SF x) as [s|s| |s m e]; cbn; try discriminate;
    destruct s; cbn; try discriminate; reflexivity.
Qed.

(** [0 - d] is not positive when [d >= 0]. *)
Lemma binary64_zero_minus_nonneg (d : float) :
  PrimFloat.leb 0 d = true -> Binary64.gt (0 - d)%float 0 = false.
Proof.
  unfold Binary64.gt. rewrite FloatAxioms.leb_spec, FloatAxioms.ltb_spec, FloatAxioms.sub_spec.
  change (Prim2SF 0) with (S754_zero false).
  destruct (Prim2SF d) as [s|s| |s m e]; cbn; try discriminate;
    destruct s; cbn; try discriminate; reflexivity.
Qed.

Lemma binary64_slab_loop_not_reached ti table : forall st,
  Binary64.gt ti (Binary64.st_prev st) = false ->
  Binary64.slab_loop ti table st = st.
Proof.
  induction table as [|[limit rate] table IH]; intros st H; [reflexivity|].
  unfold Binary64.slab_loop in *. cbn [fold_left Binary64.slab_step].
  rewrite H. now apply IH.
Qed.

Lemma binary64_income_tax_returns income regime deductions :
  exists r,
    Binary64.calculate_income_tax income regime deductions = Returned r /\
    Binary64.taxable_income r
    = Binary64.max (income - deductions)%float 0%float /\
    Binary64.base_tax r
    = Binary64.st_tax
        (Binary64.slab_loop (Binary64.taxable_income r)
           (Binary64.slabs_of regime) Binary64.slab_init) /\
    Binary64.cess r = (Binary64.base_tax r * 0.04)%float /\
    Binary64.total_tax r = (Binary64.base_tax r + Binary64.cess r)%float /\
    (Binary64.gt income 0 = false -> Binary64.effective_rate r = 0%float).
Proof.
  unfold Binary64.calculate_income_tax.
  destruct (Binary64.gt income 0) eqn:E.
  - unfold Binary64.div. rewrite (binary64_positive_nonzero income E).
    cbn [mbind outcome_bind]. eexists. split; [reflexivity|].
    cbn. repeat split. discriminate.
  - cbn [mbind outcome_bind]. eexists. split; [reflexivity|].
    cbn. repeat split.
Qed.

(** C7 (as stated) fails on the arithmetic the code runs on.  At income
    1234567 under the new regime, without deductions, the code returns
    base_tax 121913.39999999999 and total_tax 126789.93599999999, while
    base_tax * 1.04 is 126789.936: the sum of the base tax and its rounded
    4% is not the rounded product by 1.04. *)
Lemma income_tax_total_not_base_times_104 :
  exists r,
    Binary64.calculate_income_tax 1234567 "new" 0 = Returned r /\
    Binary64.base_tax r = 121913.39999999999%float /\
    Binary64.total_tax r = 126789.93599999999%float /\
    (Binary64.base_tax r * 1.04)%float = 126789.936%float /\
    PrimFloat.eqb (Binary64.total_tax r) (Binary64.base_tax r * 1.04)%float
    = false.
Proof.
  eexists. split; [vm_compute; reflexivity|].
  cbn [Binary64.base_tax Binary64.total_tax]. repeat split; reflexivity.
Qed.

(** C7 (amended).  In binary64, for every gross income, deductions and
    regime, [calculate_income_tax] returns, with cess the rounded product
    base_tax * 0.04 and total_tax the rounded sum base_tax + cess; and at
    gross income 0 with deductions >= 0 it returns (no division by zero)
    base_tax = 0, total_tax = 0 and effective_rate = 0. *)
Theorem income_tax_cess_added_on_top (income deductions : float) regime :
  (exists r,
     Binary64.calculate_income_tax income regime deductions = Returned r /\
     Binary64.cess r = (Binary64.base_tax r * 0.04)%float /\
     Binary64.total_tax r = (Binary64.base_tax r + Binary64.cess r)%float) /\
  (PrimFloat.leb 0 deductions = true ->
   exists r0,
     Binary64.calculate_income_tax 0 regime deductions = Returned r0 /\
     Binary64.base_tax r0 = 0%float /\
     Binary64.total_tax r0 = 0%float /\
     Binary64.effective_rate r0 = 0%float).
Proof.
  split.
  - destruct (binary64_income_tax_returns income regime deductions)
      as (r & Hr & _ & _ & Hc & Ht & _).
    exists r. repeat split; assumption.
  - intros Hd.
    destruct (binary64_income_tax_returns 0 regime deductions)
      as (r & Hr & Hti & Hb & Hc & Ht & He).
    exists r. split; [exact Hr|].
    assert (Binary64.base_tax r = 0%float) as Hb0.
    { rewrite Hb, binary64_slab_loop_not_reached; [reflexivity|].
      rewrite Hti. cbn [Binary64.slab_init Binary64.st_prev].
      unfold Binary64.max.
      destruct (Binary64.gt 0 (0 - deductions)); [reflexivity|].
      now apply binary64_zero_minus_nonneg. }
    split; [exact Hb0|]. split.
    + rewrite Ht, Hc, Hb0. reflexivity.
    + apply He. reflexivity.
Qed.

Lemma income_tax_cess_added_on_top_witness :
  PrimFloat.leb 0 50000 = true /\
  exists r0,
    Binary64.calculate_income_tax 0 "old" 50000 = Returned r0 /\
    Binary64.total_tax r0 = 0%float /\
    Binary64.effective_rate r0 = 0%float.
Proof.
  split; [reflexivity|].
  destruct (income_tax_cess_added_on_top 0 50000 "old") as [_ H].
  destruct (H eq_refl) as (r0 & Hr & _ & Ht & He).
  exists r0. repeat split; assumption.
Defined.

(** C10.  For a fixed regime and fixed deductions, base tax and total tax
    do not decrease when income grows. *)
Theorem income_tax_monotone income1 income2 regime deductions :
  income1 <= income2 ->
  exists r1 r2,
    calculate_income_tax income1 regime deductions = Returned r1 /\
    calculate_income_tax income2 regime deductions = Returned r2 /\
    base_tax r1 <= base_tax r2 /\
    total_tax r1 <= total_tax r2.
Proof.
  intros Hle.
  destruct (calculate_income_tax_returns income1 regime deductions)
    as (r1 & Hr1 & _ & _ & Hb1 & Hc1 & Ht1 & _).
  destruct (calculate_income_tax_returns income2 regime deductions)
    as (r2 & Hr2 & _ & _ & Hb2 & Hc2 & Ht2 & _).
  exists r1, r2. split; [exact Hr1|]. split; [exact Hr2|].
  assert (base_tax r1 <= base_tax r2) as Hb.
  { rewrite Hb1, Hb2.
    apply slab_entries_tax_mono; [apply slabs_of_ascending|].
    destruct (PyFacts.max_cases (income1 - deductions) 0) as [[H1 ->]|[H1 ->]];
      destruct (PyFacts.max_cases (income2 - deductions) 0) as [[H2 ->]|[H2 ->]];
      lra. }
  split; [exact Hb|]. rewrite Ht1, Ht2, Hc1, Hc2. lra.
Qed.

Lemma income_tax_monotone_witness :
  600000 <= 900000 /\
  exists r1 r2,
    calculate_income_tax 600000 "old" 50000 = Returned r1 /\
    calculate_income_tax 900000 "old" 50000 = Returned r2 /\
    base_tax r1 <= base_tax r2 /\
    total_tax r1 <= total_tax r2.
Proof.
  split; [discriminate|].
  apply (income_tax_monotone 600000 900000 "old" 50000). discriminate.
Defined.

(** * GST *)

(** C8.  For every amount and category, [calculate_gst] returns
    gst_amount = base_price * rate and total = base_price + gst_amount (the
    reported gst_rate is that rate as a percentage); the four known
    categories have their table rates 5%, 12%, 18% and 28%, and any other
    category gets the rate of "Standard". *)
Theorem gst_invariants amount category :
  let r := calculate_gst amount category in
  gst_base_price r = amount /\
  gst_amount r == gst_base_price r * gst_rate_of category /\
  gst_total r == gst_base_price r + gst_amount r /\
  gst_rate r == gst_rate_of category * 100 /\
  gst_rate_of "Essential" = 5 # 100 /\
  gst_rate_of "Standard" = 12 # 100 /\
  gst_rate_of "Luxury" = 18 # 100 /\
  gst_rate_of "Special" = 28 # 100 /\
  (category <> "Essential" -> category <> "Standard" ->
   category <> "Luxury" -> category <> "Special" ->
   gst_rates !! category = None /\
   gst_rate_of category = gst_rate_of "Standard").
Proof.
  cbn. repeat split; try reflexivity.
  - unfold gst_rates. now rewrite !lookup_insert_ne, lookup_empty by congruence.
  - unfold gst_rate_of at 1, gst_rates.
    now rewrite !lookup_insert_ne, lookup_empty by congruence.
Qed.

(** * Opportunity cost *)

Lemma opportunity_loop amount rate : forall n a total acc,
  fold_left (opportunity_step amount rate) (seq a n) (total, acc)
  = (match n with
     | O => total
     | S k => opportunity_value amount rate (a + k)
     end,
     acc ++ map (fun y => (y, opportunity_value amount rate y)) (seq a n)).
Proof.
  induction n as [|n IH]; intros a total acc.
  - cbn. now rewrite app_nil_r.
  - cbn [seq fold_left]. unfold opportunity_step at 2. cbn [snd].
    rewrite IH. fold (opportunity_value amount rate a).
    cbn [map]. rewrite <- app_assoc. cbn [app]. f_equal.
    destruct n as [|k]; [now rewrite Nat.add_0_r|].
    f_equal. lia.
Qed.

Lemma pow_monotone q (n m : nat) :
  1 <= q -> (n <= m)%nat -> Py.pow q n <= Py.pow q m.
Proof.
  intros Hq Hnm. unfold Py.pow. apply Qpower_le_compat_l; [lia | exact Hq].
Qed.

(** C9.  For amount >= 0 and years >= 1, the yearly entry of
    [calculate_opportunity_cost] for year y (1 <= y <= years) is
    amount * ((1 + rate)^y - 1), computed from the base amount; for a
    positive rate the yearly values never decrease; the reported total is the
    final year's value; and amount 1000, 1 year, rate 0.12 gives total 120. *)
Theorem opportunity_cost_yearly amount years rate :
  0 <= amount -> (1 <= years)%nat ->
  let r := calculate_opportunity_cost amount years rate in
  length (oc_yearly r) = years /\
  (forall y, (1 <= y <= years)%nat ->
     nth_error (oc_yearly r) (y - 1)
     = Some (y, amount * (Py.pow (1 + rate) y - 1))) /\
  (0 < rate ->
   forall i j e1 e2, (i <= j)%nat ->
     nth_error (oc_yearly r) i = Some e1 ->
     nth_error (oc_yearly r) j = Some e2 ->
     snd e1 <= snd e2) /\
  nth_error (oc_yearly r) (years - 1) = Some (years, oc_total r) /\
  oc_total (calculate_opportunity_cost 1000 1 (12 # 100)) == 120.
Proof.
  intros Ha Hy r.
  assert (oc_yearly r
          = map (fun y => (y, opportunity_value amount rate y)) (seq 1 years))
    as Hyearly.
  { unfold r, calculate_opportunity_cost, year_range.
    now rewrite opportunity_loop. }
  assert (oc_total r = opportunity_value amount rate years) as Htotal.
  { unfold r, calculate_opportunity_cost, year_range.
    rewrite opportunity_loop. cbn [oc_total fst].
    destruct years as [|k]; [lia|]. f_equal. }
  assert (forall i, (i < years)%nat ->
            nth_error (oc_yearly r) i
            = Some (S i, opportunity_value amount rate (S i))) as Hnth.
  { intros i Hi. rewrite Hyearly, nth_error_map, nth_error_seq.
    destruct (Nat.ltb_spec i years); [reflexivity | lia]. }
  split; [now rewrite Hyearly, length_map, length_seq|].
  split.
  { intros y Hrange. rewrite Hnth by lia.
    replace (S (y - 1)) with y by lia. reflexivity. }
  split.
  { intros Hrate i j e1 e2 Hij H1 H2.
    assert (j < years)%nat as Hj.
    { pose proof (proj1 (nth_error_Some (oc_yearly r) j)) as Hlen.
      rewrite Hyearly, length_map, length_seq in Hlen.
      apply Hlen. rewrite <- Hyearly. congruence. }
    rewrite Hnth in H1, H2 by lia.
    injection H1 as <-. injection H2 as <-. cbn [snd].
    unfold opportunity_value.
    assert (Py.pow (1 + rate) (S i) <= Py.pow (1 + rate) (S j)) as Hpow.
    { apply pow_monotone; [lra | lia]. }
    nra. }
  split.
  { rewrite Hnth by lia. rewrite Htotal.
    replace (S (years - 1)) with years by lia. reflexivity. }
  reflexivity.
Qed.

Lemma opportunity_cost_yearly_witness :
  0 <= 1000 /\ (1 <= 3)%nat /\
  nth_error (oc_yearly (calculate_opportunity_cost 1000 3 (12 # 100))) 1
  = Some (2%nat, 1000 * (Py.pow (1 + (12 # 100)) 2 - 1)).
Proof.
  split; [discriminate|]. split; [lia|].
  destruct (opportunity_cost_yearly 1000 3 (12 # 100)) as (_ & Hnth & _);
    [discriminate | lia |].
  apply (Hnth 2%nat). lia.
Defined.

(** * Financial health *)

Lemma guarded_ratio_returns income x y :
  (0 < income -> ~ y == 0) ->
  guarded_ratio income x y = Returned (ratio_or_zero income x y).
Proof.
  intros H. unfold guarded_ratio, ratio_or_zero.
  destruct (Py.gt income 0) eqn:E; [|reflexivity].
  apply PyFacts.div_nonzero, H. now apply PyFacts.gt_true.
Qed.

(** No input makes [calculate_financial_health] raise: every division is
    either guarded by [income > 0] or by a non-zero constant. *)
Lemma calculate_financial_health_returns
    income expenses savings investments liabilities insurance_cover age :
  calculate_financial_health income expenses savings investments liabilities
    insurance_cover age
  = Returned (health_record income expenses savings investments liabilities
                insurance_cover age).
Proof.
  unfold calculate_financial_health.
  rewrite !guarded_ratio_returns;
    [ cbn; rewrite !PyFacts.div_nonzero by discriminate; reflexivity
    | intros H; try lra;
      destruct (PyFacts.max_cases (age - 25) 5) as [[Hm ->]|[Hm ->]]; nra .. ].
Qed.

Ltac py_min_case a b :=
  let H := fresh "Hmin" in
  let E := fresh "Emin" in
  destruct (PyFacts.min_cases a b) as [[H E]|[H E]]; rewrite E in *; clear E.

Ltac py_max_case a b :=
  let H := fresh "Hmax" in
  let E := fresh "Emax" in
  destruct (PyFacts.max_cases a b) as [[H E]|[H E]]; rewrite E in *; clear E.

Ltac py_cases :=
  repeat match goal with
  | |- context [Py.min ?a ?b] => py_min_case a b
  | |- context [Py.max ?a ?b] => py_max_case a b
  | _ : context [Py.min ?a ?b] |- _ => py_min_case a b
  | _ : context [Py.max ?a ?b] |- _ => py_max_case a b
  end.

(** C3 (as stated) fails: with income 100, expenses 60, savings 20,
    investments 1000, liabilities 50, insurance cover 1000 and age 30 every
    ratio equals its declared ideal, and the total score is 80, not 100. *)
Lemma health_ideal_ratios_not_100 :
  exists r,
    calculate_financial_health 100 60 20 1000 50 1000 30 = Returned r /\
    at_declared_ideal (h_savings r) /\
    at_declared_ideal (h_investments r) /\
    at_declared_ideal (h_debt r) /\
    at_declared_ideal (h_insurance r) /\
    at_declared_ideal (h_expenses r) /\
    total_score r == 80 /\
    ~ total_score r == 100.
Proof.
  eexists. split; [apply calculate_financial_health_returns|].
  repeat split; try (vm_compute; reflexivity).
  vm_compute. discriminate.
Qed.

(** C3 (amended).  Whenever each of the five ratios equals its declared
    ideal (0.2, 2, 1.0, 1.0, 0.6), the total score is 80: the debt term
    (1 - min(ratio, 1)) * 20 is 0 at debt ratio 1.0 while the other four
    terms are at their weights.  The total equals the sum of the five
    component scores and each component score lies between 0 and its weight
    (25/25/20/15/15). *)
Theorem health_score_at_declared_ideals
    income expenses savings investments liabilities insurance_cover age r :
  calculate_financial_health income expenses savings investments liabilities
    insurance_cover age = Returned r ->
  at_declared_ideal (h_savings r) ->
  at_declared_ideal (h_investments r) ->
  at_declared_ideal (h_debt r) ->
  at_declared_ideal (h_insurance r) ->
  at_declared_ideal (h_expenses r) ->
  total_score r == 80 /\
  total_score r == component_sum r /\
  (0 <= hc_score (h_savings r) /\ hc_score (h_savings r) <= 25) /\
  (0 <= hc_score (h_investments r) /\ hc_score (h_investments r) <= 25) /\
  (0 <= hc_score (h_debt r) /\ hc_score (h_debt r) <= 20) /\
  (0 <= hc_score (h_insurance r) /\ hc_score (h_insurance r) <= 15) /\
  (0 <= hc_score (h_expenses r) /\ hc_score (h_expenses r) <= 15).
Proof.
  rewrite calculate_financial_health_returns. intros [= <-].
  unfold at_declared_ideal, component_sum, health_record.
  cbn [h_savings h_investments h_debt h_insurance h_expenses
       hc_ratio hc_score hc_ideal total_score].
  generalize (ratio_or_zero income savings income)
    (ratio_or_zero income investments (income * Py.max (age - 25) 5))
    (ratio_or_zero income liabilities (income * (5 # 10)))
    (ratio_or_zero income insurance_cover (income * 10))
    (ratio_or_zero income expenses income).
  intros sr ir dr ia er Hs Hi Hd Hins He.
  destruct (PyFacts.max_cases (er - (6 # 10)) 0) as [[Hm ->]|[Hm ->]];
    [lra|].
  assert (sr / (2 # 10) == sr * 5) as Hq1 by field.
  assert (ir / 2 == ir * (1 # 2)) as Hq2 by field.
  assert ((er - (6 # 10)) / (4 # 10) == (er - (6 # 10)) * (5 # 2)) as Hq5
    by field.
  revert Hq1 Hq2 Hq5.
  generalize (sr / (2 # 10)) (ir / 2) ((er - (6 # 10)) / (4 # 10)).
  intros q1 q2 q5 Hq1 Hq2 Hq5.
  py_cases; repeat split; lra.
Qed.

Lemma health_score_at_declared_ideals_witness :
  exists r,
    calculate_financial_health 100 60 20 1000 50 1000 30 = Returned r /\
    total_score r == 80 /\ total_score r == component_sum r.
Proof.
  exists (health_record 100 60 20 1000 50 1000 30).
  pose proof (calculate_financial_health_returns 100 60 20 1000 50 1000 30)
    as Hret.
  split; [exact Hret|].
  destruct (health_score_at_declared_ideals _ _ _ _ _ _ _ _ Hret)
    as (H80 & Hsum & _); try (vm_compute; reflexivity).
  split; assumption.
Defined.

(** C4 (as stated) fails: at income 0 the debt and expense terms, whose
    ratios are guarded to 0, score 20 and 15, so the total is 35, not 0. *)
Lemma health_zero_income_scores_35 :
  exists r,
    calculate_financial_health 0 0 0 0 0 0 30 = Returned r /\
    hc_ratio (h_debt r) == 0 /\ hc_score (h_debt r) == 20 /\
    hc_ratio (h_expenses r) == 0 /\ hc_score (h_expenses r) == 15 /\
    total_score r == 35 /\
    ~ total_score r == 0.
Proof.
  eexists. split; [apply calculate_financial_health_returns|].
  repeat split; try (vm_compute; reflexivity).
  vm_compute. discriminate.
Qed.

(** C4 (amended).  At income 0, whatever the other arguments,
    [calculate_financial_health] returns without raising; each of the five
    ratios is 0; the savings, investment and insurance terms score 0, the
    debt term scores 20 and the expense term 15 (a ratio of 0 is the best
    value of these two terms), and the total score is 35. *)
Theorem health_zero_income
    expenses savings investments liabilities insurance_cover age :
  exists r,
    calculate_financial_health 0 expenses savings investments liabilities
      insurance_cover age = Returned r /\
    hc_ratio (h_savings r) = 0 /\
    hc_ratio (h_investments r) = 0 /\
    hc_ratio (h_debt r) = 0 /\
    hc_ratio (h_insurance r) = 0 /\
    hc_ratio (h_expenses r) = 0 /\
    hc_score (h_savings r) == 0 /\
    hc_score (h_investments r) == 0 /\
    hc_score (h_insurance r) == 0 /\
    hc_score (h_debt r) == 20 /\
    hc_score (h_expenses r) == 15 /\
    total_score r == 35.
Proof.
  eexists. split; [apply calculate_financial_health_returns|].
  repeat split; vm_compute; reflexivity.
Qed.

(** For non-negative inputs the clamp to [0, 100] never acts: the total is
    the sum of the five component scores and each score lies between 0 and
    its weight. *)
Lemma health_score_components_bounded
    income expenses savings investments liabilities insurance_cover age :
  0 <= expenses -> 0 <= savings -> 0 <= investments -> 0 <= liabilities ->
  0 <= insurance_cover ->
  let r := health_record income expenses savings investments liabilities
             insurance_cover age in
  total_score r == component_sum r /\
  (0 <= hc_score (h_savings r) /\ hc_score (h_savings r) <= 25) /\
  (0 <= hc_score (h_investments r) /\ hc_score (h_investments r) <= 25) /\
  (0 <= hc_score (h_debt r) /\ hc_score (h_debt r) <= 20) /\
  (0 <= hc_score (h_insurance r) /\ hc_score (h_insurance r) <= 15) /\
  (0 <= hc_score (h_expenses r) /\ hc_score (h_expenses r) <= 15).
Proof.
  intros He Hs Hi Hl Hc r. unfold r, component_sum, health_record.
  cbn [h_savings h_investments h_debt h_insurance h_expenses
       hc_ratio hc_score hc_ideal total_score].
  assert (forall x y, 0 <= x -> 0 <= ratio_or_zero income x (income * y)
                                \/ y <= 0) as Hratio.
  { intros x y Hx. unfold ratio_or_zero.
    destruct (Py.gt income 0) eqn:E; [|left; lra].
    apply PyFacts.gt_true in E. destruct (Qlt_le_dec 0 y) as [Hy|Hy]; [|now right].
    left. apply Qle_shift_div_l; nra. }
  assert (0 <= ratio_or_zero income savings income) as Hsr.
  { unfold ratio_or_zero. destruct (Py.gt income 0) eqn:E; [|lra].
    apply PyFacts.gt_true in E. apply Qle_shift_div_l; nra. }
  assert (0 <= ratio_or_zero income expenses income) as Her.
  { unfold ratio_or_zero. destruct (Py.gt income 0) eqn:E; [|lra].
    apply PyFacts.gt_true in E. apply Qle_shift_div_l; nra. }
  assert (0 <= ratio_or_zero income investments
                 (income * Py.max (age - 25) 5)) as Hir.
  { destruct (Hratio investments (Py.max (age - 25) 5) Hi) as [H|H];
      [exact H|].
    destruct (PyFacts.max_cases (age - 25) 5) as [[Hm E]|[Hm E]];
      rewrite E in H; lra. }
  assert (0 <= ratio_or_zero income liabilities (income * (5 # 10))) as Hdr.
  { destruct (Hratio liabilities (5 # 10) Hl) as [H|H]; [exact H | lra]. }
  assert (0 <= ratio_or_zero income insurance_cover (income * 10)) as Hia.
  { destruct (Hratio insurance_cover 10 Hc) as [H|H]; [exact H | lra]. }
  revert Hsr Her Hir Hdr Hia.
  generalize (ratio_or_zero income savings income)
    (ratio_or_zero income expenses income)
    (ratio_or_zero income investments (income * Py.max (age - 25) 5))
    (ratio_or_zero income liabilities (income * (5 # 10)))
    (ratio_or_zero income insurance_cover (income * 10)).
  clear Hratio. intros sr er ir dr ia Hsr Her Hir Hdr Hia.
  destruct (PyFacts.max_cases (er - (6 # 10)) 0) as [[Hm ->]|[Hm ->]].
  - assert (sr / (2 # 10) == sr * 5) as Hq1 by field.
    assert (ir / 2 == ir * (1 # 2)) as Hq2 by field.
    assert (0 / (4 # 10) == 0) as Hq5 by reflexivity.
    revert Hq1 Hq2 Hq5.
    generalize (sr / (2 # 10)) (ir / 2) (0 / (4 # 10)).
    intros q1 q2 q5 Hq1 Hq2 Hq5.
    py_cases; repeat split; lra.
  - assert (sr / (2 # 10) == sr * 5) as Hq1 by field.
    assert (ir / 2 == ir * (1 # 2)) as Hq2 by field.
    assert ((er - (6 # 10)) / (4 # 10) == (er - (6 # 10)) * (5 # 2)) as Hq5
      by field.
    revert Hq1 Hq2 Hq5.
    generalize (sr / (2 # 10)) (ir / 2) ((er - (6 # 10)) / (4 # 10)).
    intros q1 q2 q5 Hq1 Hq2 Hq5.
    py_cases; repeat split; lra.
Qed.

(** * Investment growth, recurring mode *)

Section GrowthFacts.

Variable fpow : Q -> Q -> Q.
Variables principal rate inflation : Q.

Lemma sip_months_recurrence (months : nat) :
  sip_months fpow principal rate (sip_recurrence fpow principal rate months)
  = sip_recurrence fpow principal rate (12 + months).
Proof.
  unfold sip_recurrence. rewrite Nat.iter_add. reflexivity.
Qed.

Lemma inject_nat_pos (n : nat) : (1 <= n)%nat -> 0 < inject_Z (Z.of_nat n).
Proof.
  intros H. change 0 with (inject_Z 0). rewrite <- Zlt_Qlt. lia.
Qed.

Hypothesis principal_pos : 0 < principal.
Hypothesis deflator_nonzero : ~ 1 + inflation == 0.

Lemma sip_years_entries : forall n a nominal yearly,
  (1 <= a)%nat ->
  nominal = sip_recurrence fpow principal rate (12 * (a - 1)) ->
  sip_years fpow principal rate inflation (seq a n) nominal yearly
  = Returned (yearly ++ map (sip_entry fpow principal rate inflation) (seq a n)).
Proof.
  induction n as [|n IH]; intros a nominal yearly Ha ->.
  - cbn. now rewrite app_nil_r.
  - cbn [seq sip_years]. rewrite sip_months_recurrence.
    replace (12 + 12 * (a - 1))%nat with (12 * a)%nat by lia.
    rewrite (PyFacts.div_nonzero _ (Py.pow (1 + inflation) a))
      by (unfold Py.pow; apply Qpower_not_0, deflator_nonzero).
    cbn [mbind outcome_bind].
    rewrite PyFacts.div_nonzero.
    2:{ pose proof (inject_nat_pos a Ha). nra. }
    cbn [mbind outcome_bind].
    rewrite (IH (S a)); [|lia|f_equal; lia].
    rewrite <- app_assoc. reflexivity.
Qed.

End GrowthFacts.

(** C6 (as stated) fails for "any inflation": at inflation = -1 the
    deflator (1 + inflation) ** year is 0 and the division raises, whatever
    the float power returns. *)
Lemma growth_sip_inflation_minus_one_raises :
  0 < 1000 /\ (1 <= 1)%nat /\
  forall fpow,
    calculate_investment_growth fpow 1000 1 (12 # 100) "sip" (-1)
    = Raised ZeroDivisionError.
Proof.
  split; [reflexivity|]. split; [lia|]. intros fpow. reflexivity.
Qed.

(** C6 (amended).  In recurring mode (any mode other than "lumpsum") with
    principal > 0, years >= 1, any rate and any inflation other than -1,
    [calculate_investment_growth] returns one entry per year, and the entry
    of year y has: nominal = the result of 12 * y sequential steps of (add
    principal, multiply by (1 + rate) ** (1 / 12)) from 0; real = nominal /
    (1 + inflation)^y; growth = (nominal / (principal * 12 * y) - 1) * 100.
    The reported final nominal value is that of the last year. *)
Theorem growth_sip_recurrence fpow principal years rate mode inflation :
  0 < principal -> (1 <= years)%nat ->
  String.eqb mode "lumpsum" = false ->
  ~ 1 + inflation == 0 ->
  exists r,
    calculate_investment_growth fpow principal years rate mode inflation
    = Returned r /\
    length (gr_yearly r) = years /\
    (forall y, (1 <= y <= years)%nat ->
       exists e,
         nth_error (gr_yearly r) (y - 1) = Some e /\
         ye_year e = y /\
         ye_nominal e
         = Nat.iter (12 * y)
             (fun n => (n + principal) * fpow (1 + rate) (1 # 12)) 0 /\
         ye_real e = ye_nominal e / Py.pow (1 + inflation) y /\
         ye_growth e
         = (ye_nominal e / (principal * 12 * inject_Z (Z.of_nat y)) - 1)
           * 100) /\
    gr_nominal r
    = Nat.iter (12 * years)
        (fun n => (n + principal) * fpow (1 + rate) (1 # 12)) 0.
Proof.
  intros Hp Hy Hmode Hinfl.
  unfold calculate_investment_growth, year_range. rewrite Hmode.
  rewrite (sip_years_entries fpow principal rate inflation Hp Hinfl years 1 0 [])
    by (reflexivity || lia).
  cbn [mbind outcome_bind app].
  destruct (Nat.ltb_spec 0 years) as [_|]; [|lia].
  rewrite (PyFacts.div_nonzero _ principal) by lra.
  cbn [mbind outcome_bind].
  rewrite PyFacts.div_nonzero
    by (pose proof (inject_nat_pos years Hy); lra).
  cbn [mbind outcome_bind].
  eexists. split; [reflexivity|]. cbn [gr_yearly gr_nominal].
  assert (forall i, (i < years)%nat ->
            nth_error (map (sip_entry fpow principal rate inflation)
                         (seq 1 years)) i
            = Some (sip_entry fpow principal rate inflation (S i))) as Hnth.
  { intros i Hi. rewrite nth_error_map, nth_error_seq.
    destruct (Nat.ltb_spec i years); [reflexivity | lia]. }
  split; [now rewrite length_map, length_seq|]. split.
  - intros y Hrange. eexists. split.
    + rewrite Hnth by lia. replace (S (y - 1)) with y by lia. reflexivity.
    + repeat split.
  - destruct years as [|k]; [lia|].
    rewrite seq_S, map_app. cbn [map]. rewrite last_snoc. reflexivity.
Qed.

Lemma growth_sip_recurrence_witness :
  0 < 1000 /\ (1 <= 2)%nat /\ String.eqb "sip" "lumpsum" = false /\
  ~ 1 + (6 # 100) == 0 /\
  exists r,
    calculate_investment_growth (fun x _ => x) 1000 2 (12 # 100) "sip"
      (6 # 100) = Returned r /\
    length (gr_yearly r) = 2%nat.
Proof.
  split; [reflexivity|]. split; [lia|]. split; [reflexivity|].
  split; [discriminate|].
  destruct (growth_sip_recurrence (fun x _ => x) 1000 2 (12 # 100) "sip"
              (6 # 100)) as (r & Hr & Hlen & _);
    [reflexivity | lia | reflexivity | discriminate |].
  exists r. split; assumption.
Defined.

(** * Budget optimizer *)

Lemma var_values_fold (assignment : gmap string Q) :
  forall vars (m : gmap string (option Q)) k,
  fold_left (fun m x => <[name x := assignment !! name x]> m) vars m !! k
  = if bool_decide (k ∈ map name vars) then Some (assignment !! k)
    else m !! k.
Proof.
  induction vars as [|x vars IH]; intros m k; [reflexivity|].
  cbn [fold_left map]. rewrite IH.
  destruct (bool_decide_reflect (k ∈ map name vars)) as [Hin|Hnin].
  - rewrite bool_decide_eq_true_2 by now right. reflexivity.
  - destruct (decide (name x = k)) as [<-|Hne].
    + rewrite bool_decide_eq_true_2 by now left. now rewrite lookup_insert_eq.
    + rewrite bool_decide_eq_false_2.
      * now rewrite lookup_insert_ne.
      * intros Hin. apply elem_of_cons in Hin. destruct Hin; congruence.
Qed.

Lemma var_values_lookup (assignment : gmap string Q) vars k :
  var_values assignment vars !! k
  = if bool_decide (k ∈ map name vars) then Some (assignment !! k)
    else None.
Proof. unfold var_values. now rewrite var_values_fold, lookup_empty. Qed.

Lemma budget_variable_names risk_appetite (data : gmap string SpendingEntry) k :
  In k (map name
          (map (fun item => budget_variable risk_appetite (fst item) (snd item))
               (map_to_list data)))
  <-> is_Some (data !! k).
Proof.
  rewrite map_map. cbn [name budget_variable]. rewrite in_map_iff. split.
  - intros ([c d] & <- & Hin). apply list_elem_of_In, elem_of_map_to_list in Hin.
    cbn. eauto.
  - intros [d Hd]. exists (k, d). split; [reflexivity|].
    now apply list_elem_of_In, elem_of_map_to_list.
Qed.

(** The program that is built, when building it does not raise. *)
Lemma budget_problem_shape income data min_savings risk_appetite P :
  budget_problem income data min_savings risk_appetite = Returned P ->
  let items := map_to_list data in
  let vars := map (fun item => budget_variable risk_appetite (fst item) (snd item))
                  items in
  lp_variables P = vars /\
  ((items <> [] /\
    lp_constraints P
    = {| c_lhs := sum_of_variables vars; c_sense := LpConstraintLE;
         c_rhs := income - min_savings |}
      :: {| c_lhs := sum_of_variables vars; c_sense := LpConstraintGE;
            c_rhs := income * (4 # 10) |}
      :: essential_constraints items)
   \/
   (items = [] /\ lp_constraints P = [] /\
    0 <= income - min_savings /\ income * (4 # 10) <= 0)).
Proof.
  unfold budget_problem.
  destruct (objective_terms income min_savings risk_appetite (map_to_list data));
    cbn [mbind outcome_bind]; [|discriminate].
  destruct (map_to_list data) as [|item items] eqn:E.
  - cbn [map add_total_constraint].
    destruct (Qle_bool 0 (income - min_savings)) eqn:E1;
      cbn [mbind outcome_bind]; [|discriminate].
    destruct (Qle_bool (income * (4 # 10)) 0) eqn:E2;
      cbn [mbind outcome_bind]; [|discriminate].
    intros [= <-]. split; [reflexivity|]. right.
    apply Qle_bool_iff in E1, E2. repeat split; assumption.
  - cbn [map add_total_constraint mbind outcome_bind].
    intros [= <-]. split; [reflexivity|]. left. split; [discriminate|].
    reflexivity.
Qed.

(** For a non-empty map, building the program raises only on a zero income
    or a zero amount. *)
Lemma budget_problem_returns income data min_savings risk_appetite :
  ~ income == 0 ->
  data <> ∅ ->
  (forall cat d, data !! cat = Some d -> 0 < amount d) ->
  exists P, budget_problem income data min_savings risk_appetite = Returned P.
Proof.
  intros Hi Hne Ha. unfold budget_problem.
  assert (forall item, In item (map_to_list data) -> 0 < amount (snd item))
    as Hitems.
  { intros [c d] Hin. apply list_elem_of_In, elem_of_map_to_list in Hin.
    exact (Ha c d Hin). }
  assert (map_to_list data <> []) as Hne'.
  { intros E. apply Hne. now apply map_to_list_empty_iff. }
  assert (exists ts, objective_terms income min_savings risk_appetite
                       (map_to_list data) = Returned ts) as [ts ->].
  { clear Hne'. induction (map_to_list data) as [|item rest IH]; [now exists []|].
    destruct IH as [ts Hts]; [intros i Hin; apply Hitems; now right|].
    cbn [objective_terms]. unfold objective_term.
    rewrite (PyFacts.div_nonzero _ (amount (snd item))).
    2:{ pose proof (Hitems item (or_introl eq_refl)). lra. }
    cbn [mbind outcome_bind].
    rewrite (PyFacts.div_nonzero _ income) by exact Hi.
    cbn [mbind outcome_bind]. rewrite Hts. cbn. eauto. }
  cbn [mbind outcome_bind].
  destruct (map_to_list data) as [|item items]; [contradiction|].
  cbn [map add_total_constraint mbind outcome_bind]. eauto.
Qed.

Lemma optimize_budget_returns (solve : LpProblem -> LpStatus * gmap string Q)
    income data min_savings risk_appetite P :
  budget_problem income data min_savings risk_appetite = Returned P ->
  optimize_budget solve income data min_savings risk_appetite
  = Returned (var_values (snd (solve P)) (lp_variables P)).
Proof. intros H. unfold optimize_budget. now rewrite H. Qed.

Lemma optimize_budget_lookup (solve : LpProblem -> LpStatus * gmap string Q)
    income data min_savings risk_appetite P k :
  budget_problem income data min_savings risk_appetite = Returned P ->
  var_values (snd (solve P)) (lp_variables P) !! k
  = match data !! k with
    | Some _ => Some (snd (solve P) !! k)
    | None => None
    end.
Proof.
  intros H. destruct (budget_problem_shape _ _ _ _ _ H) as [-> _].
  rewrite var_values_lookup.
  pose proof (budget_variable_names risk_appetite data k) as Hnames.
  destruct (data !! k) as [d|].
  - rewrite bool_decide_eq_true_2; [reflexivity|].
    apply list_elem_of_In, Hnames. eauto.
  - rewrite bool_decide_eq_false_2; [reflexivity|].
    intros Hin. apply list_elem_of_In, Hnames in Hin. destruct Hin as [? [=]].
Qed.

Lemma qsum_perm (l l' : list Q) : l ≡ₚ l' -> qsum l == qsum l'.
Proof.
  induction 1 as [|x l l' _ IH|x y l|l l' l'' _ IH1 _ IH2]; cbn.
  - reflexivity.
  - unfold qsum in IH. lra.
  - lra.
  - unfold qsum in *. lra.
Qed.

Lemma qsum_map_ext {A} (f g : A -> Q) (l : list A) :
  (forall a, f a == g a) -> qsum (map f l) == qsum (map g l).
Proof.
  intros H. induction l as [|a l IH]; cbn; [reflexivity|].
  unfold qsum in IH. rewrite (H a). lra.
Qed.

Lemma allocation_of_keys (v : gmap string Q) (data : gmap string SpendingEntry) :
  ((fun item : string * SpendingEntry =>
      (fst item, default 0 (v !! fst item))) <$> map_to_list data).*1
  = (map_to_list data).*1.
Proof. rewrite <- list_fmap_compose. reflexivity. Qed.

Lemma allocation_of_lookup (v : gmap string Q)
    (data : gmap string SpendingEntry) k :
  allocation_of v data !! k
  = match data !! k with
    | Some _ => Some (default 0 (v !! k))
    | None => None
    end.
Proof.
  unfold allocation_of. destruct (data !! k) as [d|] eqn:E.
  - apply elem_of_list_to_map_1.
    + rewrite allocation_of_keys. apply NoDup_fst_map_to_list.
    + apply list_elem_of_fmap. exists (k, d). split; [reflexivity|].
      now apply elem_of_map_to_list.
  - apply not_elem_of_list_to_map_1. rewrite allocation_of_keys.
    intros Hin. apply list_elem_of_fmap in Hin. destruct Hin as ([c d] & -> & Hin).
    apply elem_of_map_to_list in Hin. cbn in E. congruence.
Qed.

Lemma allocation_of_total (v : gmap string Q)
    (data : gmap string SpendingEntry) :
  allocation_total (allocation_of v data)
  == qsum (map (fun item => default 0 (v !! fst item)) (map_to_list data)).
Proof.
  unfold allocation_total, allocation_of.
  rewrite qsum_perm.
  2:{ apply (Permutation_map snd), map_to_list_to_map.
      rewrite allocation_of_keys. apply NoDup_fst_map_to_list. }
  change (@fmap list _) with (@map). rewrite map_map. reflexivity.
Qed.

Lemma sum_of_variables_eval risk_appetite (v : gmap string Q)
    (items : list (string * SpendingEntry)) :
  lp_eval (sum_of_variables
             (map (fun item => budget_variable risk_appetite (fst item) (snd item))
                  items)) v
  == qsum (map (fun item => default 0 (v !! fst item)) items).
Proof.
  unfold lp_eval, sum_of_variables. cbn [terms constant].
  rewrite !map_map. cbn [fst snd name budget_variable].
  rewrite (qsum_map_ext _ (fun item => default 0 (v !! fst item)));
    [lra | intros a; lra].
Qed.

Lemma essential_constraint_in (items : list (string * SpendingEntry)) cat d :
  In (cat, d) items -> is_essential cat = true ->
  In {| c_lhs := {| terms := [(1, cat)]; constant := 0 |};
        c_sense := LpConstraintGE;
        c_rhs := amount d * (9 # 10) |} (essential_constraints items).
Proof.
  intros Hin Hess. unfold essential_constraints. apply in_flat_map.
  exists (cat, d). split; [exact Hin|]. cbn [fst snd]. rewrite Hess. now left.
Qed.

Lemma lp_satisfies_inv (p : LpProblem) (v : gmap string Q) :
  lp_satisfies p v = true ->
  (forall x, In x (lp_variables p) ->
     exists q, v !! name x = Some q /\ lowBound x <= q /\ q <= upBound x) /\
  (forall c, In c (lp_constraints p) -> holds v c = true).
Proof.
  unfold lp_satisfies. rewrite andb_true_iff, !forallb_forall.
  intros [Hb Hc]. split; [|exact Hc].
  intros x Hx. specialize (Hb x Hx). unfold within_bounds in Hb.
  destruct (v !! name x) as [q|]; [|discriminate].
  apply andb_true_iff in Hb. rewrite !Qle_bool_iff in Hb. eauto.
Qed.

(** What the two spending constraints say of a satisfying assignment. *)
Lemma budget_constraints_hold income (data : gmap string SpendingEntry)
    min_savings risk_appetite P (v : gmap string Q) :
  budget_problem income data min_savings risk_appetite = Returned P ->
  lp_satisfies P v = true ->
  let spent :=
    qsum (map (fun item : string * SpendingEntry => default 0 (v !! fst item))
              (map_to_list data)) in
  spent <= income - min_savings /\ income * (4 # 10) <= spent.
Proof.
  intros Hbuild Hsat spent.
  destruct (budget_problem_shape _ _ _ _ _ Hbuild)
    as [_ [[_ Hcons]|(Hnil & _ & H1 & H2)]].
  - destruct (lp_satisfies_inv P v Hsat) as [_ Hholds].
    rewrite Hcons in Hholds.
    pose proof (Hholds _ (in_eq _ _)) as H1.
    pose proof (Hholds _ (in_cons _ _ _ (in_eq _ _))) as H2.
    unfold holds in H1, H2. cbn [c_sense c_lhs c_rhs] in H1, H2.
    apply Qle_bool_iff in H1, H2.
    rewrite sum_of_variables_eval in H1, H2. split; assumption.
  - unfold spent. rewrite Hnil. cbn. split; lra.
Qed.

(** C2.  For every optimization instance that is built and feasible, and a
    solver that behaves on it as a linear-programming solver does (it reports
    Optimal because the bounded program is feasible, and the values it leaves
    then satisfy the program), [optimize_budget] returns an allocation with a
    number for every category, in which every category whose lower-cased name
    is rent or utilities gets at least 90% of its current amount and whose
    total is at most income - min_savings. *)
Theorem optimize_budget_feasible_allocation
    (solve : LpProblem -> LpStatus * gmap string Q)
    income (data : gmap string SpendingEntry) min_savings risk_appetite P :
  budget_problem income data min_savings risk_appetite = Returned P ->
  lp_feasible P ->
  (lp_feasible P -> fst (solve P) = LpStatusOptimal) ->
  (fst (solve P) = LpStatusOptimal -> lp_satisfies P (snd (solve P)) = true) ->
  exists alloc : gmap string Q,
    optimize_budget solve income data min_savings risk_appetite
    = Returned (Some <$> alloc) /\
    dom alloc = dom data /\
    (forall cat d, data !! cat = Some d -> is_essential cat = true ->
       exists x, alloc !! cat = Some x /\ amount d * (9 # 10) <= x) /\
    allocation_total alloc <= income - min_savings.
Proof.
  intros Hbuild Hfeas Hcomplete Hsound.
  pose proof (Hsound (Hcomplete Hfeas)) as Hsat.
  set (v := snd (solve P)) in *.
  destruct (budget_problem_shape _ _ _ _ _ Hbuild) as [Hvars Hcons].
  destruct (lp_satisfies_inv P v Hsat) as [Hbounds Hholds].
  assert (forall k d, data !! k = Some d -> exists q, v !! k = Some q) as Hval.
  { intros k d Hk.
    destruct (Hbounds (budget_variable risk_appetite k d)) as (q & Hq & _);
      [|eauto].
    rewrite Hvars. apply in_map_iff. exists (k, d). split; [reflexivity|].
    now apply list_elem_of_In, elem_of_map_to_list. }
  exists (allocation_of v data). split; [|split; [|split]].
  - rewrite (optimize_budget_returns solve _ _ _ _ P Hbuild). f_equal.
    apply map_eq. intros k.
    rewrite (optimize_budget_lookup solve _ _ _ _ P k Hbuild).
    rewrite lookup_fmap, allocation_of_lookup. fold v.
    destruct (data !! k) as [d|] eqn:Hk; [|reflexivity].
    destruct (Hval k d Hk) as [q ->]. reflexivity.
  - apply set_eq. intros k. rewrite !elem_of_dom, allocation_of_lookup.
    destruct (data !! k); split; intros [? H]; try discriminate; eauto.
  - intros cat d Hd Hess. rewrite allocation_of_lookup, Hd.
    eexists. split; [reflexivity|].
    assert (In (cat, d) (map_to_list data)) as Hin
      by now apply list_elem_of_In, elem_of_map_to_list.
    pose proof (essential_constraint_in _ _ _ Hin Hess) as Hc.
    destruct Hcons as [[_ Hcons]|[Hnil _]]; [|rewrite Hnil in Hin; destruct Hin].
    specialize (Hholds _ ltac:(rewrite Hcons; right; right; exact Hc)).
    unfold holds, lp_eval in Hholds. cbn in Hholds.
    apply Qle_bool_iff in Hholds. lra.
  - rewrite allocation_of_total.
    exact (proj1 (budget_constraints_hold _ _ _ _ _ v Hbuild Hsat)).
Qed.

Lemma sample_problem_built :
  exists P,
    budget_problem 50000 sample_spending 10000 (1 # 2) = Returned P /\
    lp_satisfies P (snd (sample_solver P)) = true.
Proof.
  eexists. split; [vm_compute; reflexivity|]. vm_compute. reflexivity.
Qed.

Lemma optimize_budget_feasible_allocation_witness :
  exists alloc : gmap string Q,
    optimize_budget sample_solver 50000 sample_spending 10000 (1 # 2)
    = Returned (Some <$> alloc) /\
    (exists x, alloc !! "Rent" = Some x /\ 15000 * (9 # 10) <= x) /\
    allocation_total alloc <= 50000 - 10000.
Proof.
  destruct sample_problem_built as (P & HP & Hsat).
  destruct (optimize_budget_feasible_allocation sample_solver 50000
              sample_spending 10000 (1 # 2) P HP)
    as (alloc & Hret & _ & Hess & Htotal).
  - exists (snd (sample_solver P)). exact Hsat.
  - reflexivity.
  - intros _. exact Hsat.
  - exists alloc. split; [exact Hret|]. split; [|exact Htotal].
    apply (Hess "Rent" {| amount := 15000; happiness := 6; essential := true |});
      vm_compute; reflexivity.
Defined.

Lemma infeasible_problem_built :
  exists P, budget_problem 100 infeasible_spending 200 (1 # 2) = Returned P.
Proof. eexists. vm_compute. reflexivity. Qed.

(** C1 (as stated) fails: with income 100, min_savings 200 and one category
    Rent of 50 the program is built and has no feasible point, yet whatever
    the solver reports [optimize_budget] returns an allocation mapping for
    Rent, the value the solver left on the variable; a solver run that reports
    Infeasible and leaves 150 there makes the returned total exceed income. *)
Lemma optimize_budget_infeasible_returns_mapping :
  exists P,
    budget_problem 100 infeasible_spending 200 (1 # 2) = Returned P /\
    ~ lp_feasible P /\
    (forall solve : LpProblem -> LpStatus * gmap string Q,
       optimize_budget solve 100 infeasible_spending 200 (1 # 2)
       = Returned (<["Rent" := snd (solve P) !! "Rent"]>
                     (∅ : gmap string (option Q)))) /\
    optimize_budget infeasible_solver 100 infeasible_spending 200 (1 # 2)
    = Returned (<["Rent" := Some 150]> (∅ : gmap string (option Q))).
Proof.
  destruct infeasible_problem_built as [P HP].
  exists P. split; [exact HP|].
  assert (forall solve : LpProblem -> LpStatus * gmap string Q,
            optimize_budget solve 100 infeasible_spending 200 (1 # 2)
            = Returned (<["Rent" := snd (solve P) !! "Rent"]>
                          (∅ : gmap string (option Q)))) as Hret.
  { intros solve. rewrite (optimize_budget_returns solve _ _ _ _ P HP).
    f_equal. apply map_eq. intros k.
    rewrite (optimize_budget_lookup solve _ _ _ _ P k HP).
    unfold infeasible_spending.
    destruct (decide (k = "Rent")) as [->|Hne].
    - now rewrite !lookup_insert_eq.
    - now rewrite !lookup_insert_ne, !lookup_empty by congruence. }
  split; [|split; [exact Hret|]].
  - intros [v Hv].
    destruct (budget_constraints_hold _ _ _ _ _ v HP Hv) as [H1 H2].
    revert H1 H2.
    generalize (qsum (map (fun item : string * SpendingEntry =>
                             default 0 (v !! fst item))
                          (map_to_list infeasible_spending))).
    intros spent H1 H2. lra.
  - rewrite Hret. unfold infeasible_solver. cbn [snd].
    now rewrite lookup_insert_eq.
Qed.

(** C1 (amended).  [optimize_budget] has no infeasibility signal.  Whenever
    the program is built, the call returns, whatever status the solver
    reports, the mapping that gives every category the value the solver left
    on its variable; the result depends on the solver's values only, not on
    its status; and when the program is infeasible no returned allocation
    satisfies it. *)
Theorem optimize_budget_ignores_status
    (solve : LpProblem -> LpStatus * gmap string Q)
    income (data : gmap string SpendingEntry) min_savings risk_appetite P :
  budget_problem income data min_savings risk_appetite = Returned P ->
  exists m : gmap string (option Q),
    optimize_budget solve income data min_savings risk_appetite = Returned m /\
    dom m = dom data /\
    (forall cat, is_Some (data !! cat) ->
       m !! cat = Some (snd (solve P) !! cat)) /\
    (forall solve' : LpProblem -> LpStatus * gmap string Q,
       snd (solve' P) = snd (solve P) ->
       optimize_budget solve' income data min_savings risk_appetite
       = Returned m) /\
    (~ lp_feasible P ->
     forall alloc : gmap string Q,
       m = Some <$> alloc -> lp_satisfies P alloc = false).
Proof.
  intros Hbuild. exists (var_values (snd (solve P)) (lp_variables P)).
  split; [now apply optimize_budget_returns|].
  split; [|split; [|split]].
  - apply set_eq. intros k.
    rewrite !elem_of_dom, (optimize_budget_lookup solve _ _ _ _ P k Hbuild).
    destruct (data !! k); split; intros [? H]; try discriminate; eauto.
  - intros cat [d Hd].
    now rewrite (optimize_budget_lookup solve _ _ _ _ P cat Hbuild), Hd.
  - intros solve' Heq.
    rewrite (optimize_budget_returns solve' _ _ _ _ P Hbuild). now rewrite Heq.
  - intros Hinf alloc _. destruct (lp_satisfies P alloc) eqn:E; [|reflexivity].
    exfalso. apply Hinf. now exists alloc.
Qed.

Lemma optimize_budget_ignores_status_witness :
  exists m : gmap string (option Q),
    optimize_budget infeasible_solver 100 infeasible_spending 200 (1 # 2)
    = Returned m /\
    dom m = dom infeasible_spending.
Proof.
  destruct infeasible_problem_built as [P HP].
  destruct (optimize_budget_ignores_status infeasible_solver
              100 infeasible_spending 200 (1 # 2) P HP)
    as (m & Hret & Hdom & _).
  exists m. split; assumption.
Defined.

(** * Further properties of the income tax *)

Lemma slab_tax_below ti prev table : ti <= prev -> slab_tax ti prev table == 0.
Proof.
  intros H. unfold slab_tax. rewrite slab_entries_not_reached by exact H.
  reflexivity.
Qed.

Lemma slab_tax_within ti prev l rate rest :
  prev < ti -> ti <= l ->
  slab_tax ti prev ((Finite l, rate) :: rest) == (ti - prev) * rate.
Proof.
  intros H1 H2. unfold slab_tax. cbn [slab_entries].
  rewrite (proj2 (PyFacts.gt_true ti prev) H1).
  rewrite (slab_entries_not_reached ti l rest H2).
  cbn [map qsum fold_right sd_tax min_bound].
  destruct (PyFacts.min_cases ti l) as [[H ->]|[H ->]]; [|lra].
  assert (ti == l) as -> by lra. lra.
Qed.

Lemma slab_tax_above ti prev l rate rest :
  prev < ti -> l < ti ->
  slab_tax ti prev ((Finite l, rate) :: rest)
  == (l - prev) * rate + slab_tax ti l rest.
Proof.
  intros H1 H2. unfold slab_tax. cbn [slab_entries].
  rewrite (proj2 (PyFacts.gt_true ti prev) H1).
  unfold qsum. cbn [map fold_right sd_tax min_bound].
  destruct (PyFacts.min_cases ti l) as [[H ->]|[H ->]]; lra.
Qed.

Lemma slab_tax_top ti prev rate rest :
  prev < ti -> slab_tax ti prev ((Infinity, rate) :: rest) == (ti - prev) * rate.
Proof.
  intros H1. unfold slab_tax. cbn [slab_entries].
  rewrite (proj2 (PyFacts.gt_true ti prev) H1). cbn. lra.
Qed.

Lemma base_tax_is_slab_tax income regime deductions r :
  calculate_income_tax income regime deductions = Returned r ->
  base_tax r == slab_tax (Py.max (income - deductions) 0) 0 (slabs_of regime) /\
  total_tax r == base_tax r * (104 # 100) /\
  taxable_income r = Py.max (income - deductions) 0.
Proof.
  intros Hr.
  destruct (calculate_income_tax_returns income regime deductions)
    as (r' & Hr' & Hti & _ & Hb & Hc & Ht & _).
  rewrite Hr in Hr'. injection Hr' as <-.
  split; [exact Hb|]. split; [rewrite Ht, Hc; lra | exact Hti].
Qed.

Ltac slab_tax_norm :=
  unfold new_regime_slabs, old_regime_slabs;
  repeat first
    [ rewrite slab_tax_above by lra
    | rewrite slab_tax_within by lra
    | rewrite slab_tax_top by lra
    | rewrite slab_tax_below by lra ].

(** The closed form of the two tables on each band. *)
Lemma new_regime_not_above_old ti :
  slab_tax ti 0 new_regime_slabs <= slab_tax ti 0 old_regime_slabs.
Proof.
  destruct (Qlt_le_dec 0 ti) as [H0|H0]; [|slab_tax_norm; lra].
  destruct (Qlt_le_dec 250000 ti) as [H1|H1]; [|slab_tax_norm; lra].
  destruct (Qlt_le_dec 500000 ti) as [H2|H2]; [|slab_tax_norm; lra].
  destruct (Qlt_le_dec 750000 ti) as [H3|H3]; [|slab_tax_norm; lra].
  destruct (Qlt_le_dec 1000000 ti) as [H4|H4]; [|slab_tax_norm; lra].
  destruct (Qlt_le_dec 1250000 ti) as [H5|H5]; [|slab_tax_norm; lra].
  destruct (Qlt_le_dec 1500000 ti) as [H6|H6]; slab_tax_norm; lra.
Qed.

Lemma slab_tax_increment rmax t1 t2 : forall table prev,
  ascending prev table -> rates_at_most rmax table -> t1 <= t2 ->
  slab_tax t2 prev table - slab_tax t1 prev table
  <= rmax * (Py.max t2 prev - Py.max t1 prev).
Proof.
  induction table as [|[limit rate] rest IH]; intros prev Hasc Hrates Hle;
    [destruct Hasc|].
  assert (rate <= rmax) as Hr by exact (Hrates (limit, rate) (or_introl eq_refl)).
  assert (rates_at_most rmax rest) as Hrest
    by (intros s Hs; apply Hrates; now right).
  destruct limit as [l|]; cbn [ascending] in Hasc.
  - destruct Hasc as (Hpl & Hr0 & Hasc).
    specialize (IH l Hasc Hrest Hle).
    destruct (Qlt_le_dec prev t1) as [Hp1|Hp1];
      destruct (Qlt_le_dec prev t2) as [Hp2|Hp2];
      destruct (Qlt_le_dec l t1) as [Hl1|Hl1];
      destruct (Qlt_le_dec l t2) as [Hl2|Hl2];
      try (exfalso; lra);
      repeat first
        [ rewrite (slab_tax_above t2 prev) by lra
        | rewrite (slab_tax_above t1 prev) by lra
        | rewrite (slab_tax_within t2 prev) by lra
        | rewrite (slab_tax_within t1 prev) by lra
        | rewrite (slab_tax_below t2 prev) by lra
        | rewrite (slab_tax_below t1 prev) by lra ];
      try (rewrite (slab_tax_below t1 l) in IH by lra);
      try (rewrite (slab_tax_below t2 l) in IH by lra);
      revert IH;
      generalize (slab_tax t1 l rest) (slab_tax t2 l rest); intros T1 T2 IH;
      py_cases; nra.
  - destruct Hasc as [Hr0 _].
    destruct (Qlt_le_dec prev t1) as [Hp1|Hp1];
      destruct (Qlt_le_dec prev t2) as [Hp2|Hp2];
      try (exfalso; lra);
      repeat first
        [ rewrite (slab_tax_top t2 prev) by lra
        | rewrite (slab_tax_top t1 prev) by lra
        | rewrite (slab_tax_below t2 prev) by lra
        | rewrite (slab_tax_below t1 prev) by lra ];
      py_cases; nra.
Qed.

Lemma slabs_of_rates regime : rates_at_most (30 # 100) (slabs_of regime).
Proof.
  unfold slabs_of, rates_at_most.
  destruct (String.eqb regime "new"); cbn; intros s Hs;
    repeat (destruct Hs as [<-|Hs]; [cbn; discriminate|]); destruct Hs.
Qed.

Lemma slab_tax_monotone regime t1 t2 :
  t1 <= t2 -> slab_tax t1 0 (slabs_of regime) <= slab_tax t2 0 (slabs_of regime).
Proof.
  intros H. apply slab_entries_tax_mono; [apply slabs_of_ascending | exact H].
Qed.

(** X1.  For the same income and deductions the new regime never charges
    more than the old one: base tax and total tax under "new" are at most
    those under "old". *)
Theorem income_tax_new_not_above_old income deductions :
  exists rn ro,
    calculate_income_tax income "new" deductions = Returned rn /\
    calculate_income_tax income "old" deductions = Returned ro /\
    base_tax rn <= base_tax ro /\
    total_tax rn <= total_tax ro.
Proof.
  destruct (calculate_income_tax_returns income "new" deductions)
    as (rn & Hn & _).
  destruct (calculate_income_tax_returns income "old" deductions)
    as (ro & Ho & _).
  exists rn, ro. split; [exact Hn|]. split; [exact Ho|].
  destruct (base_tax_is_slab_tax _ _ _ _ Hn) as (Hbn & Htn & _).
  destruct (base_tax_is_slab_tax _ _ _ _ Ho) as (Hbo & Hto & _).
  pose proof (new_regime_not_above_old (Py.max (income - deductions) 0)) as H.
  change (slabs_of "new") with new_regime_slabs in Hbn.
  change (slabs_of "old") with old_regime_slabs in Hbo.
  split; lra.
Qed.

(** X2.  Deductions never raise the tax: with larger deductions (same income
    and regime) base tax and total tax are not larger. *)
Theorem income_tax_deductions_never_increase income regime d1 d2 :
  d1 <= d2 ->
  exists r1 r2,
    calculate_income_tax income regime d1 = Returned r1 /\
    calculate_income_tax income regime d2 = Returned r2 /\
    base_tax r2 <= base_tax r1 /\
    total_tax r2 <= total_tax r1.
Proof.
  intros Hd.
  destruct (calculate_income_tax_returns income regime d1) as (r1 & H1 & _).
  destruct (calculate_income_tax_returns income regime d2) as (r2 & H2 & _).
  exists r1, r2. split; [exact H1|]. split; [exact H2|].
  destruct (base_tax_is_slab_tax _ _ _ _ H1) as (Hb1 & Ht1 & _).
  destruct (base_tax_is_slab_tax _ _ _ _ H2) as (Hb2 & Ht2 & _).
  assert (slab_tax (Py.max (income - d2) 0) 0 (slabs_of regime)
          <= slab_tax (Py.max (income - d1) 0) 0 (slabs_of regime)) as H.
  { apply slab_tax_monotone. py_cases; lra. }
  split; lra.
Qed.

Lemma income_tax_deductions_never_increase_witness :
  0 <= 150000 /\
  exists r1 r2,
    calculate_income_tax 900000 "old" 0 = Returned r1 /\
    calculate_income_tax 900000 "old" 150000 = Returned r2 /\
    total_tax r2 <= total_tax r1.
Proof.
  split; [discriminate|].
  destruct (income_tax_deductions_never_increase 900000 "old" 0 150000)
    as (r1 & r2 & H1 & H2 & _ & Ht); [discriminate|].
  exists r1, r2. repeat split; assumption.
Defined.



(** X4.  When income minus deductions is at most 250000 no tax is due under
    either regime: base tax, cess, total tax and effective rate are all 0. *)
Theorem income_tax_zero_up_to_threshold income regime deductions :
  income - deductions <= 250000 ->
  exists r,
    calculate_income_tax income regime deductions = Returned r /\
    base_tax r == 0 /\ cess r == 0 /\ total_tax r == 0 /\
    effective_rate r == 0.
Proof.
  intros Hle.
  destruct (calculate_income_tax_returns income regime deductions)
    as (r & Hr & _ & _ & _ & Hc & Ht & He0 & He1).
  exists r. split; [exact Hr|].
  destruct (base_tax_is_slab_tax _ _ _ _ Hr) as (Hb & _ & _).
  assert (base_tax r == 0) as Hzero.
  { rewrite Hb. unfold slabs_of.
    destruct (PyFacts.max_cases (income - deductions) 0) as [[Hm ->]|[Hm ->]];
      destruct (String.eqb regime "new"); slab_tax_norm;
      try reflexivity;
      destruct (Qlt_le_dec 0 (income - deductions)); slab_tax_norm; lra. }
  split; [exact Hzero|]. rewrite Ht, Hc.
  split; [lra|]. split; [lra|].
  destruct (Qlt_le_dec 0 income) as [Hpos|Hneg].
  - rewrite (He1 Hpos), Ht, Hc, Hzero. field. lra.
  - rewrite (He0 Hneg). reflexivity.
Qed.

Lemma income_tax_zero_up_to_threshold_witness :
  400000 - 150000 <= 250000 /\
  exists r,
    calculate_income_tax 400000 "old" 150000 = Returned r /\ total_tax r == 0.
Proof.
  split; [discriminate|].
  destruct (income_tax_zero_up_to_threshold 400000 "old" 150000)
    as (r & Hr & _ & _ & Ht & _); [discriminate|].
  exists r. split; assumption.
Defined.

Lemma contiguous_slab_width : forall entries start i s l,
  contiguous start entries -> nth_error entries i = Some s ->
  sd_to s = Finite l -> sd_from s < l.
Proof.
  induction entries as [|a rest IH]; intros start i s l Hc Hi Hl;
    [destruct i; discriminate|].
  destruct Hc as [Hfrom Hto]. destruct i as [|i].
  - injection Hi as ->. rewrite Hl in Hto. destruct Hto. rewrite Hfrom.
    assumption.
  - cbn in Hi. destruct (sd_to a) as [t|];
      [|subst rest; destruct i; discriminate].
    destruct Hto as [_ Hc]. exact (IH t i s l Hc Hi Hl).
Qed.

(** X5.  The breakdown is consistent with the totals: base tax is the sum of
    the per-slab taxes, every listed slab is taxed on a positive amount, and
    its tax is that amount times its rate (the listed rate is a
    percentage). *)
Theorem income_tax_breakdown_adds_up income regime deductions :
  exists r,
    calculate_income_tax income regime deductions = Returned r /\
    base_tax r == qsum (map sd_tax (slabs r)) /\
    (forall s, In s (slabs r) ->
       0 < sd_amount s /\ 0 <= sd_rate s /\ sd_rate s <= 30 /\
       sd_tax s == sd_amount s * (sd_rate s / 100)).
Proof.
  destruct (calculate_income_tax_returns income regime deductions)
    as (r & Hr & Hti & Hsl & Hb & _).
  exists r. split; [exact Hr|]. rewrite Hsl. split; [exact Hb|].
  intros s Hin.
  pose proof (slabs_of_ascending regime) as Hasc.
  destruct (slab_entries_reached _ _ 0 s Hasc Hin)
    as (_ & Hreach & Hamt & rate & Hrate & Hsr & Hst).
  pose proof (slabs_of_rates regime _ Hrate) as Hmax. cbn [snd] in Hmax.
  assert (0 <= rate) as Hmin.
  { clear - Hrate. unfold slabs_of in Hrate.
    destruct (String.eqb regime "new"); cbn in Hrate;
      repeat (destruct Hrate as [Hrate|Hrate];
              [injection Hrate as _ <-; lra|]);
      destruct Hrate. }
  assert (0 < sd_amount s) as Hpos.
  { pose proof (slab_entries_contiguous (Py.max (income - deductions) 0)
                  _ 0 Hasc) as Hc.
    apply In_nth_error in Hin. destruct Hin as [i Hi].
    rewrite Hamt.
    destruct (min_bound_cases (Py.max (income - deductions) 0) (sd_to s))
      as [[_ ->]|(l & Hl & Hlt & ->)]; [lra|].
    pose proof (contiguous_slab_width _ _ _ _ _ Hc Hi Hl). lra. }
  split; [exact Hpos|]. rewrite Hsr, Hst.
  split; [lra|]. split; [lra|]. field.
Qed.

(** X6.  With deductions >= 0 the tax is bounded by the top rate: base tax
    lies between 0 and 30% of taxable income, total tax is at most 31.2% of
    taxable income, and for a positive income the effective rate lies
    between 0 and 31.2 (percent). *)
Theorem income_tax_bounded_by_top_rate income regime deductions :
  0 <= deductions ->
  exists r,
    calculate_income_tax income regime deductions = Returned r /\
    0 <= base_tax r /\
    base_tax r <= (30 # 100) * taxable_income r /\
    total_tax r <= (312 # 1000) * taxable_income r /\
    (0 < income -> 0 <= effective_rate r /\ effective_rate r <= (312 # 10)).
Proof.
  intros Hd.
  destruct (calculate_income_tax_returns income regime deductions)
    as (r & Hr & Hti & _ & _ & Hc & Ht & _ & He).
  exists r. split; [exact Hr|].
  destruct (base_tax_is_slab_tax _ _ _ _ Hr) as (Hb & _ & _).
  pose proof (py_max_zero_nonneg (income - deductions)) as Hnn.
  pose proof (slab_tax_increment (30 # 100) 0 _ (slabs_of regime) 0
                (slabs_of_ascending regime) (slabs_of_rates regime) Hnn) as Hinc.
  rewrite (slab_tax_below 0 0) in Hinc by lra.
  pose proof (slab_tax_monotone regime 0 _ Hnn) as Hmono.
  rewrite (slab_tax_below 0 0) in Hmono by lra.
  assert (Py.max (Py.max (income - deductions) 0) 0 - Py.max 0 0
          == Py.max (income - deductions) 0) as Hgap by (py_cases; lra).
  rewrite Hgap in Hinc. rewrite Hti.
  assert (Py.max (income - deductions) 0 <= Py.max income 0) as Hcap
    by (py_cases; lra).
  revert Hb Hinc Hmono Hcap.
  generalize (slab_tax (Py.max (income - deductions) 0) 0 (slabs_of regime))
    (Py.max (income - deductions) 0).
  intros tax ti Hb Hinc Hmono Hcap.
  assert (total_tax r == base_tax r * (104 # 100)) as Htot
    by (rewrite Ht, Hc; lra).
  split; [lra|]. split; [lra|]. split; [lra|].
  intros Hpos. rewrite (He Hpos).
  assert (ti <= income) as Hti' by (revert Hcap; py_cases; lra).
  assert (0 <= total_tax r /\ total_tax r <= (312 # 1000) * income) as [Hlo Hhi]
    by (split; lra).
  assert (0 <= total_tax r / income) as Hq0
    by (apply Qle_shift_div_l; [exact Hpos | lra]).
  assert (total_tax r / income <= 312 # 1000) as Hq1
    by (apply Qle_shift_div_r; [exact Hpos | lra]).
  split; lra.
Qed.

Lemma income_tax_bounded_by_top_rate_witness :
  0 <= 50000 /\
  exists r,
    calculate_income_tax 2000000 "new" 50000 = Returned r /\
    effective_rate r <= (312 # 10).
Proof.
  split; [discriminate|].
  destruct (income_tax_bounded_by_top_rate 2000000 "new" 50000)
    as (r & Hr & _ & _ & _ & He); [discriminate|].
  exists r. split; [exact Hr|]. apply He. reflexivity.
Defined.

(** * Further properties of GST, insurance needs and bulk purchases *)

Lemma gst_rate_of_values category :
  gst_rate_of category = 5 # 100 \/ gst_rate_of category = 12 # 100 \/
  gst_rate_of category = 18 # 100 \/ gst_rate_of category = 28 # 100.
Proof.
  unfold gst_rate_of, gst_rates.
  destruct (decide (category = "Essential")) as [->|H1];
    [left; now rewrite lookup_insert_eq|].
  rewrite lookup_insert_ne by congruence.
  destruct (decide (category = "Standard")) as [->|H2];
    [right; left; now rewrite lookup_insert_eq|].
  rewrite lookup_insert_ne by congruence.
  destruct (decide (category = "Luxury")) as [->|H3];
    [right; right; left; now rewrite lookup_insert_eq|].
  rewrite lookup_insert_ne by congruence.
  destruct (decide (category = "Special")) as [->|H4];
    [right; right; right; now rewrite lookup_insert_eq|].
  rewrite lookup_insert_ne, lookup_empty by congruence. right. left. reflexivity.
Qed.

Lemma binary64_gst_rate_of_values category :
  Binary64.gst_rate_of category
  = if String.eqb category "Essential" then 0.05%float
    else if String.eqb category "Luxury" then 0.18%float
    else if String.eqb category "Special" then 0.28%float
    else 0.12%float.
Proof.
  unfold Binary64.gst_rate_of, Binary64.gst_rates.
  destruct (String.eqb_spec category "Essential") as [->|H1];
    [now rewrite lookup_insert_eq|].
  rewrite lookup_insert_ne by congruence.
  destruct (String.eqb_spec category "Luxury") as [->|H3].
  { rewrite lookup_insert_ne by discriminate. now rewrite lookup_insert_eq. }
  destruct (String.eqb_spec category "Special") as [->|H4].
  { rewrite !lookup_insert_ne by discriminate. now rewrite lookup_insert_eq. }
  destruct (decide (category = "Standard")) as [->|H2];
    [now rewrite lookup_insert_eq|].
  now rewrite !lookup_insert_ne, lookup_empty by congruence.
Qed.

(** X7.  Whatever the category, known or not, GST on a non-negative amount
    lies between 5% and 28% of it, so the total lies between 1.05 and 1.28
    times the base price (read in exact arithmetic), and the category is
    returned unchanged.  The reported rate is the table rate times 100,
    which in binary64 is 5 for "Essential", 18 for "Luxury" and 12 for
    "Standard" and every unknown category, but 28.000000000000004, not 28,
    for "Special", whatever the amount. *)
Theorem gst_within_rate_band amount category :
  0 <= amount ->
  let r := calculate_gst amount category in
  (5 # 100) * amount <= gst_amount r /\ gst_amount r <= (28 # 100) * amount /\
  (105 # 100) * amount <= gst_total r /\ gst_total r <= (128 # 100) * amount /\
  gst_category r = category /\
  forall amount64 : float,
    Binary64.gst_rate (Binary64.calculate_gst amount64 category)
    = if String.eqb category "Essential" then 5%float
      else if String.eqb category "Luxury" then 18%float
      else if String.eqb category "Special" then 28.000000000000004%float
      else 12%float.
Proof.
  intros Ha. cbn.
  split; [|split; [|split; [|split; [|split; [reflexivity|]]]]].
  1-4: destruct (gst_rate_of_values category) as [-> | [-> | [-> | ->]]]; lra.
  intros amount64. rewrite binary64_gst_rate_of_values.
  destruct (String.eqb category "Essential"); [reflexivity|].
  destruct (String.eqb category "Luxury"); [reflexivity|].
  destruct (String.eqb category "Special"); reflexivity.
Qed.

Lemma gst_within_rate_band_witness :
  0 <= 1000 /\ gst_total (calculate_gst 1000 "Groceries") <= (128 # 100) * 1000.
Proof.
  split; [discriminate|].
  destruct (gst_within_rate_band 1000 "Groceries") as (_ & _ & _ & H & _);
    [discriminate | exact H].
Defined.

(** X8.  [calculate_insurance_needs] never reports a negative additional
    cover: additional_needed is total_needs - existing_cover when the
    existing cover falls short and 0 otherwise, so existing cover plus
    additional cover always reaches total_needs; total_needs is the sum of
    the three components (10 times income, 1.2 times liabilities, 500000 per
    dependent); and the age argument has no influence on the result. *)
Theorem insurance_needs_cover_the_gap
    age income dependents liabilities existing_cover :
  let r := calculate_insurance_needs age income dependents liabilities
             existing_cover in
  in_total_needs r
  == in_income_replacement r + in_liabilities_cover r + in_education_cover r /\
  in_total_needs r == income * 10 + liabilities * (12 # 10) + 500000 * dependents /\
  0 <= in_additional_needed r /\
  in_total_needs r <= in_existing_cover r + in_additional_needed r /\
  (in_existing_cover r <= in_total_needs r ->
   in_additional_needed r == in_total_needs r - in_existing_cover r) /\
  (in_total_needs r <= in_existing_cover r -> in_additional_needed r == 0) /\
  (forall age',
     calculate_insurance_needs age' income dependents liabilities existing_cover
     = r).
Proof.
  cbn. py_cases; repeat split; intros; try reflexivity; lra.
Qed.



(** * Further properties of opportunity cost, future value and growth *)




Lemma pow_ge_one a (n : nat) : 1 <= a -> 1 <= Py.pow a n.
Proof. intros H. unfold Py.pow. apply Qpower_1_le; [exact H | lia]. Qed.

Lemma pow_is_zero a (n : nat) : (1 <= n)%nat -> a == 0 -> Py.pow a n == 0.
Proof.
  intros Hn Ha. unfold Py.pow. rewrite Ha. apply Qpower_0. lia.
Qed.

Lemma pow_nonzero a (n : nat) : ~ a == 0 -> ~ Py.pow a n == 0.
Proof. intros H. unfold Py.pow. now apply Qpower_not_0. Qed.

Lemma opportunity_cost_unfolded amount years rate :
  oc_yearly (calculate_opportunity_cost amount years rate)
  = map (fun y => (y, opportunity_value amount rate y)) (seq 1 years) /\
  oc_total (calculate_opportunity_cost amount years rate)
  = match years with
    | O => 0
    | S k => opportunity_value amount rate (S k)
    end.
Proof.
  unfold calculate_opportunity_cost, year_range.
  rewrite opportunity_loop. cbn [oc_yearly oc_total fst snd app].
  split; [reflexivity|]. destruct years; reflexivity.
Qed.

(** X10.  For a non-negative amount and a non-negative rate
    [calculate_opportunity_cost] never reports a negative figure: every
    yearly value and the total are >= 0.  With years = 0 the list is empty
    and the total is 0. *)
Theorem opportunity_cost_never_negative amount years rate :
  0 <= amount -> 0 <= rate ->
  let r := calculate_opportunity_cost amount years rate in
  0 <= oc_total r /\
  (forall e, In e (oc_yearly r) -> 0 <= snd e) /\
  (years = 0%nat -> oc_yearly r = [] /\ oc_total r = 0).
Proof.
  intros Ha Hr r.
  destruct (opportunity_cost_unfolded amount years rate) as [Hy Ht].
  fold r in Hy, Ht.
  assert (forall y, 0 <= opportunity_value amount rate y) as Hval.
  { intros y. unfold opportunity_value.
    pose proof (pow_ge_one (1 + rate) y ltac:(lra)). nra. }
  split; [|split].
  - rewrite Ht. destruct years; [lra | apply Hval].
  - intros e He. rewrite Hy in He. apply in_map_iff in He.
    destruct He as (y & <- & _). apply Hval.
  - intros ->. now rewrite Hy, Ht.
Qed.

Lemma opportunity_cost_never_negative_witness :
  0 <= 1000 /\ 0 <= (12 # 100) /\
  0 <= oc_total (calculate_opportunity_cost 1000 5 (12 # 100)).
Proof.
  split; [discriminate|]. split; [discriminate|].
  destruct (opportunity_cost_never_negative 1000 5 (12 # 100)) as [H _];
    [discriminate | discriminate | exact H].
Defined.






Section MoreGrowthFacts.

Variable fpow : Q -> Q -> Q.
Variables principal rate inflation : Q.
Hypothesis principal_nonzero : ~ principal == 0.
Hypothesis deflator_nonzero : ~ 1 + inflation == 0.

Lemma lumpsum_years_entries : forall n a nominal yearly,
  nominal = lumpsum_nominal principal rate (a - 1) ->
  (1 <= a)%nat ->
  lumpsum_years principal rate inflation (seq a n) nominal yearly
  = Returned (yearly ++ map (lumpsum_entry principal rate inflation) (seq a n)).
Proof.
  induction n as [|n IH]; intros a nominal yearly -> Ha.
  - cbn. now rewrite app_nil_r.
  - cbn [seq lumpsum_years].
    assert (lumpsum_nominal principal rate (a - 1) * (1 + rate)
            = lumpsum_nominal principal rate a) as ->.
    { destruct a as [|a]; [lia|]. cbn [Nat.sub].
      rewrite Nat.sub_0_r. reflexivity. }
    rewrite (PyFacts.div_nonzero _ (Py.pow (1 + inflation) a))
      by (now apply pow_nonzero).
    cbn [mbind outcome_bind].
    rewrite PyFacts.div_nonzero by exact principal_nonzero.
    cbn [mbind outcome_bind].
    rewrite (IH (S a)); [|f_equal; lia|lia].
    rewrite <- app_assoc. reflexivity.
Qed.

Lemma sip_years_entries_nonzero : forall n a nominal yearly,
  (1 <= a)%nat ->
  nominal = sip_recurrence fpow principal rate (12 * (a - 1)) ->
  sip_years fpow principal rate inflation (seq a n) nominal yearly
  = Returned (yearly ++ map (sip_entry fpow principal rate inflation) (seq a n)).
Proof.
  induction n as [|n IH]; intros a nominal yearly Ha ->.
  - cbn. now rewrite app_nil_r.
  - cbn [seq sip_years]. rewrite sip_months_recurrence.
    replace (12 + 12 * (a - 1))%nat with (12 * a)%nat by lia.
    rewrite (PyFacts.div_nonzero _ (Py.pow (1 + inflation) a))
      by (now apply pow_nonzero).
    cbn [mbind outcome_bind].
    rewrite PyFacts.div_nonzero.
    2:{ pose proof (inject_nat_pos a Ha) as Hpos. intros Hz.
        apply principal_nonzero.
        destruct (Qmult_integral _ _ Hz) as [Hz'|Hz']; [|lra].
        destruct (Qmult_integral _ _ Hz') as [?|?]; [assumption | discriminate]. }
    cbn [mbind outcome_bind].
    rewrite (IH (S a)); [|lia|f_equal; lia].
    rewrite <- app_assoc. reflexivity.
Qed.

End MoreGrowthFacts.

Lemma growth_first_year_raises fpow principal years rate mode inflation :
  (1 <= years)%nat -> principal == 0 \/ 1 + inflation == 0 ->
  calculate_investment_growth fpow principal years rate mode inflation
  = Raised ZeroDivisionError.
Proof.
  intros Hy Hbad. unfold calculate_investment_growth, year_range.
  destruct years as [|k]; [lia|]. cbn [seq].
  destruct (Qeq_dec (1 + inflation) 0) as [Hi|Hi].
  - assert (Py.pow (1 + inflation) 1 == 0) as Hz by now apply pow_is_zero.
    destruct (String.eqb mode "lumpsum"); cbn [lumpsum_years sip_years];
      now rewrite (PyFacts.div_zero _ _ Hz).
  - destruct Hbad as [Hp|Hbad]; [|contradiction].
    assert (~ Py.pow (1 + inflation) 1 == 0) as Hnz by now apply pow_nonzero.
    destruct (String.eqb mode "lumpsum"); cbn [lumpsum_years sip_years];
      rewrite (PyFacts.div_nonzero _ _ Hnz); cbn [mbind outcome_bind].
    + now rewrite (PyFacts.div_zero _ _ Hp).
    + rewrite (PyFacts.div_zero _ (principal * 12 * inject_Z (Z.of_nat 1)));
        [reflexivity|]. rewrite Hp. reflexivity.
Qed.

Lemma growth_returns fpow principal years rate mode inflation :
  ~ principal == 0 -> ~ 1 + inflation == 0 -> (1 <= years)%nat ->
  let entry := growth_entry fpow principal rate mode inflation in
  calculate_investment_growth fpow principal years rate mode inflation
  = Returned
      {| gr_nominal := ye_nominal (entry years);
         gr_real := ye_real (entry years);
         gr_yearly := map entry (seq 1 years);
         gr_cagr :=
           (fpow (ye_nominal (entry years) / principal)
                 (1 / inject_Z (Z.of_nat years)) - 1) * 100 |}.
Proof.
  intros Hp Hi Hy entry.
  unfold calculate_investment_growth, year_range.
  assert ((if String.eqb mode "lumpsum"
           then lumpsum_years principal rate inflation (seq 1 years)
                  principal []
           else sip_years fpow principal rate inflation (seq 1 years) 0 [])
          = Returned (map entry (seq 1 years))) as ->.
  { unfold entry, growth_entry. destruct (String.eqb mode "lumpsum").
    - now rewrite (lumpsum_years_entries principal rate inflation Hp Hi
                     years 1 principal []) by (reflexivity || lia).
    - now rewrite (sip_years_entries_nonzero fpow principal rate inflation
                     Hp Hi years 1 0 []) by (reflexivity || lia). }
  cbn [mbind outcome_bind].
  destruct (Nat.ltb_spec 0 years) as [_|]; [|lia].
  assert (last (map entry (seq 1 years)) = Some (entry years)) as ->.
  { destruct years as [|k]; [lia|].
    rewrite seq_S, map_app. cbn [map]. now rewrite last_snoc. }
  rewrite (PyFacts.div_nonzero _ principal) by exact Hp.
  cbn [mbind outcome_bind].
  rewrite PyFacts.div_nonzero
    by (pose proof (inject_nat_pos years Hy); lra).
  reflexivity.
Qed.



(** X14.  When [calculate_investment_growth] raises, in either mode: with
    years = 0 it returns the principal as nominal and real value, no yearly
    entry and cagr 0, whatever the principal and the inflation; with
    years >= 1 it raises [ZeroDivisionError] exactly when the principal is 0
    or inflation is -1, and otherwise returns one entry per year. *)
Theorem growth_raises_exactly_when fpow principal years rate mode inflation :
  (years = 0%nat ->
   calculate_investment_growth fpow principal years rate mode inflation
   = Returned {| gr_nominal := principal; gr_real := principal;
                 gr_yearly := []; gr_cagr := 0 |}) /\
  ((1 <= years)%nat -> principal == 0 \/ 1 + inflation == 0 ->
   calculate_investment_growth fpow principal years rate mode inflation
   = Raised ZeroDivisionError) /\
  ((1 <= years)%nat -> ~ principal == 0 -> ~ 1 + inflation == 0 ->
   exists r,
     calculate_investment_growth fpow principal years rate mode inflation
     = Returned r /\
     length (gr_yearly r) = years /\
     (forall i e, nth_error (gr_yearly r) i = Some e -> ye_year e = S i)).
Proof.
  split; [|split].
  - intros ->. unfold calculate_investment_growth.
    destruct (String.eqb mode "lumpsum"); reflexivity.
  - apply growth_first_year_raises.
  - intros Hy Hp Hi. rewrite (growth_returns fpow _ _ _ _ _ Hp Hi Hy).
    eexists. split; [reflexivity|]. cbn [gr_yearly].
    split; [now rewrite length_map, length_seq|].
    intros i e. rewrite nth_error_map, nth_error_seq.
    destruct (Nat.ltb_spec i years); [|discriminate].
    cbn. intros [= <-]. unfold growth_entry.
    destruct (String.eqb mode "lumpsum"); reflexivity.
Qed.

Lemma growth_raises_exactly_when_witness :
  (1 <= 2)%nat /\ (0 == 0 \/ 1 + (6 # 100) == 0) /\
  calculate_investment_growth (fun x _ => x) 0 2 (12 # 100) "sip" (6 # 100)
  = Raised ZeroDivisionError.
Proof.
  split; [lia|]. split; [left; reflexivity|].
  apply (growth_raises_exactly_when (fun x _ => x) 0 2 (12 # 100) "sip"
           (6 # 100)); [lia | left; reflexivity].
Defined.

(** * Further properties of the financial health score *)

Lemma py_min_mono a b c : a <= b -> Py.min a c <= Py.min b c.
Proof. intros H. py_cases; lra. Qed.

Lemma py_max_mono a b c : a <= b -> Py.max a c <= Py.max b c.
Proof. intros H. py_cases; lra. Qed.

Lemma py_min_upper a c : Py.min a c <= c.
Proof. py_cases; lra. Qed.

Lemma ratio_or_zero_mono income x1 x2 y :
  (0 < income -> 0 < y) -> x1 <= x2 ->
  ratio_or_zero income x1 y <= ratio_or_zero income x2 y.
Proof.
  intros Hy Hx. unfold ratio_or_zero.
  destruct (Py.gt income 0) eqn:E; [|lra].
  apply PyFacts.gt_true in E. specialize (Hy E).
  unfold Qdiv. apply Qmult_le_compat_r; [exact Hx|].
  apply Qlt_le_weak, Qinv_lt_0_compat, Hy.
Qed.

Lemma health_divisor_positive income age :
  0 < income -> 0 < income * Py.max (age - 25) 5.
Proof. intros H. py_cases; nra. Qed.

(** X15.  [calculate_financial_health] never raises and its total score
    always lies in [0, 100], whatever the inputs (negative ones included).
    When expenses, savings, investments, liabilities and insurance cover are
    all non-negative the clamp never acts: the total is the sum of the five
    component scores and each score lies between 0 and its weight
    (25/25/20/15/15). *)
Theorem health_score_always_in_range
    income expenses savings investments liabilities insurance_cover age :
  exists r,
    calculate_financial_health income expenses savings investments liabilities
      insurance_cover age = Returned r /\
    0 <= total_score r /\ total_score r <= 100 /\
    (0 <= expenses -> 0 <= savings -> 0 <= investments -> 0 <= liabilities ->
     0 <= insurance_cover ->
     total_score r == component_sum r /\
     (0 <= hc_score (h_savings r) /\ hc_score (h_savings r) <= 25) /\
     (0 <= hc_score (h_investments r) /\ hc_score (h_investments r) <= 25) /\
     (0 <= hc_score (h_debt r) /\ hc_score (h_debt r) <= 20) /\
     (0 <= hc_score (h_insurance r) /\ hc_score (h_insurance r) <= 15) /\
     (0 <= hc_score (h_expenses r) /\ hc_score (h_expenses r) <= 15)).
Proof.
  eexists. split; [apply calculate_financial_health_returns|].
  split; [|split].
  - unfold health_record. cbn [total_score].
    match goal with |- 0 <= Py.min (Py.max ?t 0) 100 => generalize t end.
    intros t. py_cases; lra.
  - unfold health_record. cbn [total_score]. apply py_min_upper.
  - intros He Hs Hi Hl Hc.
    exact (health_score_components_bounded income expenses savings investments
             liabilities insurance_cover age He Hs Hi Hl Hc).
Qed.

(** X16.  Full marks: with a positive income, savings of at least 20% of
    income, investments of at least twice income * max(age - 25, 5), no
    liabilities, insurance cover of at least 10 times income and expenses of
    at most 60% of income, the total score is 100. *)
Theorem health_score_full_marks
    income expenses savings investments liabilities insurance_cover age :
  0 < income ->
  (2 # 10) * income <= savings ->
  2 * (income * Py.max (age - 25) 5) <= investments ->
  liabilities == 0 ->
  10 * income <= insurance_cover ->
  expenses <= (6 # 10) * income ->
  exists r,
    calculate_financial_health income expenses savings investments liabilities
      insurance_cover age = Returned r /\
    total_score r == 100.
Proof.
  intros Hinc Hs Hi Hl Hc He.
  eexists. split; [apply calculate_financial_health_returns|].
  unfold health_record. cbn [total_score].
  pose proof (health_divisor_positive income age Hinc) as Hdiv.
  unfold ratio_or_zero. rewrite (proj2 (PyFacts.gt_true income 0) Hinc).
  assert ((2 # 10) <= savings / income) as Hsr
    by (apply Qle_shift_div_l; [exact Hinc | lra]).
  assert (2 <= investments / (income * Py.max (age - 25) 5)) as Hir
    by (apply Qle_shift_div_l; [exact Hdiv | lra]).
  assert (liabilities / (income * (5 # 10)) == 0) as Hdr
    by (rewrite Hl; field; lra).
  assert (1 <= insurance_cover / (income * 10)) as Hia
    by (apply Qle_shift_div_l; lra).
  assert (expenses / income <= 6 # 10) as Her
    by (apply Qle_shift_div_r; [exact Hinc | lra]).
  revert Hsr Hir Hdr Hia Her.
  generalize (savings / income) (investments / (income * Py.max (age - 25) 5))
    (liabilities / (income * (5 # 10))) (insurance_cover / (income * 10))
    (expenses / income).
  intros sr ir dr ia er Hsr Hir Hdr Hia Her.
  destruct (PyFacts.max_cases (er - (6 # 10)) 0) as [[Hm ->]|[Hm ->]].
  - assert (sr / (2 # 10) == sr * 5) as Hq1 by field.
    assert (ir / 2 == ir * (1 # 2)) as Hq2 by field.
    assert (0 / (4 # 10) == 0) as Hq5 by reflexivity.
    revert Hq1 Hq2 Hq5.
    generalize (sr / (2 # 10)) (ir / 2) (0 / (4 # 10)).
    intros q1 q2 q5 Hq1 Hq2 Hq5. py_cases; lra.
  - assert (sr / (2 # 10) == sr * 5) as Hq1 by field.
    assert (ir / 2 == ir * (1 # 2)) as Hq2 by field.
    assert ((er - (6 # 10)) / (4 # 10) == (er - (6 # 10)) * (5 # 2)) as Hq5
      by field.
    revert Hq1 Hq2 Hq5.
    generalize (sr / (2 # 10)) (ir / 2) ((er - (6 # 10)) / (4 # 10)).
    intros q1 q2 q5 Hq1 Hq2 Hq5. py_cases; lra.
Qed.

Lemma health_score_full_marks_witness :
  exists r,
    calculate_financial_health 100 50 30 1200 0 1500 30 = Returned r /\
    total_score r == 100.
Proof.
  apply (health_score_full_marks 100 50 30 1200 0 1500 30);
    vm_compute; solve [reflexivity | discriminate].
Defined.

(** X17.  Better finances never lower the score: with the same income and
    age, if savings, investments and insurance cover do not decrease and
    liabilities and expenses do not increase, the total score does not
    decrease. *)
Theorem health_score_monotone income age
    expenses1 savings1 investments1 liabilities1 insurance1
    expenses2 savings2 investments2 liabilities2 insurance2 :
  savings1 <= savings2 -> investments1 <= investments2 ->
  insurance1 <= insurance2 ->
  liabilities2 <= liabilities1 -> expenses2 <= expenses1 ->
  exists r1 r2,
    calculate_financial_health income expenses1 savings1 investments1
      liabilities1 insurance1 age = Returned r1 /\
    calculate_financial_health income expenses2 savings2 investments2
      liabilities2 insurance2 age = Returned r2 /\
    total_score r1 <= total_score r2.
Proof.
  intros Hs Hi Hc Hl He.
  eexists _, _. split; [apply calculate_financial_health_returns|].
  split; [apply calculate_financial_health_returns|].
  unfold health_record. cbn [total_score].
  apply py_min_mono, py_max_mono.
  pose proof (ratio_or_zero_mono income savings1 savings2 income
                (fun H => H) Hs) as Hsr.
  pose proof (ratio_or_zero_mono income investments1 investments2 _
                (health_divisor_positive income age) Hi) as Hir.
  pose proof (ratio_or_zero_mono income liabilities2 liabilities1
                (income * (5 # 10)) ltac:(intros; lra) Hl) as Hdr.
  pose proof (ratio_or_zero_mono income insurance1 insurance2
                (income * 10) ltac:(intros; lra) Hc) as Hia.
  pose proof (ratio_or_zero_mono income expenses2 expenses1 income
                (fun H => H) He) as Her.
  revert Hsr Hir Hdr Hia Her.
  generalize (ratio_or_zero income savings1 income)
    (ratio_or_zero income savings2 income)
    (ratio_or_zero income investments1 (income * Py.max (age - 25) 5))
    (ratio_or_zero income investments2 (income * Py.max (age - 25) 5))
    (ratio_or_zero income liabilities1 (income * (5 # 10)))
    (ratio_or_zero income liabilities2 (income * (5 # 10)))
    (ratio_or_zero income insurance1 (income * 10))
    (ratio_or_zero income insurance2 (income * 10))
    (ratio_or_zero income expenses1 income)
    (ratio_or_zero income expenses2 income).
  intros s1 s2 i1 i2 d1 d2 c1 c2 e1 e2 Hsr Hir Hdr Hia Her.
  assert (Py.min (s1 / (2 # 10)) 1 <= Py.min (s2 / (2 # 10)) 1) as H1.
  { apply py_min_mono. unfold Qdiv. apply Qmult_le_compat_r; [exact Hsr|].
    discriminate. }
  assert (Py.min (i1 / 2) 1 <= Py.min (i2 / 2) 1) as H2.
  { apply py_min_mono. unfold Qdiv. apply Qmult_le_compat_r; [exact Hir|].
    discriminate. }
  assert (Py.min d2 1 <= Py.min d1 1) as H3 by now apply py_min_mono.
  assert (Py.min c1 1 <= Py.min c2 1) as H4 by now apply py_min_mono.
  assert (Py.min (Py.max (e2 - (6 # 10)) 0 / (4 # 10)) 1
          <= Py.min (Py.max (e1 - (6 # 10)) 0 / (4 # 10)) 1) as H5.
  { apply py_min_mono. unfold Qdiv. apply Qmult_le_compat_r; [|discriminate].
    apply py_max_mono. lra. }
  revert H1 H2 H3 H4 H5.
  generalize (Py.min (s1 / (2 # 10)) 1) (Py.min (s2 / (2 # 10)) 1)
    (Py.min (i1 / 2) 1) (Py.min (i2 / 2) 1) (Py.min d1 1) (Py.min d2 1)
    (Py.min c1 1) (Py.min c2 1)
    (Py.min (Py.max (e1 - (6 # 10)) 0 / (4 # 10)) 1)
    (Py.min (Py.max (e2 - (6 # 10)) 0 / (4 # 10)) 1).
  intros. lra.
Qed.

Lemma health_score_monotone_witness :
  20 <= 30 /\ 1000 <= 1200 /\ 1000 <= 1500 /\ 0 <= 50 /\ 50 <= 60 /\
  exists r1 r2,
    calculate_financial_health 100 60 20 1000 50 1000 30 = Returned r1 /\
    calculate_financial_health 100 50 30 1200 0 1500 30 = Returned r2 /\
    total_score r1 <= total_score r2.
Proof.
  repeat (split; [discriminate|]).
  apply (health_score_monotone 100 30 60 20 1000 50 1000 50 30 1200 0 1500);
    discriminate.
Defined.

(** * Value efficiency *)

Lemma py_max_fold_spec : forall rest x,
  let m := fold_left (fun m a => if Py.gt a m then a else m) rest x in
  In m (x :: rest) /\ forall y, In y (x :: rest) -> y <= m.
Proof.
  induction rest as [|a rest IH]; intros x; cbn [fold_left].
  - split; [now left|]. intros y [<-|[]]. lra.
  - destruct (Py.gt a x) eqn:E.
    + apply PyFacts.gt_true in E. destruct (IH a) as [Hin Hmax]. split.
      * right. exact Hin.
      * intros y [<-|Hy]; [|now apply Hmax].
        pose proof (Hmax a (or_introl eq_refl)). lra.
    + apply PyFacts.gt_false in E. destruct (IH x) as [Hin Hmax]. split.
      * destruct Hin as [<-|Hin]; [now left | right; now right].
      * intros y [<-|[<-|Hy]].
        -- apply Hmax. now left.
        -- pose proof (Hmax x (or_introl eq_refl)). lra.
        -- apply Hmax. now right.
Qed.

Lemma py_max_of_spec xs :
  match py_max_of xs with
  | Done m => In m xs /\ forall y, In y xs -> y <= m
  | Failed e => xs = [] /\ e = ValueError
  end.
Proof.
  destruct xs as [|x rest]; cbn [py_max_of]; [now split|].
  apply py_max_fold_spec.
Qed.

Lemma div_raises_zero_division a b e :
  Py.div a b = Raised e -> e = ZeroDivisionError /\ b == 0.
Proof.
  unfold Py.div. destruct (Qeq_bool b 0) eqn:E; [|discriminate].
  intros [= <-]. split; [reflexivity | now apply Qeq_bool_iff].
Qed.

Lemma efficiency_of_cases max_amount data :
  (~ max_amount == 0 /\ ~ amount data == 0 /\
   efficiency_of max_amount data
   = Returned (happiness data / (amount data / max_amount))) \/
  ((max_amount == 0 \/ amount data == 0) /\
   efficiency_of max_amount data = Raised ZeroDivisionError).
Proof.
  unfold efficiency_of.
  destruct (Qeq_dec max_amount 0) as [Hm|Hm].
  - right. split; [now left|]. now rewrite PyFacts.div_zero.
  - rewrite PyFacts.div_nonzero by exact Hm. cbn [mbind outcome_bind].
    destruct (Qeq_dec (amount data) 0) as [Ha|Ha].
    + right. split; [now right|]. rewrite PyFacts.div_zero; [reflexivity|].
      rewrite Ha. field. exact Hm.
    + left. split; [exact Hm|]. split; [exact Ha|].
      apply PyFacts.div_nonzero. intros Hz. apply Ha.
      assert (amount data == amount data / max_amount * max_amount) as ->
        by (field; exact Hm).
      rewrite Hz. lra.
Qed.

Lemma efficiency_items_cases max_amount items :
  ((forall item, In item items -> ~ amount (snd item) == 0) /\
   (items <> [] -> ~ max_amount == 0) /\
   efficiency_items max_amount items
   = Returned (map (fun item : string * SpendingEntry =>
                      (fst item,
                       happiness (snd item)
                       / (amount (snd item) / max_amount))) items)) \/
  ((max_amount == 0 \/ exists item, In item items /\ amount (snd item) == 0) /\
   efficiency_items max_amount items = Raised ZeroDivisionError).
Proof.
  induction items as [|[cat data] rest IH].
  - left. split; [intros ? []|]. split; [congruence | reflexivity].
  - cbn [efficiency_items].
    destruct (efficiency_of_cases max_amount data)
      as [(Hm & Ha & ->)|[Hbad ->]].
    + cbn [mbind outcome_bind].
      destruct IH as [(Hall & _ & ->)|[Hbad ->]].
      * left. split; [|split; [intros _; exact Hm | reflexivity]].
        intros item [<-|Hin]; [exact Ha | now apply Hall].
      * right. split; [|reflexivity].
        destruct Hbad as [?|(item & Hin & Hz)]; [now left|].
        right. exists item. split; [now right | exact Hz].
    + right. split; [|reflexivity].
      destruct Hbad as [?|Hz]; [now left|].
      right. exists (cat, data). split; [now left | exact Hz].
Qed.

Lemma efficiency_lookup max_amount (data : gmap string SpendingEntry) k :
  (list_to_map
     (map (fun item : string * SpendingEntry =>
             (fst item,
              happiness (snd item) / (amount (snd item) / max_amount)))
          (map_to_list data)) : gmap string Q) !! k
  = (fun d => happiness d / (amount d / max_amount)) <$> data !! k.
Proof.
  assert ((map (fun item : string * SpendingEntry =>
                  (fst item,
                   happiness (snd item) / (amount (snd item) / max_amount)))
               (map_to_list data)).*1 = (map_to_list data).*1) as Hkeys.
  { change (@map) with (@fmap list _). rewrite <- list_fmap_compose.
    reflexivity. }
  destruct (data !! k) as [d|] eqn:E; cbn.
  - apply elem_of_list_to_map_1.
    + rewrite Hkeys. apply NoDup_fst_map_to_list.
    + apply list_elem_of_In, in_map_iff. exists (k, d). split; [reflexivity|].
      now apply list_elem_of_In, elem_of_map_to_list.
  - apply not_elem_of_list_to_map_1. rewrite Hkeys.
    intros Hin. apply list_elem_of_fmap in Hin.
    destruct Hin as ([c d] & -> & Hin).
    apply elem_of_map_to_list in Hin. cbn in E. congruence.
Qed.

(** X18.  Error behaviour of [calculate_value_efficiency]: an empty
    spending map raises [ValueError] (there is no largest amount); a
    non-empty map in which some amount is 0 raises [ZeroDivisionError]; a
    non-empty map of positive amounts gives an efficiency for every
    category. *)
Theorem value_efficiency_errors (data : gmap string SpendingEntry) :
  (data = ∅ -> calculate_value_efficiency data = Failed ValueError) /\
  (data <> ∅ ->
   (exists cat d, data !! cat = Some d /\ amount d == 0) ->
   calculate_value_efficiency data = Failed (OfExn ZeroDivisionError)) /\
  (data <> ∅ ->
   (forall cat d, data !! cat = Some d -> 0 < amount d) ->
   exists r, calculate_value_efficiency data = Done r /\ dom r = dom data).
Proof.
  unfold calculate_value_efficiency. split; [|split].
  - intros ->. now rewrite map_to_list_empty.
  - intros Hne (cat & d & Hd & Hz).
    pose proof (py_max_of_spec
                  (map (fun item : string * SpendingEntry => amount (snd item))
                       (map_to_list data))) as Hmax.
    destruct (py_max_of _) as [m|e].
    + cbn [mbind result_bind].
      destruct (efficiency_items_cases m (map_to_list data))
        as [(Hall & _)|[_ ->]]; [|reflexivity].
      exfalso. apply (Hall (cat, d)); [|exact Hz].
      now apply list_elem_of_In, elem_of_map_to_list.
    + destruct Hmax as [Hnil _]. apply map_eq_nil in Hnil.
      apply map_to_list_empty_iff in Hnil. contradiction.
  - intros Hne Hpos.
    pose proof (py_max_of_spec
                  (map (fun item : string * SpendingEntry => amount (snd item))
                       (map_to_list data))) as Hmax.
    destruct (py_max_of _) as [m|e].
    + cbn [mbind result_bind]. destruct Hmax as [Hin _].
      apply in_map_iff in Hin. destruct Hin as ([c d] & <- & Hin).
      apply list_elem_of_In, elem_of_map_to_list in Hin.
      pose proof (Hpos c d Hin) as Hm. cbn [snd] in *.
      destruct (efficiency_items_cases (amount d) (map_to_list data))
        as [(_ & _ & ->)|[Hbad _]].
      * cbn [lift mbind result_bind]. eexists. split; [reflexivity|].
        apply set_eq. intros k.
        rewrite !elem_of_dom, efficiency_lookup. apply fmap_is_Some.
      * exfalso. destruct Hbad as [Hz|([c' d'] & Hin' & Hz)]; [lra|].
        apply list_elem_of_In, elem_of_map_to_list in Hin'.
        pose proof (Hpos c' d' Hin'). cbn [snd] in Hz. lra.
    + destruct Hmax as [Hnil _]. apply map_eq_nil in Hnil.
      apply map_to_list_empty_iff in Hnil. contradiction.
Qed.

Lemma value_efficiency_values (data : gmap string SpendingEntry) :
  data <> ∅ ->
  (forall cat d, data !! cat = Some d -> 0 < amount d) ->
  exists (r : gmap string Q) (M : Q),
    calculate_value_efficiency data = Done r /\
    (exists cat d, data !! cat = Some d /\ amount d = M) /\
    (forall cat d, data !! cat = Some d -> amount d <= M) /\
    (forall k, r !! k
               = (fun d => happiness d / (amount d / M)) <$> data !! k).
Proof.
  intros Hne Hpos. unfold calculate_value_efficiency.
  pose proof (py_max_of_spec
                (map (fun item : string * SpendingEntry => amount (snd item))
                     (map_to_list data))) as Hmax.
  destruct (py_max_of _) as [m|e].
  - cbn [mbind result_bind]. destruct Hmax as [Hin Hle].
    apply in_map_iff in Hin. destruct Hin as ([c d] & Hm & Hin).
    apply list_elem_of_In, elem_of_map_to_list in Hin. cbn [snd] in Hm.
    destruct (efficiency_items_cases m (map_to_list data))
      as [(_ & _ & ->)|[Hbad _]].
    + cbn [lift mbind result_bind]. eexists _, m. split; [reflexivity|].
      split; [exists c, d; now split|]. split.
      * intros cat d' Hd'. apply Hle. apply in_map_iff. exists (cat, d').
        split; [reflexivity|]. now apply list_elem_of_In, elem_of_map_to_list.
      * apply efficiency_lookup.
    + exfalso. pose proof (Hpos c d Hin) as Hd. rewrite Hm in Hd.
      destruct Hbad as [Hz|([c' d'] & Hin' & Hz)]; [lra|].
      apply list_elem_of_In, elem_of_map_to_list in Hin'.
      pose proof (Hpos c' d' Hin'). cbn [snd] in Hz. lra.
  - destruct Hmax as [Hnil _]. apply map_eq_nil in Hnil.
    apply map_to_list_empty_iff in Hnil. contradiction.
Qed.

Lemma sample_spending_nonempty : sample_spending <> ∅.
Proof.
  intros H. assert (sample_spending !! "Rent" = None) as Hnone
    by (rewrite H; apply lookup_empty).
  unfold sample_spending in Hnone. rewrite lookup_insert_eq in Hnone.
  discriminate.
Qed.

Lemma sample_spending_positive cat d :
  sample_spending !! cat = Some d -> 0 < amount d.
Proof.
  unfold sample_spending.
  destruct (decide (cat = "Rent")) as [->|H1];
    [rewrite lookup_insert_eq; intros [= <-]; reflexivity|].
  rewrite lookup_insert_ne by congruence.
  destruct (decide (cat = "Food")) as [->|H2];
    [rewrite lookup_insert_eq; intros [= <-]; reflexivity|].
  rewrite lookup_insert_ne, lookup_empty by congruence. discriminate.
Qed.

(** X19.  For a non-empty map of positive amounts
    [calculate_value_efficiency] gives every category the efficiency
    happiness * M / amount, where M is the largest amount in the map.  Hence a
    category with the largest amount gets exactly its happiness rating, and
    no category with a non-negative rating gets less than its rating. *)
Theorem value_efficiency_relative_to_largest (data : gmap string SpendingEntry) :
  data <> ∅ ->
  (forall cat d, data !! cat = Some d -> 0 < amount d) ->
  exists (r : gmap string Q) (M : Q),
    calculate_value_efficiency data = Done r /\
    (exists cat d, data !! cat = Some d /\ amount d = M) /\
    (forall cat d, data !! cat = Some d ->
       amount d <= M /\
       exists e, r !! cat = Some e /\
         e == happiness d * M / amount d /\
         (amount d == M -> e == happiness d) /\
         (0 <= happiness d -> happiness d <= e)).
Proof.
  intros Hne Hpos.
  destruct (value_efficiency_values data Hne Hpos)
    as (r & M & Hret & Hmax & Hle & Hlook).
  exists r, M. split; [exact Hret|]. split; [exact Hmax|].
  intros cat d Hd. pose proof (Hle cat d Hd) as HdM.
  pose proof (Hpos cat d Hd) as Ha. split; [exact HdM|].
  eexists. split; [rewrite Hlook, Hd; reflexivity|].
  assert (happiness d / (amount d / M) == happiness d * M / amount d) as Heq
    by (field; split; lra).
  split; [exact Heq|]. split.
  - intros HM. rewrite Heq, HM. field. lra.
  - intros Hh. rewrite Heq. apply Qle_shift_div_l; [exact Ha|]. nra.
Qed.

Lemma value_efficiency_relative_to_largest_witness :
  exists (r : gmap string Q) (M : Q),
    calculate_value_efficiency sample_spending = Done r /\
    (exists cat d, sample_spending !! cat = Some d /\ amount d = M).
Proof.
  destruct (value_efficiency_relative_to_largest sample_spending
              sample_spending_nonempty sample_spending_positive)
    as (r & M & Hret & Hmax & _).
  exists r, M. split; assumption.
Defined.




(** * Tax saving options *)

(** X21.  [get_tax_saving_options] offers Section 80C exactly when the
    regime is "old" or income exceeds 750000.  Under "old" it lists six
    options, and the home loan interest limit is min(200000, 30% of income),
    so never above 200000.  Under any other regime it lists the employer NPS
    contribution last, after Section 80C when that is offered. *)
Theorem tax_saving_options_by_regime income regime :
  let options := get_tax_saving_options income regime in
  (In section_80c options <-> regime = "old" \/ 750000 < income) /\
  (regime = "old" ->
   length options = 6%nat /\
   exists limit,
     In ("Home Loan Interest", Rupees limit, "Interest on home loan") options /\
     limit <= 200000 /\ limit <= income * (3 # 10) /\
     (limit == 200000 \/ limit == income * (3 # 10))) /\
  (regime <> "old" ->
   options
   = (if Py.gt income 750000 then [section_80c] else [])
     ++ [("NPS (Employer Contribution)", Rupees 50000,
          "Employer's NPS contribution")]).
Proof.
  unfold get_tax_saving_options.
  destruct (String.eqb_spec regime "old") as [->|Hne]; cbn [orb].
  - split; [|split].
    + split; [intros _; now left | intros _; now left].
    + intros _. split; [reflexivity|].
      exists (Py.min 200000 (income * (3 # 10))). split.
      * cbn. tauto.
      * py_cases; repeat split; lra.
    + congruence.
  - split; [|split].
    + destruct (Py.gt income 750000) eqn:E.
      * apply PyFacts.gt_true in E. split; [intros _; now right|].
        intros _. now left.
      * apply PyFacts.gt_false in E. split.
        -- intros [H|[]]. discriminate H.
        -- intros [?|?]; [contradiction | lra].
    + congruence.
    + intros _. reflexivity.
Qed.

(** X22.  The two regime arguments default differently: for a regime string
    that is neither "new" nor "old", [calculate_income_tax] uses the old
    regime's slabs while [get_tax_saving_options] lists the new regime's
    options. *)
Theorem unknown_regime_defaults_differ income regime deductions :
  regime <> "new" -> regime <> "old" ->
  calculate_income_tax income regime deductions
  = calculate_income_tax income "old" deductions /\
  get_tax_saving_options income regime
  = get_tax_saving_options income "new".
Proof.
  intros Hn Ho.
  unfold calculate_income_tax, slabs_of, get_tax_saving_options.
  destruct (String.eqb_spec regime "new"); [contradiction|].
  destruct (String.eqb_spec regime "old"); [contradiction|].
  split; reflexivity.
Qed.

Lemma unknown_regime_defaults_differ_witness :
  "New" <> "new" /\ "New" <> "old" /\
  calculate_income_tax 900000 "New" 0 = calculate_income_tax 900000 "old" 0 /\
  get_tax_saving_options 900000 "New" = get_tax_saving_options 900000 "new".
Proof.
  split; [discriminate|]. split; [discriminate|].
  apply (unknown_regime_defaults_differ 900000 "New" 0); discriminate.
Defined.

(** * Spending forecast *)

Lemma monthly_products_none : forall bases vs,
  In None bases -> length vs = length bases ->
  monthly_products bases vs = Failed (OfExn TypeError).
Proof.
  induction bases as [|base bases IH]; intros vs Hin Hlen; [destruct Hin|].
  destruct vs as [|v vs]; [discriminate|]. cbn [monthly_products].
  destruct base as [b|]; [|reflexivity].
  destruct Hin as [|Hin]; [discriminate|].
  rewrite IH; [reflexivity | exact Hin | now injection Hlen].
Qed.

Lemma monthly_products_some : forall bases vs,
  ~ In None bases -> length vs = length bases ->
  exists mv,
    monthly_products bases vs = Done mv /\
    length mv = length bases /\
    forall j b v,
      nth_error bases j = Some (Some b) -> nth_error vs j = Some v ->
      nth_error mv j = Some (b * v).
Proof.
  induction bases as [|base bases IH]; intros vs Hnone Hlen.
  - exists []. destruct vs; [|discriminate].
    repeat split. intros [|j]; discriminate.
  - destruct vs as [|v vs]; [discriminate|]. cbn [monthly_products].
    destruct base as [b|]; [|exfalso; apply Hnone; now left].
    destruct (IH vs) as (mv & -> & Hl & Hnth);
      [intros H; apply Hnone; now right | now injection Hlen|].
    cbn [mbind result_bind]. eexists. split; [reflexivity|].
    split; [cbn; now rewrite Hl|].
    intros [|j] b' v'; cbn.
    + now intros [= <-] [= <-].
    + apply Hnth.
Qed.

Lemma scale_at_length : forall l i, length (scale_at i l) = length l.
Proof.
  induction l as [|x l IH]; intros [|i]; cbn; auto.
Qed.

Lemma scale_at_nth : forall l i j,
  nth_error (scale_at i l) j
  = if (j =? i)%nat then option_map (fun x => x * (15 # 10)) (nth_error l j)
    else nth_error l j.
Proof.
  induction l as [|x l IH]; intros i j.
  - destruct i, j; cbn; try reflexivity; now destruct (j =? i)%nat.
  - destruct i as [|i], j as [|j]; cbn; try reflexivity. apply IH.
Qed.

Lemma index_of_nth : forall l x i,
  NoDup l -> nth_error l i = Some x -> index_of x l = Some i.
Proof.
  induction l as [|y l IH]; intros x i Hnd Hi; [destruct i; discriminate|].
  apply NoDup_cons in Hnd. destruct Hnd as [Hy Hnd]. cbn [index_of].
  destruct i as [|i]; cbn in Hi.
  - injection Hi as ->. now rewrite String.eqb_refl.
  - destruct (String.eqb_spec y x) as [->|Hne].
    + exfalso. apply Hy. apply list_elem_of_In. eapply nth_error_In, Hi.
    + now rewrite (IH x i Hnd Hi).
Qed.

Lemma index_of_some : forall l x i,
  index_of x l = Some i -> nth_error l i = Some x.
Proof.
  induction l as [|y l IH]; intros x i; cbn [index_of]; [discriminate|].
  destruct (String.eqb_spec y x) as [->|Hne].
  - now intros [= <-].
  - destruct (index_of x l) as [k|] eqn:E; [|discriminate].
    cbn. intros [= <-]. cbn. now apply IH.
Qed.

Lemma forecast_row_fold : forall (kvs : list (string * Q)) (row : gmap string Cell) k,
  NoDup kvs.*1 ->
  fold_left (fun row kv => <[fst kv := Number (snd kv)]> row) kvs row !! k
  = match (list_to_map kvs : gmap string Q) !! k with
    | Some x => Some (Number x)
    | None => row !! k
    end.
Proof.
  induction kvs as [|[c x] kvs IH]; intros row k Hnd; [reflexivity|].
  cbn in Hnd. apply NoDup_cons in Hnd. destruct Hnd as [Hc Hnd].
  cbn [fold_left fst snd]. rewrite IH by exact Hnd. cbn [list_to_map foldr].
  change (foldr _ ∅ kvs) with (list_to_map kvs : gmap string Q).
  destruct (decide (c = k)) as [->|Hne].
  - rewrite (not_elem_of_list_to_map_1 kvs k Hc).
    now rewrite !lookup_insert_eq.
  - rewrite (lookup_insert_ne (list_to_map kvs)) by exact Hne.
    destruct (list_to_map kvs !! k); [reflexivity|].
    now rewrite lookup_insert_ne.
Qed.

Lemma combine_keys : forall (cats : list string) (vals : list Q),
  length vals = length cats -> (combine cats vals).*1 = cats.
Proof.
  induction cats as [|c cats IH]; intros [|v vals] Hlen; try discriminate;
    [reflexivity|].
  cbn. f_equal. apply IH. now injection Hlen.
Qed.

Lemma combine_nth : forall (cats : list string) (vals : list Q) j c x,
  nth_error cats j = Some c -> nth_error vals j = Some x ->
  In (c, x) (combine cats vals).
Proof.
  induction cats as [|c0 cats IH]; intros [|v vals] [|j] c x; cbn;
    try discriminate.
  - intros [= <-] [= <-]. now left.
  - intros Hc Hx. right. eapply IH; eassumption.
Qed.

Lemma forecast_row_lookup label cats vals j cat x :
  NoDup cats -> length vals = length cats ->
  nth_error cats j = Some cat -> nth_error vals j = Some x ->
  forecast_row label cats vals !! cat = Some (Number x).
Proof.
  intros Hnd Hlen Hcat Hx. unfold forecast_row.
  rewrite forecast_row_fold by (rewrite combine_keys; assumption).
  rewrite (elem_of_list_to_map_1 (M := gmap string) (combine cats vals) cat x);
    [reflexivity| |].
  - rewrite combine_keys; assumption.
  - apply list_elem_of_In. eapply combine_nth; eassumption.
Qed.

Lemma forecast_row_label label cats vals :
  NoDup cats -> length vals = length cats -> ~ In "Month" cats ->
  forecast_row label cats vals !! "Month" = Some (Label label).
Proof.
  intros Hnd Hlen Hno. unfold forecast_row.
  rewrite forecast_row_fold by (rewrite combine_keys; assumption).
  rewrite not_elem_of_list_to_map_1.
  - now rewrite lookup_insert_eq.
  - rewrite combine_keys by assumption. now rewrite list_elem_of_In.
Qed.

Lemma month_label_cases month :
  ((1 <= month <= 12)%nat /\ exists l, month_label month = Done l) \/
  ((month = 0 \/ 13 <= month)%nat /\ month_label month = Failed ValueError).
Proof.
  do 13 (destruct month as [|month];
         [first [right; split; [left; reflexivity | reflexivity]
                |left; split; [lia | eexists; reflexivity]]|]).
  right. split; [right; lia | reflexivity].
Qed.

Lemma monthly_products_done : forall bases vs mv,
  monthly_products bases vs = Done mv -> length vs = length bases ->
  length mv = length bases /\
  forall j b v,
    nth_error bases j = Some (Some b) -> nth_error vs j = Some v ->
    nth_error mv j = Some (b * v).
Proof.
  induction bases as [|base bases IH]; intros vs mv Hdone Hlen.
  - destruct vs; [|discriminate]. injection Hdone as <-.
    split; [reflexivity|]. intros [|j]; discriminate.
  - destruct vs as [|v vs]; [discriminate|]. cbn [monthly_products] in Hdone.
    destruct base as [b|]; [|discriminate].
    destruct (monthly_products bases vs) as [rest|e] eqn:E; [|discriminate].
    injection Hdone as <-.
    destruct (IH vs rest E) as [Hl Hnth]; [now injection Hlen|].
    split; [cbn; now rewrite Hl|].
    intros [|j] b' v'; cbn.
    + now intros [= <-] [= <-].
    + apply Hnth.
Qed.

Section ForecastFacts.

Variable uniform : nat -> nat -> list Q.
Hypothesis uniform_length : forall month n, length (uniform month n) = n.

Variable categories : list string.
Variable base_values : list (option Q).
Hypothesis categories_distinct : NoDup categories.
Hypothesis same_length : length base_values = length categories.

Lemma forecast_month_type_error month :
  In None base_values ->
  forecast_month uniform categories base_values month
  = Failed (OfExn TypeError).
Proof.
  intros Hnone. unfold forecast_month.
  rewrite monthly_products_none; [reflexivity | exact Hnone|].
  now rewrite uniform_length.
Qed.

Lemma forecast_month_value_error month :
  ~ In None base_values -> (month = 0 \/ 13 <= month)%nat ->
  forecast_month uniform categories base_values month = Failed ValueError.
Proof.
  intros Hnone Hm. unfold forecast_month.
  destruct (monthly_products_some base_values
              (uniform month (length categories)) Hnone) as (mv & -> & _);
    [now rewrite uniform_length|].
  cbn [mbind result_bind].
  destruct (month_label_cases month) as [[Hr _]|[_ ->]]; [lia | reflexivity].
Qed.

Lemma forecast_month_done month :
  ~ In None base_values -> (1 <= month <= 12)%nat ->
  exists row, forecast_month uniform categories base_values month = Done row.
Proof.
  intros Hnone Hm. unfold forecast_month.
  destruct (monthly_products_some base_values
              (uniform month (length categories)) Hnone) as (mv & -> & _);
    [now rewrite uniform_length|].
  cbn [mbind result_bind].
  destruct (month_label_cases month) as [[_ [l ->]]|[Hr _]]; [|lia].
  cbn [mbind result_bind]. eauto.
Qed.

(** The cells of a row that was produced. *)
Lemma forecast_month_cells month row j cat b :
  forecast_month uniform categories base_values month = Done row ->
  nth_error categories j = Some cat ->
  nth_error base_values j = Some (Some b) ->
  exists v,
    nth_error (uniform month (length categories)) j = Some v /\
    row !! cat
    = Some (Number (if (month =? 12)%nat && String.eqb cat "Shopping"
                    then b * v * (15 # 10) else b * v)).
Proof.
  unfold forecast_month. intros Hdone Hcat Hbase.
  destruct (monthly_products base_values (uniform month (length categories)))
    as [mv|e] eqn:Emv; [|discriminate].
  cbn [mbind result_bind] in Hdone.
  destruct (month_label month) as [label|e]; [|discriminate].
  cbn [mbind result_bind] in Hdone. injection Hdone as <-.
  destruct (monthly_products_done _ _ _ Emv) as [Hlen Hnth];
    [now rewrite uniform_length|].
  assert (j < length categories)%nat as Hj
    by (apply nth_error_Some; congruence).
  destruct (nth_error (uniform month (length categories)) j) as [v|] eqn:Ev.
  2:{ apply nth_error_None in Ev. rewrite uniform_length in Ev. lia. }
  exists v. split; [reflexivity|].
  specialize (Hnth j b v Hbase Ev).
  apply (forecast_row_lookup label categories _ j cat); try assumption.
  - destruct (month =? 12)%nat; [|congruence].
    destruct (index_of "Shopping" categories);
      [rewrite scale_at_length|]; congruence.
  - destruct (month =? 12)%nat; cbn [andb]; [|exact Hnth].
    destruct (String.eqb_spec cat "Shopping") as [->|Hne].
    + rewrite (index_of_nth categories "Shopping" j categories_distinct Hcat).
      rewrite scale_at_nth, Nat.eqb_refl, Hnth. reflexivity.
    + destruct (index_of "Shopping" categories) as [i|] eqn:Ei;
        [|exact Hnth].
      rewrite scale_at_nth.
      destruct (Nat.eqb_spec j i) as [->|_]; [|exact Hnth].
      apply index_of_some in Ei. congruence.
Qed.

Lemma forecast_loop_rows : forall months forecast rows,
  forecast_loop uniform categories base_values months forecast = Done rows ->
  exists new,
    rows = forecast ++ new /\ length new = length months /\
    forall i row,
      nth_error new i = Some row ->
      exists month,
        nth_error months i = Some month /\
        forecast_month uniform categories base_values month = Done row.
Proof.
  induction months as [|month months IH]; intros forecast rows Hdone.
  - injection Hdone as <-. exists []. rewrite app_nil_r.
    repeat split. intros [|i]; discriminate.
  - cbn [forecast_loop] in Hdone.
    destruct (forecast_month uniform categories base_values month)
      as [row|e] eqn:Erow; [|discriminate].
    cbn [mbind result_bind] in Hdone.
    destruct (IH _ _ Hdone) as (new & -> & Hlen & Hnth).
    exists (row :: new). rewrite <- app_assoc. split; [reflexivity|].
    split; [cbn; now rewrite Hlen|].
    intros [|i] row'; cbn.
    + intros [= <-]. eauto.
    + apply Hnth.
Qed.

Lemma forecast_loop_type_error month months forecast :
  In None base_values ->
  forecast_loop uniform categories base_values (month :: months) forecast
  = Failed (OfExn TypeError).
Proof.
  intros Hnone. cbn [forecast_loop].
  now rewrite forecast_month_type_error.
Qed.

Lemma forecast_loop_in_year : forall n a forecast,
  ~ In None base_values -> (1 <= a)%nat -> (a + n <= 13)%nat ->
  exists new,
    forecast_loop uniform categories base_values (seq a n) forecast
    = Done (forecast ++ new) /\ length new = n.
Proof.
  induction n as [|n IH]; intros a forecast Hnone Ha Hn.
  - exists []. now rewrite app_nil_r.
  - cbn [seq forecast_loop].
    destruct (forecast_month_done a Hnone) as [row ->]; [lia|].
    cbn [mbind result_bind].
    destruct (IH (S a) (forecast ++ [row]) Hnone) as (new & -> & Hlen);
      [lia | lia|].
    exists (row :: new). rewrite <- app_assoc. split; [reflexivity|].
    cbn. now rewrite Hlen.
Qed.

Lemma forecast_loop_past_december : forall n a forecast,
  ~ In None base_values -> (1 <= a <= 13)%nat -> (13 < a + n)%nat ->
  forecast_loop uniform categories base_values (seq a n) forecast
  = Failed ValueError.
Proof.
  induction n as [|n IH]; intros a forecast Hnone Ha Hn; [lia|].
  cbn [seq forecast_loop].
  destruct (Nat.eq_dec a 13%nat) as [->|Hne].
  - rewrite forecast_month_value_error; [reflexivity | exact Hnone | lia].
  - destruct (forecast_month_done a Hnone) as [row ->]; [lia|].
    cbn [mbind result_bind]. apply IH; [exact Hnone | lia | lia].
Qed.

End ForecastFacts.

Lemma budget_items_none (budget : gmap string (option Q)) :
  In None (map snd (map_to_list budget))
  <-> exists cat, budget !! cat = Some None.
Proof.
  rewrite in_map_iff. split.
  - intros ([cat v] & Hv & Hin). cbn in Hv. subst v. exists cat.
    now apply list_elem_of_In, elem_of_map_to_list in Hin.
  - intros [cat Hcat]. exists (cat, None). split; [reflexivity|].
    now apply list_elem_of_In, elem_of_map_to_list.
Qed.

Lemma budget_items_distinct (budget : gmap string (option Q)) :
  NoDup (map fst (map_to_list budget)).
Proof. exact (NoDup_fst_map_to_list budget). Qed.

Lemma budget_items_nth (budget : gmap string (option Q)) cat v :
  budget !! cat = Some v ->
  exists j,
    nth_error (map fst (map_to_list budget)) j = Some cat /\
    nth_error (map snd (map_to_list budget)) j = Some v.
Proof.
  intros Hv. apply elem_of_map_to_list, list_elem_of_In, In_nth_error in Hv.
  destruct Hv as [j Hj]. exists j.
  rewrite !nth_error_map, Hj. split; reflexivity.
Qed.

Lemma forecast_in_year_returns
    (uniform : nat -> nat -> list Q) (budget : gmap string (option Q)) months :
  (forall month n, length (uniform month n) = n) ->
  (months <= 12)%nat -> (forall cat, budget !! cat <> Some None) ->
  exists rows,
    generate_spending_forecast uniform budget months = Done rows /\
    length rows = months.
Proof.
  intros Hlen Hm Hnum. unfold generate_spending_forecast, year_range.
  destruct (forecast_loop_in_year uniform Hlen
              (map fst (map_to_list budget)) (map snd (map_to_list budget))
              ltac:(now rewrite !length_map)
              months 1 []) as (new & Hnew & Hl); try lia.
  - rewrite budget_items_none. intros [cat Hcat]. exact (Hnum cat Hcat).
  - exists new. split; [exact Hnew | exact Hl].
Qed.

(** X23.  When [generate_spending_forecast] fails, given that every draw
    has the requested number of values.  With months = 0 it returns no row.
    With months >= 1 and a budget entry whose value is [None] (a variable the
    solver left without a value) it raises [TypeError].  With a budget of
    numbers only it returns one row per month for months <= 12 and raises
    [ValueError] for every months >= 13, because the thirteenth month is not
    a calendar month. *)
Theorem forecast_fails_past_twelve_months
    (uniform : nat -> nat -> list Q) (budget : gmap string (option Q)) months :
  (forall month n, length (uniform month n) = n) ->
  (months = 0%nat -> generate_spending_forecast uniform budget months = Done []) /\
  ((1 <= months)%nat -> (exists cat, budget !! cat = Some None) ->
   generate_spending_forecast uniform budget months
   = Failed (OfExn TypeError)) /\
  ((13 <= months)%nat -> (forall cat, budget !! cat <> Some None) ->
   generate_spending_forecast uniform budget months = Failed ValueError) /\
  ((months <= 12)%nat -> (forall cat, budget !! cat <> Some None) ->
   exists rows,
     generate_spending_forecast uniform budget months = Done rows /\
     length rows = months).
Proof.
  intros Hlen. unfold generate_spending_forecast, year_range.
  split; [|split; [|split]].
  - now intros ->.
  - intros Hm Hnone. apply budget_items_none in Hnone.
    destruct months as [|k]; [lia|]. cbn [seq].
    apply forecast_loop_type_error;
      solve [assumption | now rewrite !length_map].
  - intros Hm Hnum.
    apply forecast_loop_past_december; try assumption; try lia;
      try (now rewrite !length_map).
    rewrite budget_items_none. intros [cat Hcat]. exact (Hnum cat Hcat).
  - intros Hm Hnum.
    exact (forecast_in_year_returns uniform budget months Hlen Hm Hnum).
Qed.

Lemma rent_only_budget_numeric cat : rent_only_budget !! cat <> Some None.
Proof.
  unfold rent_only_budget. destruct (decide (cat = "Rent")) as [->|Hne].
  - rewrite lookup_insert_eq. discriminate.
  - rewrite lookup_insert_ne, lookup_empty by congruence. discriminate.
Qed.

Lemma flat_draws_length month n : length (flat_draws month n) = n.
Proof. apply repeat_length. Qed.

Lemma forecast_fails_past_twelve_months_witness :
  (13 <= 13)%nat /\
  generate_spending_forecast flat_draws rent_only_budget 13
  = Failed ValueError.
Proof.
  split; [lia|].
  destruct (forecast_fails_past_twelve_months flat_draws rent_only_budget 13
              flat_draws_length) as (_ & _ & Hlate & _).
  apply Hlate; [lia | exact rent_only_budget_numeric].
Defined.

(** X24.  Every forecast value stays within the band of its budget value:
    if every draw has the requested number of values, each between 0.95 and
    1.15, then in every returned row a category with a non-negative budget
    value b holds a number between 0.95 b and 1.15 b, except "Shopping" in
    the twelfth row, which holds a number between 1.425 b and 1.725 b (the
    1.5 seasonal factor).  The row's "Month" cell is its label unless a
    category is itself called "Month". *)
Theorem forecast_values_within_band
    (uniform : nat -> nat -> list Q) (budget : gmap string (option Q))
    months rows :
  (forall month n, length (uniform month n) = n) ->
  (forall month n v, In v (uniform month n) ->
     (95 # 100) <= v /\ v <= (115 # 100)) ->
  generate_spending_forecast uniform budget months = Done rows ->
  length rows = months /\
  forall i row, nth_error rows i = Some row ->
    (forall cat b, budget !! cat = Some (Some b) -> 0 <= b ->
       exists x,
         row !! cat = Some (Number x) /\
         if (S i =? 12)%nat && String.eqb cat "Shopping"
         then (1425 # 1000) * b <= x /\ x <= (1725 # 1000) * b
         else (95 # 100) * b <= x /\ x <= (115 # 100) * b) /\
    (budget !! "Month" = None -> exists label, row !! "Month" = Some (Label label)).
Proof.
  intros Hlen Hband Hdone.
  unfold generate_spending_forecast, year_range in Hdone.
  destruct (forecast_loop_rows uniform _ _ _ _ _ Hdone)
    as (new & -> & Hl & Hnth).
  cbn [app]. rewrite length_seq in Hl. split; [exact Hl|].
  intros i row Hrow.
  destruct (Hnth i row Hrow) as (month & Hmonth & Hrowdone).
  assert (month = S i) as ->.
  { rewrite nth_error_seq in Hmonth.
    destruct (i <? months)%nat; [|discriminate]. now injection Hmonth. }
  split.
  - intros cat b Hb Hpos.
    destruct (budget_items_nth budget cat (Some b) Hb) as (j & Hcat & Hbase).
    destruct (forecast_month_cells uniform Hlen
                (map fst (map_to_list budget)) (map snd (map_to_list budget))
                (budget_items_distinct budget)
                ltac:(now rewrite !length_map)
                (S i) row j cat b Hrowdone Hcat Hbase) as (v & Hv & Hcell).
    apply nth_error_In, Hband in Hv. destruct Hv as [Hlo Hhi].
    eexists. split; [exact Hcell|].
    destruct ((S i =? 12)%nat && String.eqb cat "Shopping"); split; nra.
  - intros Hno.
    unfold forecast_month in Hrowdone.
    destruct (monthly_products _ _) as [mv|e] eqn:Emv; [|discriminate].
    cbn [mbind result_bind] in Hrowdone.
    destruct (month_label (S i)) as [label|e]; [|discriminate].
    cbn [mbind result_bind] in Hrowdone. injection Hrowdone as <-.
    exists label.
    destruct (monthly_products_done _ _ _ Emv) as [Hmv _];
      [now rewrite Hlen, !length_map|].
    apply forecast_row_label.
    + apply budget_items_distinct.
    + rewrite !length_map in *.
      match goal with
      | |- context [if ?c then _ else _] => destruct c; [|exact Hmv]
      end.
      destruct (index_of "Shopping" _); [rewrite scale_at_length|]; exact Hmv.
    + intros Hin. apply in_map_iff in Hin.
      destruct Hin as ([c v] & Hc & Hin). cbn in Hc. subst c.
      apply list_elem_of_In, elem_of_map_to_list in Hin. congruence.
Qed.

Lemma forecast_values_within_band_witness :
  exists rows,
    generate_spending_forecast flat_draws rent_only_budget 12 = Done rows /\
    length rows = 12%nat.
Proof.
  destruct (forecast_in_year_returns flat_draws rent_only_budget 12
              flat_draws_length ltac:(lia) rent_only_budget_numeric)
    as (rows & Hrows & _).
  exists rows. split; [exact Hrows|].
  destruct (forecast_values_within_band flat_draws rent_only_budget 12 rows
              flat_draws_length) as [Hl _].
  - intros month n v Hv. apply repeat_spec in Hv. subst v. split; discriminate.
  - exact Hrows.
  - exact Hl.
Defined.

(** * Further properties of the optimizer *)

(** Building the objective raises nothing but [ZeroDivisionError], and raises
    it exactly when there is a category and the income is zero, or some
    category has amount zero. *)
Lemma objective_terms_raises income min_savings risk_appetite
    (items : list (string * SpendingEntry)) :
  (exists ts, objective_terms income min_savings risk_appetite items
              = Returned ts /\
     ~ ((items <> [] /\ income == 0) \/
        exists item, In item items /\ amount (snd item) == 0))
  \/
  (objective_terms income min_savings risk_appetite items
   = Raised ZeroDivisionError /\
   ((items <> [] /\ income == 0) \/
    exists item, In item items /\ amount (snd item) == 0)).
Proof.
  induction items as [|item rest IH].
  - left. exists []. split; [reflexivity|].
    intros [[H _]|(item & [] & _)]. now apply H.
  - cbn [objective_terms]. unfold objective_term, Py.div.
    destruct (Qeq_bool (amount (snd item)) 0) eqn:Ea.
    { right. split; [reflexivity|]. right. exists item.
      split; [now left | now apply Qeq_bool_iff]. }
    cbn [mbind outcome_bind].
    destruct (Qeq_bool income 0) eqn:Ei.
    { right. split; [reflexivity|]. left.
      split; [discriminate | now apply Qeq_bool_iff]. }
    cbn [mbind outcome_bind].
    apply Qeq_bool_neq in Ea, Ei.
    destruct IH as [(ts & -> & Hno)|[-> Hyes]].
    + left. eexists. split; [reflexivity|].
      intros [[_ H]|(it & [<-|Hin] & Hz)]; try contradiction.
      apply Hno. right. exists it. split; assumption.
    + right. split; [reflexivity|].
      destruct Hyes as [[_ H]|(it & Hin & Hz)]; [contradiction|].
      right. exists it. split; [now right | exact Hz].
Qed.

(** X25.  [optimize_budget] raises [ZeroDivisionError], whatever the solver,
    exactly when the spending map has a category and the income is zero, or
    some category has amount zero: the objective divides by both before the
    solver is called. *)
Theorem optimize_budget_zero_division
    (solve : LpProblem -> LpStatus * gmap string Q)
    income (data : gmap string SpendingEntry) min_savings risk_appetite :
  optimize_budget solve income data min_savings risk_appetite
  = Raised ZeroDivisionError
  <-> ((data <> ∅ /\ income == 0) \/
       exists cat d, data !! cat = Some d /\ amount d == 0).
Proof.
  assert (((map_to_list data <> [] /\ income == 0) \/
           exists item, In item (map_to_list data) /\ amount (snd item) == 0)
          <-> ((data <> ∅ /\ income == 0) \/
               exists cat d, data !! cat = Some d /\ amount d == 0)) as Hcond.
  { split; (intros [[Hne Hi]|Hz]; [left|right]).
    - split; [|exact Hi]. intros ->. apply Hne. apply map_to_list_empty.
    - destruct Hz as ([cat d] & Hin & Hz). exists cat, d.
      split; [|exact Hz]. now apply elem_of_map_to_list, list_elem_of_In.
    - split; [|exact Hi]. intros E. apply Hne.
      now apply map_to_list_empty_iff.
    - destruct Hz as (cat & d & Hd & Hz). exists (cat, d).
      split; [|exact Hz]. now apply list_elem_of_In, elem_of_map_to_list. }
  rewrite <- Hcond. unfold optimize_budget, budget_problem.
  destruct (objective_terms_raises income min_savings risk_appetite
              (map_to_list data)) as [(ts & -> & Hno)|[-> Hyes]].
  - cbn [mbind outcome_bind]. split; [|contradiction].
    intros Hraise. exfalso.
    destruct (map_to_list data) as [|item items].
    + cbn [map add_total_constraint] in Hraise.
      destruct (Qle_bool 0 (income - min_savings));
        cbn [mbind outcome_bind] in Hraise; [|discriminate].
      destruct (Qle_bool (income * (4 # 10)) 0);
        cbn [mbind outcome_bind] in Hraise; discriminate.
    + cbn [map add_total_constraint mbind outcome_bind] in Hraise.
      discriminate.
  - cbn [mbind outcome_bind]. split; [intros _; exact Hyes | reflexivity].
Qed.

Lemma optimize_budget_zero_division_witness :
  optimize_budget sample_solver 0 sample_spending 10000 (1 # 2)
  = Raised ZeroDivisionError /\
  optimize_budget sample_solver 50000 zero_amount_spending 10000 (1 # 2)
  = Raised ZeroDivisionError.
Proof.
  split.
  - apply (optimize_budget_zero_division sample_solver 0 sample_spending).
    left. split; [|reflexivity].
    intros E. apply (f_equal (fun m => m !! "Rent")) in E.
    unfold sample_spending in E. rewrite lookup_insert_eq, lookup_empty in E.
    discriminate.
  - apply (optimize_budget_zero_division sample_solver 50000
             zero_amount_spending).
    right. eexists "Gifts", _. split.
    + unfold zero_amount_spending. apply lookup_insert_eq.
    + reflexivity.
Defined.

Lemma qsum_map_le {A} (f g : A -> Q) (l : list A) :
  (forall a, In a l -> f a <= g a) -> qsum (map f l) <= qsum (map g l).
Proof.
  induction l as [|a l IH]; intros H; cbn; [lra|].
  pose proof (H a (or_introl eq_refl)).
  assert (qsum (map f l) <= qsum (map g l)) as IH'
    by (apply IH; intros b Hb; apply H; now right).
  unfold qsum in IH'. lra.
Qed.

Lemma qsum_map_scale {A} (f : A -> Q) (k : Q) (l : list A) :
  qsum (map (fun a => f a * k) l) == qsum (map f l) * k.
Proof.
  induction l as [|a l IH]; cbn; [lra|]. unfold qsum in IH. rewrite IH. lra.
Qed.

(** What the variable bounds say of a satisfying assignment. *)
Lemma budget_bounds_hold income (data : gmap string SpendingEntry)
    min_savings risk_appetite P (v : gmap string Q) cat d :
  budget_problem income data min_savings risk_appetite = Returned P ->
  lp_satisfies P v = true ->
  data !! cat = Some d ->
  exists q,
    v !! cat = Some q /\
    amount d * risk_floor risk_appetite <= q /\
    q <= amount d * risk_ceiling risk_appetite.
Proof.
  intros Hbuild Hsat Hd.
  destruct (budget_problem_shape _ _ _ _ _ Hbuild) as [Hvars _].
  destruct (lp_satisfies_inv P v Hsat) as [Hbounds _].
  apply (Hbounds (budget_variable risk_appetite cat d)).
  rewrite Hvars. apply in_map_iff. exists (cat, d). split; [reflexivity|].
  now apply list_elem_of_In, elem_of_map_to_list.
Qed.

Lemma optimize_budget_allocation
    (solve : LpProblem -> LpStatus * gmap string Q)
    income (data : gmap string SpendingEntry) min_savings risk_appetite P :
  budget_problem income data min_savings risk_appetite = Returned P ->
  lp_satisfies P (snd (solve P)) = true ->
  optimize_budget solve income data min_savings risk_appetite
  = Returned (Some <$> allocation_of (snd (solve P)) data).
Proof.
  intros Hbuild Hsat.
  rewrite (optimize_budget_returns solve _ _ _ _ P Hbuild). f_equal.
  apply map_eq. intros k.
  rewrite (optimize_budget_lookup solve _ _ _ _ P k Hbuild).
  rewrite lookup_fmap, allocation_of_lookup.
  destruct (data !! k) as [d|] eqn:Hk; [|reflexivity].
  destruct (budget_bounds_hold _ _ _ _ _ _ k d Hbuild Hsat Hk) as (q & -> & _).
  reflexivity.
Qed.

(** X26.  When the values the solver leaves satisfy the program that was
    built, every category of the returned allocation lies in its risk band,
    between 70% and 130% of its current amount for a risk appetite above 0.5
    and between 90% and 110% otherwise, and the allocation's total is at
    least 40% of the income. *)
Theorem optimize_budget_within_risk_band
    (solve : LpProblem -> LpStatus * gmap string Q)
    income (data : gmap string SpendingEntry) min_savings risk_appetite P :
  budget_problem income data min_savings risk_appetite = Returned P ->
  lp_satisfies P (snd (solve P)) = true ->
  exists alloc : gmap string Q,
    optimize_budget solve income data min_savings risk_appetite
    = Returned (Some <$> alloc) /\
    (forall cat d, data !! cat = Some d ->
       exists x,
         alloc !! cat = Some x /\
         amount d * risk_floor risk_appetite <= x /\
         x <= amount d * risk_ceiling risk_appetite) /\
    income * (4 # 10) <= allocation_total alloc.
Proof.
  intros Hbuild Hsat. exists (allocation_of (snd (solve P)) data).
  split; [now apply optimize_budget_allocation|]. split.
  - intros cat d Hd. rewrite allocation_of_lookup, Hd.
    destruct (budget_bounds_hold _ _ _ _ _ _ cat d Hbuild Hsat Hd)
      as (q & -> & Hq).
    exists q. split; [reflexivity | exact Hq].
  - rewrite allocation_of_total.
    exact (proj2 (budget_constraints_hold _ _ _ _ _ _ Hbuild Hsat)).
Qed.

Lemma optimize_budget_within_risk_band_witness :
  exists alloc : gmap string Q,
    optimize_budget sample_solver 50000 sample_spending 10000 (1 # 2)
    = Returned (Some <$> alloc) /\
    50000 * (4 # 10) <= allocation_total alloc.
Proof.
  destruct sample_problem_built as (P & HP & Hsat).
  destruct (optimize_budget_within_risk_band sample_solver 50000
              sample_spending 10000 (1 # 2) P HP Hsat)
    as (alloc & Hret & _ & Htotal).
  exists alloc. split; [exact Hret | exact Htotal].
Defined.

(** X27.  What feasibility needs.  A program that is built and has a
    feasible point has min_savings at most 60% of the income, the lowest
    allowed total (70% or 90% of the current amounts) at most
    income - min_savings, and the highest allowed total (130% or 110%) at
    least 40% of the income. *)
Theorem optimize_budget_feasibility_needs
    income (data : gmap string SpendingEntry) min_savings risk_appetite P :
  budget_problem income data min_savings risk_appetite = Returned P ->
  lp_feasible P ->
  min_savings <= income * (6 # 10) /\
  current_total data * risk_floor risk_appetite <= income - min_savings /\
  income * (4 # 10) <= current_total data * risk_ceiling risk_appetite.
Proof.
  intros Hbuild [v Hsat].
  destruct (budget_constraints_hold _ _ _ _ _ v Hbuild Hsat) as [H1 H2].
  assert (forall item, In item (map_to_list data) ->
            amount (snd item) * risk_floor risk_appetite
            <= default 0 (v !! fst item)
            /\ default 0 (v !! fst item)
               <= amount (snd item) * risk_ceiling risk_appetite) as Hband.
  { intros [cat d] Hin. apply list_elem_of_In, elem_of_map_to_list in Hin.
    destruct (budget_bounds_hold _ _ _ _ _ _ cat d Hbuild Hsat Hin)
      as (q & Hq & Hlo & Hhi).
    cbn [fst snd]. rewrite Hq. cbn [default]. split; assumption. }
  pose proof (qsum_map_le _ _ _ (fun a Ha => proj1 (Hband a Ha))) as Hlow.
  pose proof (qsum_map_le _ _ _ (fun a Ha => proj2 (Hband a Ha))) as Hhigh.
  rewrite (qsum_map_scale (fun item : string * SpendingEntry =>
                             amount (snd item))) in Hlow, Hhigh.
  fold (current_total data) in Hlow, Hhigh.
  revert H1 H2 Hlow Hhigh.
  generalize (qsum (map (fun item : string * SpendingEntry =>
                           default 0 (v !! fst item)) (map_to_list data))).
  generalize (current_total data * risk_floor risk_appetite).
  generalize (current_total data * risk_ceiling risk_appetite).
  intros hi lo spent H1 H2 Hlow Hhigh. repeat split; lra.
Qed.

Lemma optimize_budget_feasibility_needs_witness :
  (10000 : Q) <= 50000 * (6 # 10).
Proof.
  destruct sample_problem_built as (P & HP & Hsat).
  destruct (optimize_budget_feasibility_needs 50000 sample_spending 10000
              (1 # 2) P HP) as (H & _).
  - exists (snd (sample_solver P)). exact Hsat.
  - exact H.
Defined.
